(** * The data-cleaning pipeline of dataops-governance-lab

    A shallow embedding of [notebooks/pipeline_ingestao.py] (ingestion) and
    [notebooks/correcao_automatica.py] (automatic correction), and the
    properties of their tables that the specification states.

    Conventions of the embedding.
    - A Python [str] is a list of Unicode code points ([text]).
    - A scalar of a pandas column is a [cell]; a missing value is [NaN]
      (object and float columns) or [NaT] (datetime columns).
    - The ingestion functions name their columns one by one, so their tables
      are lists of records, one record type per entity, with the column
      names of the source as field names (prefixed by the entity's letter).
    - The correction functions are generic in the columns (they walk
      [df.columns] and test the names), so their tables are a list of
      column names with rows that map a column name to a cell.
    - Boolean-mask indexing [df[mask]] with an elementwise mask is the
      filter of the rows by the mask's predicate.
    - What pandas computes and the source does not fix (the permissive date
      parser, the Unicode tables, the rendering of numbers) is a field of
      the class [Pandas]. *)

From Stdlib Require Import ZArith QArith Ascii String List Lia Permutation Sorted.
From stdpp Require Import gmap strings list fin_maps.

Local Open Scope Z_scope.
Local Open Scope list_scope.

(** ** Text *)

Definition text := list N.

Definition text_of (s : string) : text :=
  List.map N_of_ascii (list_ascii_of_string s).

Definition is_ascii (c : N) : bool := (c <? 128)%N.

Definition ascii_digit (c : N) : bool := ((48 <=? c) && (c <=? 57))%N.

(** [str.lower()] on the ASCII letters; other code points are left as they
    are (the case mapping of the rest of Unicode is not modelled). *)
Definition lower_char (c : N) : N :=
  if ((65 <=? c) && (c <=? 90))%N then (c + 32)%N else c.

Definition str_lower (s : text) : text := List.map lower_char s.

(** The code points Python's [str.isspace] accepts, which are the ones
    [str.strip()] removes. *)
Definition is_space (c : N) : bool :=
  (((9 <=? c) && (c <=? 13)) || ((28 <=? c) && (c <=? 32))
   || (c =? 133) || (c =? 160) || (c =? 5760)
   || ((8192 <=? c) && (c <=? 8202))
   || (c =? 8232) || (c =? 8233) || (c =? 8239) || (c =? 8287)
   || (c =? 12288))%N.

Fixpoint lstrip (s : text) : text :=
  match s with
  | c :: s' => if is_space c then lstrip s' else s
  | [] => []
  end.

Definition rstrip (s : text) : text := rev (lstrip (rev s)).

Definition str_strip (s : text) : text := rstrip (lstrip s).

(** [str.pad(width, side="left", fillchar)] *)
Definition str_pad_left (width : nat) (fillchar : N) (s : text) : text :=
  repeat fillchar (width - length s) ++ s.

(** [encode('ascii', errors='ignore')] then [decode('utf-8')]: the code
    points outside ASCII are dropped, the others kept. *)
Definition encode_ascii_ignore (s : text) : text := List.filter is_ascii s.

(** Substring test, Python's [sub in s]. *)
Fixpoint is_prefix (p s : list ascii) : bool :=
  match p, s with
  | [], _ => true
  | a :: p', b :: s' => if Ascii.eqb a b then is_prefix p' s' else false
  | _ :: _, [] => false
  end.

Fixpoint contains_from (p s : list ascii) : bool :=
  is_prefix p s ||
  match s with
  | [] => false
  | _ :: s' => contains_from p s'
  end.

Definition str_in (sub s : string) : bool :=
  contains_from (list_ascii_of_string sub) (list_ascii_of_string s).

(** ** Regular expressions, for [str.contains] *)

Inductive regex :=
| Nothing
| Epsilon
| Class (p : N -> bool)
| Cat (r1 r2 : regex)
| Alt (r1 r2 : regex)
| Star (r : regex).

Fixpoint nullable (r : regex) : bool :=
  match r with
  | Nothing => false
  | Epsilon => true
  | Class _ => false
  | Cat r1 r2 => nullable r1 && nullable r2
  | Alt r1 r2 => nullable r1 || nullable r2
  | Star _ => true
  end.

Fixpoint deriv (c : N) (r : regex) : regex :=
  match r with
  | Nothing => Nothing
  | Epsilon => Nothing
  | Class p => if p c then Epsilon else Nothing
  | Cat r1 r2 =>
      if nullable r1 then Alt (Cat (deriv c r1) r2) (deriv c r2)
      else Cat (deriv c r1) r2
  | Alt r1 r2 => Alt (deriv c r1) (deriv c r2)
  | Star r1 => Cat (deriv c r1) (Star r1)
  end.

Fixpoint fullmatch (r : regex) (s : text) : bool :=
  match s with
  | [] => nullable r
  | c :: s' => fullmatch (deriv c r) s'
  end.

Definition Plus (r : regex) : regex := Cat r (Star r).
Definition any_char : regex := Class (fun _ => true).

(** [re.search]: the pattern matches somewhere in the string. *)
Definition re_search (r : regex) (s : text) : bool :=
  fullmatch (Cat (Star any_char) (Cat r (Star any_char))) s.

Definition not_at : regex := Class (fun c => negb (c =? 64)%N).
Definition lit (a : N) : regex := Class (fun c => (c =? a)%N).

(** The pattern [[^@]+@[^@]+\.[^@]+] of the e-mail filter. *)
Definition email_pattern : regex :=
  Cat (Plus not_at) (Cat (lit 64) (Cat (Plus not_at) (Cat (lit 46) (Plus not_at)))).

(** ** Cells *)

Inductive cell :=
| NaN
| NaT
| Str (s : text)
| Num (q : Q)
| Bool (b : bool)
| Timestamp (t : Z).

#[global] Instance Q_eq_dec : EqDecision Q.
Proof. solve_decision. Defined.

#[global] Instance cell_eq_dec : EqDecision cell.
Proof. solve_decision. Defined.

Definition isna (c : cell) : bool :=
  match c with
  | NaN | NaT => true
  | _ => false
  end.

Definition notna (c : cell) : bool := negb (isna c).

(** [Series.isin(values)]; a missing value is a member when the values
    hold a missing value. *)
Definition isin (c : cell) (values : list cell) : bool :=
  bool_decide (c ∈ values).

(** [Series.fillna(v)] *)
Definition fillna (v : cell) (c : cell) : cell :=
  if isna c then v else c.

(** [Series.astype(bool)] *)
Definition astype_bool (c : cell) : cell :=
  match c with
  | Bool b => Bool b
  | Str [] => Bool false
  | Num q => Bool (negb (Qeq_bool q 0))
  | _ => Bool true
  end.

(** What pandas and the Unicode database compute and the source leaves to
    them. *)
Class Pandas := {
  (** the permissive parser behind [pd.to_datetime] on a string: the
      instant, or nothing when the string is not a date *)
  parse_datetime : text -> option Z;
  (** [pd.to_datetime] on a number or a boolean *)
  datetime_of_scalar : cell -> option Z;
  (** [str()] of a number or of a timestamp *)
  str_of_scalar : cell -> text;
  (** [unicodedata.normalize('NFKD', _)] *)
  nfkd : text -> text;
  (** the decimal digits of Unicode beyond ASCII *)
  other_decimal_digit : N -> bool
}.

(** ** Exceptions *)

Inductive exn :=
| FileNotFoundError (path : string)
| KeyError (column : string)
| TypeError.

Inductive result (A : Type) :=
| Ok (a : A)
| Raise (e : exn).

Arguments Ok {A} a.
Arguments Raise {A} e.

#[global] Instance result_ret : MRet result := fun A a => Ok a.

#[global] Instance result_bind : MBind result := fun A B f m =>
  match m with
  | Ok a => f a
  | Raise e => Raise e
  end.

(** ** Row selection of pandas, over any kind of row *)

Section RowOps.
Context {A K : Type} `{EqDecision K}.
Variable key : A -> K.

Definition has_key (k : K) (x : A) : bool := bool_decide (key x = k).

(** [duplicated(keep='first')] marks a row when an earlier row has its
    key; [drop_duplicates] keeps the unmarked rows. *)
Fixpoint drop_marked_first (seen : list K) (l : list A) : list A :=
  match l with
  | [] => []
  | x :: l' =>
      if bool_decide (key x ∈ seen) then drop_marked_first seen l'
      else x :: drop_marked_first (key x :: seen) l'
  end.

Definition drop_duplicates_first (l : list A) : list A :=
  drop_marked_first [] l.

(** [duplicated(keep='last')] marks a row when a later row has its key. *)
Fixpoint drop_duplicates_last (l : list A) : list A :=
  match l with
  | [] => []
  | x :: l' =>
      if bool_decide (key x ∈ List.map key l') then drop_duplicates_last l'
      else x :: drop_duplicates_last l'
  end.

(** The row a key is found at, from the top and from the bottom. *)
Definition first_with (k : K) (l : list A) : option A :=
  head (List.filter (has_key k) l).


(** Sorting by the key, ascending, rows of equal keys staying in their
    order. [leb] is the order of the keys. *)
Variable leb : K -> K -> bool.

Fixpoint insert_by (x : A) (l : list A) : list A :=
  match l with
  | [] => [x]
  | y :: l' => if leb (key x) (key y) then x :: l else y :: insert_by x l'
  end.

Definition sort_by (l : list A) : list A := foldr insert_by [] l.
End RowOps.

(** The order [sort_values] puts cells in: missing values last
    ([na_position='last']), strings by code point, numbers and booleans by
    value, timestamps by instant. *)
Fixpoint text_leb (s1 s2 : text) : bool :=
  match s1, s2 with
  | [], _ => true
  | _ :: _, [] => false
  | a :: s1', b :: s2' =>
      if (a <? b)%N then true else if (b <? a)%N then false else text_leb s1' s2'
  end.

Definition Q_of_bool (b : bool) : Q := if b then 1%Q else 0%Q.

Inductive kind := KText | KNumber | KInstant.

#[global] Instance kind_eq_dec : EqDecision kind.
Proof. solve_decision. Defined.

Definition kind_of (c : cell) : option kind :=
  match c with
  | NaN | NaT => None
  | Str _ => Some KText
  | Num _ | Bool _ => Some KNumber
  | Timestamp _ => Some KInstant
  end.

Definition cell_leb (c1 c2 : cell) : bool :=
  match c1, c2 with
  | _, (NaN | NaT) => true
  | (NaN | NaT), _ => false
  | Str s1, Str s2 => text_leb s1 s2
  | Num q1, Num q2 => Qle_bool q1 q2
  | Num q1, Bool b2 => Qle_bool q1 (Q_of_bool b2)
  | Bool b1, Num q2 => Qle_bool (Q_of_bool b1) q2
  | Bool b1, Bool b2 => implb b1 b2
  | Timestamp t1, Timestamp t2 => (t1 <=? t2)%Z
  | _, _ => true
  end.

(** Python compares two values of one kind only: a column that mixes
    strings with numbers or timestamps cannot be sorted. *)
Definition comparable (cs : list cell) : bool :=
  match omap kind_of cs with
  | [] => true
  | k :: ks => forallb (fun k' => bool_decide (k' = k)) ks
  end.

(** ** Column transformations shared by the two stages *)

Section Columns.
Context `{Pandas}.

(** [Series.astype(str)]: a missing value becomes the string [nan]. *)
Definition astype_str (c : cell) : text :=
  match c with
  | Str s => s
  | NaN => text_of "nan"
  | NaT => text_of "NaT"
  | Bool true => text_of "True"
  | Bool false => text_of "False"
  | Num _ | Timestamp _ => str_of_scalar c
  end.

(** [.astype(str).str.normalize('NFKD').str.encode('ascii',
    errors='ignore').str.decode('utf-8')] *)
Definition ascii_fold (c : cell) : cell :=
  Str (encode_ascii_ignore (nfkd (astype_str c))).

(** [pd.to_datetime(_, errors='coerce')]: what is not a date becomes
    [NaT]; a timestamp stays. *)
Definition to_datetime (c : cell) : cell :=
  match c with
  | Timestamp t => Timestamp t
  | NaN | NaT => NaT
  | Str s =>
      match parse_datetime s with
      | Some t => Timestamp t
      | None => NaT
      end
  | Num _ | Bool _ =>
      match datetime_of_scalar c with
      | Some t => Timestamp t
      | None => NaT
      end
  end.

(** [\D] of Python's [re] on a [str]: what is not a decimal digit. *)
Definition decimal_digit (c : N) : bool :=
  if is_ascii c then ascii_digit c else other_decimal_digit c.

(** [.astype(str).str.replace(r"\D", "", regex=True).str.pad(width=11,
    side="left", fillchar="0")] *)
Definition padronizar_telefone (c : cell) : cell :=
  Str (str_pad_left 11 48%N (List.filter decimal_digit (astype_str c))).
End Columns.

(** A method of the [.str] accessor: it maps the strings and gives a
    missing value for anything else. *)
Definition str_method (f : text -> text) (c : cell) : cell :=
  match c with
  | Str s => Str (f s)
  | _ => NaN
  end.

(** [.str.contains(pattern)]: nothing (a missing value) off the strings. *)
Definition str_contains (r : regex) (c : cell) : option bool :=
  match c with
  | Str s => Some (re_search r s)
  | _ => None
  end.

(** [mask & other] where [other] may hold missing values: they count as
    [False]. *)
Definition mask_and (b : bool) (o : option bool) : bool :=
  b && default false o.

(** Comparisons of a float column with a number; a missing value compares
    [False]. *)
Definition ge_num (x : option Q) (q : Q) : bool :=
  match x with
  | Some v => Qle_bool q v
  | None => false
  end.

Definition gt_num (x : option Q) (q : Q) : bool :=
  match x with
  | Some v => negb (Qle_bool v q)
  | None => false
  end.

Definition lt_num (x : option Q) (q : Q) : bool :=
  match x with
  | Some v => negb (Qle_bool q v)
  | None => false
  end.

(** ** Ingestion: the tables of [pipeline_ingestao.py] *)

Record Cliente := {
  c_id_cliente : cell;
  c_nome : cell;
  c_email : cell;
  c_telefone : cell;
  c_data_nascimento : cell;
  c_data_cadastro : cell;
  c_cidade : cell;
  c_estado : cell
}.

Record ClienteLab := {
  l_id_cliente : cell;
  l_nome : cell;
  l_email : cell;
  l_idade : option Q;
  l_status : cell;
  l_data_cadastro : cell
}.

Record Produto := {
  p_id_produto : cell;
  p_nome_produto : cell;
  p_categoria : cell;
  p_preco : option Q;
  p_estoque : option Q;
  p_data_criacao : cell;
  p_ativo : cell
}.

Record Venda := {
  v_id_venda : cell;
  v_id_cliente : cell;
  v_id_produto : cell;
  v_quantidade : option Q;
  v_valor_unitario : option Q;
  v_valor_total : option Q;
  v_data_venda : cell
}.

Record Logistica := {
  g_id_entrega : cell;
  g_id_venda : cell;
  g_data_envio : cell;
  g_data_entrega_prevista : cell;
  g_data_entrega_real : cell
}.

(** Column assignment [df[col] = f(df[col])], one per assigned column. *)
Definition set_c_nome (f : cell -> cell) (r : Cliente) : Cliente :=
  {| c_id_cliente := c_id_cliente r; c_nome := f (c_nome r);
     c_email := c_email r; c_telefone := c_telefone r;
     c_data_nascimento := c_data_nascimento r;
     c_data_cadastro := c_data_cadastro r;
     c_cidade := c_cidade r; c_estado := c_estado r |}.

Definition set_c_cidade (f : cell -> cell) (r : Cliente) : Cliente :=
  {| c_id_cliente := c_id_cliente r; c_nome := c_nome r;
     c_email := c_email r; c_telefone := c_telefone r;
     c_data_nascimento := c_data_nascimento r;
     c_data_cadastro := c_data_cadastro r;
     c_cidade := f (c_cidade r); c_estado := c_estado r |}.

Definition set_c_data_nascimento (f : cell -> cell) (r : Cliente) : Cliente :=
  {| c_id_cliente := c_id_cliente r; c_nome := c_nome r;
     c_email := c_email r; c_telefone := c_telefone r;
     c_data_nascimento := f (c_data_nascimento r);
     c_data_cadastro := c_data_cadastro r;
     c_cidade := c_cidade r; c_estado := c_estado r |}.

Definition set_c_data_cadastro (f : cell -> cell) (r : Cliente) : Cliente :=
  {| c_id_cliente := c_id_cliente r; c_nome := c_nome r;
     c_email := c_email r; c_telefone := c_telefone r;
     c_data_nascimento := c_data_nascimento r;
     c_data_cadastro := f (c_data_cadastro r);
     c_cidade := c_cidade r; c_estado := c_estado r |}.

Definition set_l_nome (f : cell -> cell) (r : ClienteLab) : ClienteLab :=
  {| l_id_cliente := l_id_cliente r; l_nome := f (l_nome r);
     l_email := l_email r; l_idade := l_idade r; l_status := l_status r;
     l_data_cadastro := l_data_cadastro r |}.

Definition set_l_data_cadastro (f : cell -> cell) (r : ClienteLab) : ClienteLab :=
  {| l_id_cliente := l_id_cliente r; l_nome := l_nome r;
     l_email := l_email r; l_idade := l_idade r; l_status := l_status r;
     l_data_cadastro := f (l_data_cadastro r) |}.

Definition set_p_nome_produto (f : cell -> cell) (r : Produto) : Produto :=
  {| p_id_produto := p_id_produto r; p_nome_produto := f (p_nome_produto r);
     p_categoria := p_categoria r; p_preco := p_preco r;
     p_estoque := p_estoque r; p_data_criacao := p_data_criacao r;
     p_ativo := p_ativo r |}.

Definition set_p_categoria (f : cell -> cell) (r : Produto) : Produto :=
  {| p_id_produto := p_id_produto r; p_nome_produto := p_nome_produto r;
     p_categoria := f (p_categoria r); p_preco := p_preco r;
     p_estoque := p_estoque r; p_data_criacao := p_data_criacao r;
     p_ativo := p_ativo r |}.

Definition set_p_data_criacao (f : cell -> cell) (r : Produto) : Produto :=
  {| p_id_produto := p_id_produto r; p_nome_produto := p_nome_produto r;
     p_categoria := p_categoria r; p_preco := p_preco r;
     p_estoque := p_estoque r; p_data_criacao := f (p_data_criacao r);
     p_ativo := p_ativo r |}.

Definition set_p_ativo (f : cell -> cell) (r : Produto) : Produto :=
  {| p_id_produto := p_id_produto r; p_nome_produto := p_nome_produto r;
     p_categoria := p_categoria r; p_preco := p_preco r;
     p_estoque := p_estoque r; p_data_criacao := p_data_criacao r;
     p_ativo := f (p_ativo r) |}.

Definition set_v_data_venda (f : cell -> cell) (r : Venda) : Venda :=
  {| v_id_venda := v_id_venda r; v_id_cliente := v_id_cliente r;
     v_id_produto := v_id_produto r; v_quantidade := v_quantidade r;
     v_valor_unitario := v_valor_unitario r;
     v_valor_total := v_valor_total r; v_data_venda := f (v_data_venda r) |}.

Definition set_g_data_envio (f : cell -> cell) (r : Logistica) : Logistica :=
  {| g_id_entrega := g_id_entrega r; g_id_venda := g_id_venda r;
     g_data_envio := f (g_data_envio r);
     g_data_entrega_prevista := g_data_entrega_prevista r;
     g_data_entrega_real := g_data_entrega_real r |}.

Definition set_g_data_entrega_prevista (f : cell -> cell) (r : Logistica) : Logistica :=
  {| g_id_entrega := g_id_entrega r; g_id_venda := g_id_venda r;
     g_data_envio := g_data_envio r;
     g_data_entrega_prevista := f (g_data_entrega_prevista r);
     g_data_entrega_real := g_data_entrega_real r |}.

Definition set_g_data_entrega_real (f : cell -> cell) (r : Logistica) : Logistica :=
  {| g_id_entrega := g_id_entrega r; g_id_venda := g_id_venda r;
     g_data_envio := g_data_envio r;
     g_data_entrega_prevista := g_data_entrega_prevista r;
     g_data_entrega_real := f (g_data_entrega_real r) |}.

Definition email_valido (c : cell) : bool :=
  mask_and (notna c) (str_contains email_pattern c).

Section Ingestao.
Context `{Pandas}.

Definition clean_clientes (df : list Cliente) : list Cliente :=
  (* Corrige codificação *)
  let df := List.map (set_c_nome ascii_fold) df in
  let df := List.map (set_c_cidade ascii_fold) df in
  (* Remove duplicatas *)
  let df := drop_duplicates_first c_id_cliente df in
  (* Valida e-mails *)
  let df := List.filter (fun r => email_valido (c_email r)) df in
  (* Garante nome e telefone *)
  let df := List.filter (fun r => notna (c_nome r) && notna (c_telefone r)) df in
  (* Padroniza datas *)
  let df := List.map (set_c_data_nascimento to_datetime) df in
  let df := List.map (set_c_data_cadastro to_datetime) df in
  List.filter
    (fun r => notna (c_data_nascimento r) && notna (c_data_cadastro r)) df.

Definition clean_clientes_lab (df : list ClienteLab) : list ClienteLab :=
  (* Corrige codificação *)
  let df := List.map (set_l_nome ascii_fold) df in
  (* Remove duplicatas *)
  let df := drop_duplicates_first l_id_cliente df in
  (* Valida e-mails *)
  let df := List.filter (fun r => email_valido (l_email r)) df in
  (* Idade válida *)
  let df :=
    List.filter
      (fun r => bool_decide (l_idade r <> None) && ge_num (l_idade r) 0
                && lt_num (l_idade r) 120) df in
  (* Status preenchido *)
  let df := List.filter (fun r => notna (l_status r)) df in
  (* Datas *)
  let df := List.map (set_l_data_cadastro to_datetime) df in
  List.filter (fun r => notna (l_data_cadastro r)) df.

Definition clean_produtos (df : list Produto) : list Produto :=
  (* Corrige codificação *)
  let df := List.map (set_p_nome_produto ascii_fold) df in
  let df := List.map (set_p_categoria ascii_fold) df in
  (* Remove duplicatas *)
  let df := drop_duplicates_first p_id_produto df in
  (* Preço e estoque válidos *)
  let df := List.filter (fun r => ge_num (p_preco r) 0) df in
  let df := List.filter (fun r => ge_num (p_estoque r) 0) df in
  (* Data *)
  let df := List.map (set_p_data_criacao to_datetime) df in
  let df := List.filter (fun r => notna (p_data_criacao r)) df in
  (* Ativo: bool *)
  List.map (set_p_ativo astype_bool) df.

Definition clean_vendas (df : list Venda) (clientes_ids produtos_ids : list cell)
  : list Venda :=
  (* Remove duplicatas *)
  let df := drop_duplicates_first v_id_venda df in
  (* Valida referências *)
  let df := List.filter (fun r => isin (v_id_cliente r) clientes_ids) df in
  let df := List.filter (fun r => isin (v_id_produto r) produtos_ids) df in
  (* Quantidade e valores válidos *)
  let df := List.filter (fun r => gt_num (v_quantidade r) 0) df in
  let df := List.filter (fun r => ge_num (v_valor_unitario r) 0) df in
  let df := List.filter (fun r => ge_num (v_valor_total r) 0) df in
  (* Datas *)
  let df := List.map (set_v_data_venda to_datetime) df in
  List.filter (fun r => notna (v_data_venda r)) df.

Definition clean_logistica (df : list Logistica) (vendas_ids : list cell)
  : list Logistica :=
  (* Remove duplicatas *)
  let df := drop_duplicates_first g_id_entrega df in
  (* Valida referência à venda *)
  let df := List.filter (fun r => isin (g_id_venda r) vendas_ids) df in
  (* Datas *)
  let df := List.map (set_g_data_envio to_datetime) df in
  let df := List.map (set_g_data_entrega_prevista to_datetime) df in
  List.map (set_g_data_entrega_real to_datetime) df.
End Ingestao.

(** ** The ingestion run: files, log and the [try]/[except] of the module *)

(** One file per entity; [None] is a file that does not exist. A file is
    the table [read_csv] returns for it, or the one [to_csv] was given. *)
Record files := {
  clientes_csv : option (list Cliente);
  clientes_lab_csv : option (list ClienteLab);
  produtos_csv : option (list Produto);
  vendas_csv : option (list Venda);
  logistica_csv : option (list Logistica)
}.

Inductive log_record :=
| INFO (message : string) (count : option nat)
| ERROR (message : string) (e : exn).

(** The directories [datasets] (raw) and [data] (processed), and the log
    file. *)
Record disk := {
  datasets : files;
  data : files;
  log : list log_record
}.

Definition io (S A : Type) : Type := S -> result A * S.

#[global] Instance io_ret {S} : MRet (io S) := fun A a s => (Ok a, s).

#[global] Instance io_bind {S} : MBind (io S) := fun A B f m s =>
  match m s with
  | (Ok a, s') => f a s'
  | (Raise e, s') => (Raise e, s')
  end.

Definition raise {S A} (e : exn) : io S A := fun s => (Raise e, s).

(** [try: body except Exception as e: handler e] *)
Definition try_except {S A} (body : io S A) (handler : exn -> io S A) : io S A :=
  fun s =>
    match body s with
    | (Ok a, s') => (Ok a, s')
    | (Raise e, s') => handler e s'
    end.

Definition logging (r : log_record) : io disk unit := fun d =>
  (Ok tt, {| datasets := datasets d; data := data d; log := log d ++ [r] |}).

(** [pd.read_csv(DATASET_DIR / name)] *)
Definition read_csv {A} (name : string) (file : files -> option (list A))
  : io disk (list A) := fun d =>
  match file (datasets d) with
  | Some df => (Ok df, d)
  | None => (Raise (FileNotFoundError name), d)
  end.

(** [df.to_csv(OUTPUT_DIR / name, index=False)], one per entity *)
Definition to_csv (write : files -> files) : io disk unit := fun d =>
  (Ok tt, {| datasets := datasets d; data := write (data d); log := log d |}).

Definition write_clientes (df : list Cliente) (f : files) : files :=
  {| clientes_csv := Some df; clientes_lab_csv := clientes_lab_csv f;
     produtos_csv := produtos_csv f; vendas_csv := vendas_csv f;
     logistica_csv := logistica_csv f |}.

Definition write_clientes_lab (df : list ClienteLab) (f : files) : files :=
  {| clientes_csv := clientes_csv f; clientes_lab_csv := Some df;
     produtos_csv := produtos_csv f; vendas_csv := vendas_csv f;
     logistica_csv := logistica_csv f |}.

Definition write_produtos (df : list Produto) (f : files) : files :=
  {| clientes_csv := clientes_csv f; clientes_lab_csv := clientes_lab_csv f;
     produtos_csv := Some df; vendas_csv := vendas_csv f;
     logistica_csv := logistica_csv f |}.

Definition write_vendas (df : list Venda) (f : files) : files :=
  {| clientes_csv := clientes_csv f; clientes_lab_csv := clientes_lab_csv f;
     produtos_csv := produtos_csv f; vendas_csv := Some df;
     logistica_csv := logistica_csv f |}.

Definition write_logistica (df : list Logistica) (f : files) : files :=
  {| clientes_csv := clientes_csv f; clientes_lab_csv := clientes_lab_csv f;
     produtos_csv := produtos_csv f; vendas_csv := vendas_csv f;
     logistica_csv := Some df |}.

(** The table functions above are pure; the [logging.info] line each one
    ends with is emitted here, where the run calls it. *)
Definition logged {A} (message : string) (df : list A) : io disk (list A) :=
  logging (INFO message (Some (length df))) ;; mret df.

Section Pipeline.
Context `{Pandas}.

Definition pipeline_body : io disk unit :=
  (* Carregamento *)
  clientes ← read_csv "clientes.csv" clientes_csv;
  clientes_lab ← read_csv "clientes_lab.csv" clientes_lab_csv;
  produtos ← read_csv "produtos.csv" produtos_csv;
  vendas ← read_csv "vendas.csv" vendas_csv;
  logistica ← read_csv "logistica.csv" logistica_csv;
  (* Limpeza *)
  clientes ← logged "clientes.csv - registros finais" (clean_clientes clientes);
  clientes_lab ← logged "clientes_lab.csv - registros finais"
                   (clean_clientes_lab clientes_lab);
  produtos ← logged "produtos.csv - registros finais" (clean_produtos produtos);
  vendas ← logged "vendas.csv - registros finais"
             (clean_vendas vendas (List.map c_id_cliente clientes)
                (List.map p_id_produto produtos));
  logistica ← logged "logistica.csv - registros finais"
                (clean_logistica logistica (List.map v_id_venda vendas));
  (* Salva todos em /data *)
  to_csv (write_clientes clientes) ;;
  to_csv (write_clientes_lab clientes_lab) ;;
  to_csv (write_produtos produtos) ;;
  to_csv (write_vendas vendas) ;;
  to_csv (write_logistica logistica) ;;
  logging (INFO "Pipeline de ingestao finalizado com sucesso." None).

Definition pipeline_ingestao : io disk unit :=
  try_except pipeline_body
    (fun e => logging (ERROR "Erro no pipeline de ingestao" e) ;; raise e).
End Pipeline.

(** ** Correction: the tables of [correcao_automatica.py] *)

(** A table with its column names; a row maps a column name to its cell. *)
Record DataFrame := {
  columns : list string;
  rows : list (gmap string cell)
}.

(** The cell of a row in a column. *)
Definition cell_at (col : string) (r : gmap string cell) : cell :=
  default NaN (r !! col).

(** [df[col]]: the cells of the column; a [KeyError] when the table has no
    such column. *)
Definition column (df : DataFrame) (col : string) : result (list cell) :=
  if bool_decide (col ∈ columns df) then Ok (List.map (cell_at col) (rows df))
  else Raise (KeyError col).

(** [df[col] = f(df[col])] for an elementwise [f] *)
Definition assign (col : string) (f : cell -> cell) (df : DataFrame) : DataFrame :=
  {| columns := columns df; rows := List.map (alter f col) (rows df) |}.

(** [df[mask]] for an elementwise mask *)
Definition select (mask : gmap string cell -> bool) (df : DataFrame) : DataFrame :=
  {| columns := columns df; rows := List.filter mask (rows df) |}.

(** [left < right] on two cells: [False] when one is missing; a
    [TypeError] when the two are of different kinds. *)
Definition lt_cell (c1 c2 : cell) : result bool :=
  match kind_of c1, kind_of c2 with
  | None, _ | _, None => Ok false
  | Some k1, Some k2 =>
      if bool_decide (k1 = k2) then Ok (negb (cell_leb c2 c1))
      else Raise TypeError
  end.

(** [left < right] on two columns *)
Fixpoint lt_columns (left right : list cell) : result (list bool) :=
  match left, right with
  | c1 :: left', c2 :: right' =>
      b ← lt_cell c1 c2;
      bs ← lt_columns left' right';
      Ok (b :: bs)
  | _, _ => Ok []
  end.

(** [df.loc[mask, col] = v] *)
Definition loc_assign (mask : list bool) (col : string) (v : cell)
  (df : DataFrame) : DataFrame :=
  {| columns := columns df;
     rows := zip_with (fun (m : bool) r => if m then <[col := v]> r else r)
               mask (rows df) |}.

(** The mask of [corrigir_inconsistencias] on one row: the delivery is
    before the shipping. *)
Definition entrega_antes_do_envio (r : gmap string cell) : bool :=
  match lt_cell (cell_at "data_entrega_real" r) (cell_at "data_envio" r) with
  | Ok b => b
  | Raise _ => false
  end.

Section Correcao.
Context `{Pandas}.

Definition padronizar_dados (df : DataFrame) (tipo : string) : DataFrame :=
  foldl
    (fun df col =>
       (* Datas *)
       let df := if str_in "data" col then assign col to_datetime df else df in
       (* Telefones *)
       let df :=
         if str_in "telefone" col then assign col padronizar_telefone df
         else df in
       (* E-mails *)
       let df :=
         if str_in "email" col
         then assign col (fun c => str_method str_strip (str_method str_lower c)) df
         else df in
       df)
    df (columns df).

Definition remover_duplicatas (df : DataFrame) (chave : string)
  : result DataFrame :=
  keys ← column df chave;
  if comparable keys then
    Ok {| columns := columns df;
          rows := drop_duplicates_last (cell_at chave)
                    (sort_by (cell_at chave) cell_leb (rows df)) |}
  else Raise TypeError.

(** [df[col].fillna(v, inplace=True)] *)
Definition fillna_inplace (col : string) (v : cell) (df : DataFrame)
  : result DataFrame :=
  _ ← column df col;
  Ok (assign col (fillna v) df).

Definition preencher_campos_vazios (df : DataFrame) (tipo : string)
  : result DataFrame :=
  if bool_decide (tipo = "clientes") then
    df ← fillna_inplace "estado" (Str (text_of "SP")) df;
    df ← fillna_inplace "cidade"
           (Str (text_of "S" ++ [227%N] ++ text_of "o Paulo")) df;
    fillna_inplace "nome" (Str (text_of "Desconhecido")) df
  else if bool_decide (tipo = "produtos") then
    df ← fillna_inplace "categoria" (Str (text_of "Outros")) df;
    fillna_inplace "ativo" (Bool true) df
  else if bool_decide (tipo = "vendas") then
    fillna_inplace "status" (Str (text_of "Pendente")) df
  else if bool_decide (tipo = "logistica") then
    fillna_inplace "status_entrega"
      (Str (text_of "Em tr" ++ [226%N] ++ text_of "nsito")) df
  else Ok df.

Definition validar_relacionamentos (vendas clientes produtos : DataFrame)
  : result DataFrame :=
  _ ← column vendas "id_cliente";
  clientes_ids ← column clientes "id_cliente";
  _ ← column vendas "id_produto";
  produtos_ids ← column produtos "id_produto";
  Ok (select
        (fun r => isin (cell_at "id_cliente" r) clientes_ids
                  && isin (cell_at "id_produto" r) produtos_ids)
        vendas).

Definition corrigir_inconsistencias (vendas logistica : DataFrame)
  : result (DataFrame * DataFrame) :=
  (* Exemplo: datas de entrega antes do envio *)
  real ← column logistica "data_entrega_real";
  envio ← column logistica "data_envio";
  mask ← lt_columns real envio;
  Ok (vendas, loc_assign mask "data_entrega_real" NaT logistica).
End Correcao.

(** The directories [data] (read) and [data_corrigida] (written) of the
    correction run, by file name, and its log. *)
Record corr_disk := {
  data_dir : gmap string DataFrame;
  output_dir : gmap string DataFrame;
  corr_log : list log_record
}.

Definition lift {S A} (r : result A) : io S A := fun s => (r, s).

Definition corr_logging (r : log_record) : io corr_disk unit := fun d =>
  (Ok tt, {| data_dir := data_dir d; output_dir := output_dir d;
             corr_log := corr_log d ++ [r] |}).

Definition corr_read_csv (name : string) : io corr_disk DataFrame := fun d =>
  match data_dir d !! name with
  | Some df => (Ok df, d)
  | None => (Raise (FileNotFoundError name), d)
  end.

Definition corr_to_csv (name : string) (df : DataFrame) : io corr_disk unit :=
  fun d =>
    (Ok tt, {| data_dir := data_dir d;
               output_dir := <[name := df]> (output_dir d);
               corr_log := corr_log d |}).

(** As in the ingestion run, the [logging.info] line of a table function
    (the number of duplicates, of sales, of dates it removed or repaired)
    is emitted where the run calls the function. *)
Section CorrecaoRun.
Context `{Pandas}.

Definition processar_dataset (nome : string) (chave : option string)
  : io corr_disk DataFrame :=
  df ← corr_read_csv (nome +:+ ".csv");
  let df := padronizar_dados df nome in
  df ← match chave with
       | Some k =>
           if bool_decide (k = "") then mret df
           else
             df' ← lift (remover_duplicatas df k);
             corr_logging
               (INFO "Removidas duplicatas"
                  (Some (length (rows df) - length (rows df'))%nat)) ;;
             mret df'
       | None => mret df
       end;
  df ← lift (preencher_campos_vazios df nome);
  corr_to_csv (nome +:+ "_corrigido.csv") df ;;
  corr_logging (INFO "Dataset processado e salvo." None) ;;
  mret df.

Definition main : io corr_disk unit :=
  corr_logging (INFO "Iniciando correcao automatica..." None) ;;
  clientes ← processar_dataset "clientes" (Some "id_cliente");
  produtos ← processar_dataset "produtos" (Some "id_produto");
  vendas ← processar_dataset "vendas" (Some "id_venda");
  logistica ← processar_dataset "logistica" (Some "id_entrega");
  clientes_lab ← processar_dataset "clientes_lab" (Some "id_cliente");
  (* Relacionamentos e consistência *)
  vendas' ← lift (validar_relacionamentos vendas clientes produtos);
  corr_logging
    (INFO "Removidas vendas com FK invalida."
       (Some (length (rows vendas) - length (rows vendas'))%nat)) ;;
  vl ← lift (corrigir_inconsistencias vendas' logistica);
  corr_logging
    (INFO "Corrigidas inconsistencias de datas de entrega."
       (Some (length (List.filter entrega_antes_do_envio (rows logistica))))) ;;
  corr_to_csv "vendas_corrigido.csv" vl.1 ;;
  corr_to_csv "logistica_corrigido.csv" vl.2 ;;
  corr_logging (INFO "Correcao concluida com sucesso." None).
End CorrecaoRun.

(** ** An instance of [Pandas] for the examples

    Dates in the ISO form [YYYY-MM-DD], counted in days since 1970-01-01;
    the decomposition of the accented letters of Portuguese; the
    Arabic-Indic digits. Numbers are not read as dates and have no
    rendering here: the examples keep to strings. *)

Definition digit_value (c : N) : option Z :=
  if ascii_digit c then Some (Z.of_N c - 48) else None.

Definition is_leap (y : Z) : bool :=
  ((y mod 4 =? 0) && negb (y mod 100 =? 0)) || (y mod 400 =? 0).

Definition days_in_month (y m : Z) : Z :=
  if m =? 2 then (if is_leap y then 29 else 28)
  else if (m =? 4) || (m =? 6) || (m =? 9) || (m =? 11) then 30
  else 31.

(** Days from 1970-01-01 to the civil date [y]-[m]-[d]. *)
Definition days_from_civil (y m d : Z) : Z :=
  let y' := if m <=? 2 then y - 1 else y in
  let era := y' / 400 in
  let yoe := y' - era * 400 in
  let doy := (153 * (if m <=? 2 then m + 9 else m - 3) + 2) / 5 + d - 1 in
  let doe := yoe * 365 + yoe / 4 - yoe / 100 + doy in
  era * 146097 + doe - 719468.

Definition iso_date (s : text) : option Z :=
  match s with
  | [y1; y2; y3; y4; h1; m1; m2; h2; d1; d2] =>
      if ((h1 =? 45) && (h2 =? 45))%N then
        y1 ← digit_value y1; y2 ← digit_value y2;
        y3 ← digit_value y3; y4 ← digit_value y4;
        m1 ← digit_value m1; m2 ← digit_value m2;
        d1 ← digit_value d1; d2 ← digit_value d2;
        let y := 1000 * y1 + 100 * y2 + 10 * y3 + y4 in
        let m := 10 * m1 + m2 in
        let d := 10 * d1 + d2 in
        if (1 <=? m) && (m <=? 12) && (1 <=? d) && (d <=? days_in_month y m)
        then Some (days_from_civil y m d)
        else None
      else None
  | _ => None
  end.

Definition decompose_char (c : N) : text :=
  (if c =? 225 then [97; 769] else if c =? 226 then [97; 770]
   else if c =? 227 then [97; 771] else if c =? 231 then [99; 807]
   else if c =? 233 then [101; 769] else if c =? 234 then [101; 770]
   else if c =? 237 then [105; 769] else if c =? 243 then [111; 769]
   else if c =? 244 then [111; 770] else if c =? 245 then [111; 771]
   else if c =? 250 then [117; 769] else [c])%N.

Definition decompose (s : text) : text := flat_map decompose_char s.

Definition arabic_indic_digit (c : N) : bool :=
  ((1632 <=? c) && (c <=? 1641))%N.

Definition pandas_iso : Pandas := {|
  parse_datetime := iso_date;
  datetime_of_scalar := fun _ => None;
  str_of_scalar := fun _ => [];
  nfkd := decompose;
  other_decimal_digit := arabic_indic_digit
|}.

(** ** What the ingestion functions make of one row

    Every ingestion function rewrites columns row by row and removes rows;
    these are the row-by-row rewritings, in the order of the source. *)

Section LinhaLimpa.
Context `{Pandas}.

Definition limpar_cliente (r : Cliente) : Cliente :=
  set_c_data_cadastro to_datetime
    (set_c_data_nascimento to_datetime
       (set_c_cidade ascii_fold (set_c_nome ascii_fold r))).

Definition limpar_cliente_lab (r : ClienteLab) : ClienteLab :=
  set_l_data_cadastro to_datetime (set_l_nome ascii_fold r).

Definition limpar_produto (r : Produto) : Produto :=
  set_p_ativo astype_bool
    (set_p_data_criacao to_datetime
       (set_p_categoria ascii_fold (set_p_nome_produto ascii_fold r))).

Definition limpar_venda (r : Venda) : Venda :=
  set_v_data_venda to_datetime r.

Definition limpar_logistica (r : Logistica) : Logistica :=
  set_g_data_entrega_real to_datetime
    (set_g_data_entrega_prevista to_datetime
       (set_g_data_envio to_datetime r)).
End LinhaLimpa.

(** A cell of a datetime column. *)
Definition is_datetime (c : cell) : bool :=
  match c with
  | NaT | Timestamp _ => true
  | _ => false
  end.

(** ** What the correction functions make of one cell *)

Section CelulaPadronizada.
Context `{Pandas}.

(** The three steps of the loop body of [padronizar_dados] on a cell of
    the column [col]. *)
Definition padronizar_celula (col : string) (c : cell) : cell :=
  let c := if str_in "data" col then to_datetime c else c in
  let c := if str_in "telefone" col then padronizar_telefone c else c in
  if str_in "email" col then str_method str_strip (str_method str_lower c)
  else c.
End CelulaPadronizada.

(** How many of the three rules of [padronizar_dados] a column name
    falls under. *)
Definition regras (col : string) : nat :=
  (if str_in "data" col then 1 else 0)
  + (if str_in "telefone" col then 1 else 0)
  + (if str_in "email" col then 1 else 0).

(** ** The defaults of [preencher_campos_vazios], as a table *)

(** The columns [preencher_campos_vazios] fills for a table of the kind
    [tipo], each with the value it fills with, in the order of the
    source. *)
Definition preenchimentos (tipo : string) : list (string * cell) :=
  if bool_decide (tipo = "clientes") then
    [("estado", Str (text_of "SP"));
     ("cidade", Str (text_of "S" ++ [227%N] ++ text_of "o Paulo"));
     ("nome", Str (text_of "Desconhecido"))]
  else if bool_decide (tipo = "produtos") then
    [("categoria", Str (text_of "Outros")); ("ativo", Bool true)]
  else if bool_decide (tipo = "vendas") then
    [("status", Str (text_of "Pendente"))]
  else if bool_decide (tipo = "logistica") then
    [("status_entrega", Str (text_of "Em tr" ++ [226%N] ++ text_of "nsito"))]
  else [].

(** ** What a run may change *)

(** The disk [s'] is the disk [s] after a run that left the raw files as
    they were and wrote records at the end of the log. *)
Definition disk_extends (s s' : disk) : Prop :=
  datasets s' = datasets s /\ exists l, log s' = log s ++ l.

Definition corr_disk_extends (s s' : corr_disk) : Prop :=
  data_dir s' = data_dir s /\ exists l, corr_log s' = corr_log s ++ l.


(** A cell of a column of the kind [k]: a value of that kind, or a
    missing value. *)
Definition of_kind (k : kind) (c : cell) : Prop :=
  kind_of c = None \/ kind_of c = Some k.
(** ** Tables for the examples *)

Definition linha (l : list (string * cell)) : gmap string cell := list_to_map l.

Definition S_ (s : string) : cell := Str (text_of s).

(** The [data] directory of a correction run: the sale [V2] names a
    customer the customer table does not have, and the delivery [E2] is
    the delivery of that sale; the delivery [E1] was delivered before it
    was shipped. *)
Definition clientes_data : DataFrame :=
  {| columns := ["id_cliente"; "nome"; "email"; "telefone"; "cidade"; "estado"];
     rows :=
       [linha [("id_cliente", S_ "C1"); ("nome", S_ "Ana");
               ("email", S_ " Ana@X.com "); ("telefone", S_ "(11) 99999-9999");
               ("cidade", S_ "Recife"); ("estado", NaN)]] |}.

Definition produtos_data : DataFrame :=
  {| columns := ["id_produto"; "categoria"; "ativo"];
     rows :=
       [linha [("id_produto", S_ "P1"); ("categoria", NaN);
               ("ativo", Bool true)]] |}.

Definition vendas_data : DataFrame :=
  {| columns := ["id_venda"; "id_cliente"; "id_produto"; "status"];
     rows :=
       [linha [("id_venda", S_ "V1"); ("id_cliente", S_ "C1");
               ("id_produto", S_ "P1"); ("status", S_ "Pago")];
        linha [("id_venda", S_ "V2"); ("id_cliente", S_ "C9");
               ("id_produto", S_ "P1"); ("status", S_ "Pago")]] |}.

Definition logistica_data : DataFrame :=
  {| columns := ["id_entrega"; "id_venda"; "data_envio"; "data_entrega_real";
                 "status_entrega"];
     rows :=
       [linha [("id_entrega", S_ "E1"); ("id_venda", S_ "V1");
               ("data_envio", S_ "2024-01-10");
               ("data_entrega_real", S_ "2024-01-05");
               ("status_entrega", S_ "Entregue")];
        linha [("id_entrega", S_ "E2"); ("id_venda", S_ "V2");
               ("data_envio", S_ "2024-01-10");
               ("data_entrega_real", S_ "2024-01-12");
               ("status_entrega", NaN)]] |}.

Definition clientes_lab_data : DataFrame :=
  {| columns := ["id_cliente"; "nome"]; rows := [] |}.

Definition disco_data : corr_disk :=
  {| data_dir :=
       list_to_map
         [("clientes.csv", clientes_data); ("produtos.csv", produtos_data);
          ("vendas.csv", vendas_data); ("logistica.csv", logistica_data);
          ("clientes_lab.csv", clientes_lab_data)];
     output_dir := ∅;
     corr_log := [] |}.

(** The tables the run writes for the sales and the deliveries. *)
Definition vendas_corrigido : DataFrame :=
  {| columns := ["id_venda"; "id_cliente"; "id_produto"; "status"];
     rows :=
       [linha [("id_venda", S_ "V1"); ("id_cliente", S_ "C1");
               ("id_produto", S_ "P1"); ("status", S_ "Pago")]] |}.

Definition logistica_corrigido : DataFrame :=
  {| columns := ["id_entrega"; "id_venda"; "data_envio"; "data_entrega_real";
                 "status_entrega"];
     rows :=
       [linha [("id_entrega", S_ "E1"); ("id_venda", S_ "V1");
               ("data_envio", Timestamp 19732);
               ("data_entrega_real", NaT);
               ("status_entrega", S_ "Entregue")];
        linha [("id_entrega", S_ "E2"); ("id_venda", S_ "V2");
               ("data_envio", Timestamp 19732);
               ("data_entrega_real", Timestamp 19734);
               ("status_entrega",
                Str (text_of "Em tr" ++ [226%N] ++ text_of "nsito"))]] |}.

(** The deliveries as [padronizar_dados] leaves them: 2024-01-10 is day
    19732, 2024-01-05 day 19727. *)
Definition logistica_datas : DataFrame :=
  {| columns := ["id_entrega"; "id_venda"; "data_envio"; "data_entrega_real"];
     rows :=
       [linha [("id_entrega", S_ "E1"); ("id_venda", S_ "V1");
               ("data_envio", Timestamp 19732);
               ("data_entrega_real", Timestamp 19727)];
        linha [("id_entrega", S_ "E2"); ("id_venda", S_ "V1");
               ("data_envio", NaT);
               ("data_entrega_real", Timestamp 19734)]] |}.

(** Two customers of one id, with different names. *)
Definition clientes_c1 : DataFrame :=
  {| columns := ["id_cliente"; "nome"];
     rows :=
       [linha [("id_cliente", S_ "C1"); ("nome", S_ "Ana")];
        linha [("id_cliente", S_ "C1"); ("nome", S_ "Ana Maria")]] |}.

(** Raw tables of an ingestion run. *)
Definition cliente_ana : Cliente :=
  {| c_id_cliente := S_ "C1"; c_nome := S_ "Ana";
     c_email := S_ "ana@x.com"; c_telefone := S_ "11999999999";
     c_data_nascimento := S_ "1990-05-01"; c_data_cadastro := S_ "2024-01-02";
     c_cidade := Str (text_of "S" ++ [227%N] ++ text_of "o Paulo");
     c_estado := S_ "SP" |}.

Definition cliente_ana_maria : Cliente :=
  {| c_id_cliente := S_ "C1"; c_nome := S_ "Ana Maria";
     c_email := S_ "ana.maria@x.com"; c_telefone := S_ "11888888888";
     c_data_nascimento := S_ "1990-05-01"; c_data_cadastro := S_ "2024-02-03";
     c_cidade := S_ "Recife"; c_estado := S_ "PE" |}.

Definition cliente_sem_data : Cliente :=
  {| c_id_cliente := S_ "C2"; c_nome := S_ "Rui";
     c_email := S_ "rui@x.com"; c_telefone := S_ "11777777777";
     c_data_nascimento := S_ "ontem"; c_data_cadastro := S_ "2024-01-02";
     c_cidade := S_ "Natal"; c_estado := S_ "RN" |}.

Definition cliente_lab_bia : ClienteLab :=
  {| l_id_cliente := S_ "L1"; l_nome := S_ "Bia"; l_email := S_ "bia@lab.org";
     l_idade := Some 31%Q; l_status := S_ "ativo";
     l_data_cadastro := S_ "2023-11-20" |}.

Definition produto_livro : Produto :=
  {| p_id_produto := S_ "P1"; p_nome_produto := S_ "Livro";
     p_categoria := S_ "Livros"; p_preco := Some 30%Q; p_estoque := Some 4%Q;
     p_data_criacao := S_ "2023-01-15"; p_ativo := Bool true |}.

Definition produto_preco_negativo : Produto :=
  {| p_id_produto := S_ "P2"; p_nome_produto := S_ "Caneta";
     p_categoria := S_ "Papelaria"; p_preco := Some (-5)%Q;
     p_estoque := Some 10%Q; p_data_criacao := S_ "2023-01-15";
     p_ativo := Bool true |}.

Definition venda_livro : Venda :=
  {| v_id_venda := S_ "V1"; v_id_cliente := S_ "C1"; v_id_produto := S_ "P1";
     v_quantidade := Some 2%Q; v_valor_unitario := Some 30%Q;
     v_valor_total := Some 60%Q; v_data_venda := S_ "2024-01-09" |}.

Definition venda_caneta : Venda :=
  {| v_id_venda := S_ "V2"; v_id_cliente := S_ "C1"; v_id_produto := S_ "P2";
     v_quantidade := Some 1%Q; v_valor_unitario := Some 5%Q;
     v_valor_total := Some 5%Q; v_data_venda := S_ "2024-01-09" |}.

Definition entrega_adiantada : Logistica :=
  {| g_id_entrega := S_ "E1"; g_id_venda := S_ "V1";
     g_data_envio := S_ "2024-01-10";
     g_data_entrega_prevista := S_ "2024-01-15";
     g_data_entrega_real := S_ "2024-01-05" |}.

Definition entrega_sem_envio : Logistica :=
  {| g_id_entrega := S_ "E2"; g_id_venda := S_ "V1";
     g_data_envio := S_ "a combinar";
     g_data_entrega_prevista := S_ "2024-01-15";
     g_data_entrega_real := NaN |}.

Definition arquivos_brutos : files :=
  {| clientes_csv := Some [cliente_ana; cliente_ana_maria; cliente_sem_data];
     clientes_lab_csv := Some [cliente_lab_bia];
     produtos_csv := Some [produto_livro; produto_preco_negativo];
     vendas_csv := Some [venda_livro; venda_caneta];
     logistica_csv := Some [entrega_adiantada; entrega_sem_envio] |}.

Definition sem_arquivos : files :=
  {| clientes_csv := None; clientes_lab_csv := None; produtos_csv := None;
     vendas_csv := None; logistica_csv := None |}.

Definition disco_bruto : disk :=
  {| datasets := arquivos_brutos; data := sem_arquivos; log := [] |}.

(** The same directory without [logistica.csv]. *)
Definition disco_sem_logistica : disk :=
  {| datasets :=
       {| clientes_csv := clientes_csv arquivos_brutos;
          clientes_lab_csv := clientes_lab_csv arquivos_brutos;
          produtos_csv := produtos_csv arquivos_brutos;
          vendas_csv := vendas_csv arquivos_brutos;
          logistica_csv := None |};
     data := sem_arquivos;
     log := [] |}.



Definition cliente_rui : Cliente :=
  {| c_id_cliente := S_ "C2"; c_nome := S_ "Rui";
     c_email := S_ "rui@x.com"; c_telefone := S_ "11777777777";
     c_data_nascimento := S_ "1979-12-24"; c_data_cadastro := S_ "2024-01-02";
     c_cidade := S_ "Natal"; c_estado := S_ "RN" |}.
(** * Properties *)

(** ** Row selection *)



Section RowOpsFacts.
Context {A K : Type} `{EqDecision K}.
Variable key : A -> K.

Lemma has_key_true (k : K) (x : A) : has_key key k x = true <-> key x = k.
Proof. unfold has_key. apply bool_decide_eq_true. Qed.

Lemma has_key_false (k : K) (x : A) : has_key key k x = false <-> key x <> k.
Proof. unfold has_key. apply bool_decide_eq_false. Qed.




Lemma drop_marked_first_unseen (seen : list K) (l : list A) (x : A) :
  In x (drop_marked_first key seen l) -> key x ∉ seen.
Proof.
  revert seen. induction l as [|y l IH]; intros seen; simpl; [done|].
  case_bool_decide as Hy.
  - apply IH.
  - intros [-> | Hin]; [done|].
    apply IH in Hin. intros Hs. apply Hin. by apply list_elem_of_further.
Qed.

Lemma drop_marked_first_NoDup (seen : list K) (l : list A) :
  NoDup (List.map key (drop_marked_first key seen l)).
Proof.
  revert seen. induction l as [|x l IH]; intros seen; simpl; [constructor|].
  case_bool_decide as Hx; [apply IH|].
  simpl. constructor; [|apply IH].
  intros Hin. apply list_elem_of_In, in_map_iff in Hin as (y & Hk & Hy).
  apply drop_marked_first_unseen in Hy. apply Hy. rewrite Hk. apply list_elem_of_here.
Qed.

(** Of the rows of one key, [keep='first'] keeps the first one, unless the
    key was seen before. *)
Lemma drop_marked_first_key (seen : list K) (l : list A) (k : K) :
  List.filter (has_key key k) (drop_marked_first key seen l) =
  if bool_decide (k ∈ seen) then []
  else option_list (first_with key k l).
Proof.
  revert seen. induction l as [|x l IH]; intros seen; simpl.
  - by case_bool_decide.
  - unfold first_with. simpl.
    destruct (has_key key k x) eqn:Hkx.
    + apply has_key_true in Hkx. subst k.
      case_bool_decide as Hx; [by rewrite IH, bool_decide_eq_true_2|]. simpl.
      rewrite (proj2 (has_key_true _ _) eq_refl). simpl.
      rewrite IH, bool_decide_eq_true_2 by apply list_elem_of_here. done.
    + apply has_key_false in Hkx.
      case_bool_decide as Hx; [apply IH|]. simpl.
      rewrite (proj2 (has_key_false _ _) Hkx), IH.
      case_bool_decide as Hs; case_bool_decide as Hs'; try done.
      * exfalso. apply elem_of_cons in Hs as [?|?]; [congruence|done].
      * exfalso. apply Hs. by apply list_elem_of_further.
Qed.

Lemma drop_marked_first_id (seen : list K) (l : list A) :
  NoDup (List.map key l) ->
  (forall x, In x l -> key x ∉ seen) ->
  drop_marked_first key seen l = l.
Proof.
  revert seen. induction l as [|x l IH]; intros seen Hnd Hs; simpl; [done|].
  simpl in Hnd. apply NoDup_cons in Hnd as [Hx Hnd].
  rewrite bool_decide_eq_false_2 by (apply Hs; by left).
  f_equal. apply IH; [done|].
  intros y Hy. apply not_elem_of_cons. split.
  - intros Heq. apply Hx. rewrite <- Heq. apply list_elem_of_In, in_map, Hy.
  - apply Hs. by right.
Qed.

Lemma drop_duplicates_last_sublist (l : list A) :
  sublist (drop_duplicates_last key l) l.
Proof.
  induction l as [|x l IH]; simpl; [constructor|].
  case_bool_decide; [by apply sublist_cons | by apply sublist_skip].
Qed.

Lemma drop_duplicates_last_keys (l : list A) (k : K) :
  k ∈ List.map key (drop_duplicates_last key l) <-> k ∈ List.map key l.
Proof.
  induction l as [|x l IH]; simpl; [done|].
  case_bool_decide as Hx; simpl.
  - rewrite IH. split; [apply list_elem_of_further|].
    intros [->|?]%elem_of_cons; done.
  - rewrite !elem_of_cons, IH. done.
Qed.

Lemma drop_duplicates_last_NoDup (l : list A) :
  NoDup (List.map key (drop_duplicates_last key l)).
Proof.
  induction l as [|x l IH]; simpl; [constructor|].
  case_bool_decide as Hx; [done|].
  simpl. constructor; [|done]. by rewrite drop_duplicates_last_keys.
Qed.


Lemma drop_duplicates_last_id (l : list A) :
  NoDup (List.map key l) -> drop_duplicates_last key l = l.
Proof.
  induction l as [|x l IH]; simpl; [done|].
  intros [Hx Hnd]%NoDup_cons.
  rewrite bool_decide_eq_false_2 by done. f_equal. auto.
Qed.

Variable leb : K -> K -> bool.

Lemma insert_by_Permutation (x : A) (l : list A) :
  Permutation (insert_by key leb x l) (x :: l).
Proof.
  induction l as [|y l IH]; simpl; [done|].
  destruct (leb (key x) (key y)); [done|].
  rewrite IH. apply perm_swap.
Qed.

Lemma sort_by_Permutation (l : list A) :
  Permutation (sort_by key leb l) l.
Proof.
  induction l as [|x l IH]; simpl; [done|].
  unfold sort_by in *. simpl. rewrite insert_by_Permutation. by constructor.
Qed.

Hypothesis leb_refl : forall k, leb k k = true.


End RowOpsFacts.

(** ** Text *)

Lemma lstrip_idem (s : text) : lstrip (lstrip s) = lstrip s.
Proof.
  induction s as [|c s IH]; simpl; [done|].
  destruct (is_space c) eqn:Hc; [done|]. simpl. by rewrite Hc.
Qed.

Lemma lstrip_snoc (s : text) (c : N) :
  is_space c = false -> lstrip (s ++ [c]) = lstrip s ++ [c].
Proof.
  intros Hc. induction s as [|a s IH]; simpl; [by rewrite Hc|].
  by destruct (is_space a).
Qed.

Lemma rstrip_cons (c : N) (s : text) :
  is_space c = false -> rstrip (c :: s) = c :: rstrip s.
Proof.
  intros Hc. unfold rstrip. simpl.
  by rewrite lstrip_snoc, rev_app_distr.
Qed.

Lemma rstrip_idem (s : text) : rstrip (rstrip s) = rstrip s.
Proof. unfold rstrip. by rewrite rev_involutive, lstrip_idem. Qed.

Lemma lstrip_head (s : text) :
  lstrip s = [] \/ exists c s', lstrip s = c :: s' /\ is_space c = false.
Proof.
  induction s as [|c s IH]; simpl; [by left|].
  destruct (is_space c) eqn:Hc; [done|]. right. eauto.
Qed.

Lemma str_strip_idem (s : text) : str_strip (str_strip s) = str_strip s.
Proof.
  unfold str_strip.
  destruct (lstrip_head s) as [-> | (c & s' & -> & Hc)]; [done|].
  rewrite rstrip_cons by done. simpl. rewrite Hc.
  rewrite <- (rstrip_cons c) by done. apply rstrip_idem.
Qed.

Lemma lower_char_idem (c : N) : lower_char (lower_char c) = lower_char c.
Proof.
  unfold lower_char.
  destruct ((65 <=? c)%N && (c <=? 90)%N) eqn:Hc; [|by rewrite Hc].
  apply andb_prop in Hc as [H1 H2].
  apply N.leb_le in H1, H2.
  replace ((c + 32 <=? 90)%N) with false by (symmetry; apply N.leb_gt; lia).
  by rewrite andb_false_r.
Qed.

Lemma is_space_lower_char (c : N) : is_space (lower_char c) = is_space c.
Proof.
  unfold lower_char.
  destruct ((65 <=? c)%N && (c <=? 90)%N) eqn:Hc; [|done].
  apply andb_prop in Hc as [H1 H2].
  apply N.leb_le in H1, H2.
  unfold is_space.
  repeat match goal with
  | |- context [(?a <=? ?b)%N] =>
      first [ replace ((a <=? b)%N) with true by (symmetry; apply N.leb_le; lia)
            | replace ((a <=? b)%N) with false by (symmetry; apply N.leb_gt; lia) ]
  | |- context [(?a =? ?b)%N] =>
      replace ((a =? b)%N) with false by (symmetry; apply N.eqb_neq; lia)
  end.
  done.
Qed.

Lemma str_lower_idem (s : text) : str_lower (str_lower s) = str_lower s.
Proof.
  unfold str_lower. rewrite List.map_map. apply List.map_ext.
  apply lower_char_idem.
Qed.

Lemma lstrip_lower (s : text) : lstrip (str_lower s) = str_lower (lstrip s).
Proof.
  induction s as [|c s IH]; simpl; [done|].
  rewrite is_space_lower_char. by destruct (is_space c).
Qed.

Lemma rstrip_lower (s : text) : rstrip (str_lower s) = str_lower (rstrip s).
Proof.
  unfold rstrip. unfold str_lower at 1. rewrite <- List.map_rev.
  fold (str_lower (rev s)). rewrite lstrip_lower. unfold str_lower.
  by rewrite List.map_rev.
Qed.

Lemma str_strip_lower (s : text) :
  str_strip (str_lower s) = str_lower (str_strip s).
Proof. unfold str_strip. by rewrite lstrip_lower, rstrip_lower. Qed.

(** Lowercasing then stripping a second time changes nothing. *)
Lemma lower_strip_idem (s : text) :
  str_strip (str_lower (str_strip (str_lower s))) = str_strip (str_lower s).
Proof.
  by rewrite (str_strip_lower s), str_lower_idem, str_strip_lower,
    str_strip_idem.
Qed.

Lemma str_pad_left_length (w : nat) (f : N) (s : text) :
  (w <= length (str_pad_left w f s))%nat.
Proof. unfold str_pad_left. rewrite length_app, repeat_length. lia. Qed.

Lemma str_pad_left_long (w : nat) (f : N) (s : text) :
  (w <= length s)%nat -> str_pad_left w f s = s.
Proof.
  intros Hw. unfold str_pad_left.
  by replace (w - length s)%nat with 0%nat by lia.
Qed.

Lemma filter_all {A} (p : A -> bool) (l : list A) :
  (forall x, In x l -> p x = true) -> List.filter p l = l.
Proof.
  induction l as [|x l IH]; simpl; [done|]. intros Hp.
  rewrite Hp by (by left). f_equal. apply IH. intros. apply Hp. by right.
Qed.

Lemma filter_idem {A} (p : A -> bool) (l : list A) :
  List.filter p (List.filter p l) = List.filter p l.
Proof. apply filter_all. intros x Hx. by apply filter_In in Hx as [_ ?]. Qed.

Lemma map_fixed {A} (f : A -> A) (l : list A) :
  (forall x, In x l -> f x = x) -> List.map f l = l.
Proof.
  intros Hf. rewrite <- (List.map_id l) at 2. by apply List.map_ext_in.
Qed.

(** ** Cells *)

Section ColumnFacts.
Context `{Pandas}.

Lemma to_datetime_idem (c : cell) : to_datetime (to_datetime c) = to_datetime c.
Proof.
  destruct c; simpl; try done.
  - by destruct (parse_datetime s).
  - by destruct (datetime_of_scalar (Num q)).
  - by destruct (datetime_of_scalar (Bool b)).
Qed.

(** A parsed column is a datetime column. *)
Lemma to_datetime_kind (c : cell) :
  to_datetime c = NaT \/ exists t, to_datetime c = Timestamp t.
Proof.
  destruct c; simpl; eauto.
  - destruct (parse_datetime s); eauto.
  - destruct (datetime_of_scalar (Num q)); eauto.
  - destruct (datetime_of_scalar (Bool b)); eauto.
Qed.

Lemma astype_bool_idem (c : cell) : astype_bool (astype_bool c) = astype_bool c.
Proof. by destruct c as [| |[|]| | |]. Qed.

Lemma decimal_digit_zero : decimal_digit 48 = true.
Proof. done. Qed.

Lemma padronizar_telefone_digits (c : cell) :
  exists s, padronizar_telefone c = Str s /\
            (forall d, In d s -> decimal_digit d = true) /\
            (11 <= length s)%nat.
Proof.
  eexists. split; [done|]. split.
  - intros d [Hd | Hd]%in_app_or.
    + apply repeat_spec in Hd. subst d. apply decimal_digit_zero.
    + by apply filter_In in Hd as [_ ?].
  - apply str_pad_left_length.
Qed.

Lemma padronizar_telefone_idem (c : cell) :
  padronizar_telefone (padronizar_telefone c) = padronizar_telefone c.
Proof.
  destruct (padronizar_telefone_digits c) as (s & Hs & Hd & Hl).
  rewrite Hs. unfold padronizar_telefone. simpl astype_str.
  by rewrite (filter_all _ _ Hd), str_pad_left_long.
Qed.

Lemma email_step_idem (c : cell) :
  str_method str_strip (str_method str_lower
    (str_method str_strip (str_method str_lower c))) =
  str_method str_strip (str_method str_lower c).
Proof. destruct c; simpl; try done. by rewrite lower_strip_idem. Qed.

Hypothesis nfkd_ascii :
  forall s, (forall c, In c s -> is_ascii c = true) -> nfkd s = s.

Lemma ascii_fold_idem (c : cell) : ascii_fold (ascii_fold c) = ascii_fold c.
Proof.
  unfold ascii_fold. simpl astype_str. f_equal.
  assert (Ha : forall d, In d (encode_ascii_ignore (nfkd (astype_str c))) ->
                         is_ascii d = true).
  { intros d Hd. by apply filter_In in Hd as [_ ?]. }
  rewrite (nfkd_ascii _ Ha). by apply filter_all.
Qed.
End ColumnFacts.

Lemma decompose_ascii (s : text) :
  (forall c, In c s -> is_ascii c = true) -> decompose s = s.
Proof.
  induction s as [|c s IH]; [done|]. intros Ha.
  unfold decompose in *. simpl. rewrite IH by (intros; apply Ha; by right).
  assert (Hc : is_ascii c = true) by (apply Ha; by left).
  unfold is_ascii in Hc. apply N.ltb_lt in Hc. unfold decompose_char.
  repeat match goal with
  | |- context [(?a =? ?b)%N] =>
      replace ((a =? b)%N) with false by (symmetry; apply N.eqb_neq; lia)
  end.
  done.
Qed.

(** ** Ingestion: every function cleans each row, drops the duplicates,
    then filters *)

Lemma map_drop_marked_first {A K} `{EqDecision K} (key : A -> K) (f : A -> A)
  (seen : list K) (l : list A) :
  (forall x, key (f x) = key x) ->
  List.map f (drop_marked_first key seen l) =
  drop_marked_first key seen (List.map f l).
Proof.
  intros Hk. revert seen. induction l as [|x l IH]; intros seen; simpl; [done|].
  rewrite Hk. case_bool_decide; simpl; by rewrite IH.
Qed.

Lemma map_drop_duplicates_first {A K} `{EqDecision K} (key : A -> K)
  (f : A -> A) (l : list A) :
  (forall x, key (f x) = key x) ->
  List.map f (drop_duplicates_first key l) =
  drop_duplicates_first key (List.map f l).
Proof. apply map_drop_marked_first. Qed.

Lemma map_filter_comm {A} (p : A -> bool) (f : A -> A) (l : list A) :
  (forall x, p (f x) = p x) ->
  List.map f (List.filter p l) = List.filter p (List.map f l).
Proof.
  intros Hp. induction l as [|x l IH]; simpl; [done|].
  rewrite Hp. destruct (p x); simpl; by rewrite IH.
Qed.

Lemma filter_filter_and {A} (p q : A -> bool) (l : list A) :
  List.filter p (List.filter q l) = List.filter (fun x => q x && p x) l.
Proof.
  induction l as [|x l IH]; simpl; [done|].
  destruct (q x); simpl; [destruct (p x)|]; by rewrite IH.
Qed.

Section IngestaoFacts.
Context `{Pandas}.

Ltac by_fields := intros []; reflexivity.

Lemma clean_clientes_rows (df : list Cliente) :
  clean_clientes df =
  List.filter
    (fun r => email_valido (c_email r)
              && (notna (c_nome r) && notna (c_telefone r))
              && (notna (c_data_nascimento r) && notna (c_data_cadastro r)))
    (drop_duplicates_first c_id_cliente (List.map limpar_cliente df)).
Proof.
  unfold clean_clientes.
  rewrite !map_filter_comm by by_fields.
  rewrite !map_drop_duplicates_first by by_fields.
  rewrite !List.map_map, !filter_filter_and.
  apply List.filter_ext. intros r. by rewrite !andb_assoc.
Qed.

Lemma clean_clientes_lab_rows (df : list ClienteLab) :
  clean_clientes_lab df =
  List.filter
    (fun r => email_valido (l_email r)
              && (bool_decide (l_idade r <> None) && ge_num (l_idade r) 0
                  && lt_num (l_idade r) 120)
              && notna (l_status r)
              && notna (l_data_cadastro r))
    (drop_duplicates_first l_id_cliente (List.map limpar_cliente_lab df)).
Proof.
  unfold clean_clientes_lab.
  rewrite !map_filter_comm by by_fields.
  rewrite !map_drop_duplicates_first by by_fields.
  rewrite !List.map_map, !filter_filter_and.
  apply List.filter_ext. intros r. by rewrite !andb_assoc.
Qed.

Lemma clean_produtos_rows (df : list Produto) :
  clean_produtos df =
  List.filter
    (fun r => ge_num (p_preco r) 0 && ge_num (p_estoque r) 0
              && notna (p_data_criacao r))
    (drop_duplicates_first p_id_produto (List.map limpar_produto df)).
Proof.
  unfold clean_produtos.
  rewrite !map_filter_comm by by_fields.
  rewrite !map_drop_duplicates_first by by_fields.
  rewrite !List.map_map, !filter_filter_and.
  apply List.filter_ext. intros r. by rewrite !andb_assoc.
Qed.

Lemma clean_vendas_rows (df : list Venda) (clientes_ids produtos_ids : list cell) :
  clean_vendas df clientes_ids produtos_ids =
  List.filter
    (fun r => isin (v_id_cliente r) clientes_ids
              && isin (v_id_produto r) produtos_ids
              && gt_num (v_quantidade r) 0
              && ge_num (v_valor_unitario r) 0
              && ge_num (v_valor_total r) 0
              && notna (v_data_venda r))
    (drop_duplicates_first v_id_venda (List.map limpar_venda df)).
Proof.
  unfold clean_vendas.
  rewrite !map_filter_comm by by_fields.
  rewrite !map_drop_duplicates_first by by_fields.
  rewrite !filter_filter_and.
  apply List.filter_ext. intros r. by rewrite !andb_assoc.
Qed.

Lemma clean_logistica_rows (df : list Logistica) (vendas_ids : list cell) :
  clean_logistica df vendas_ids =
  List.filter (fun r => isin (g_id_venda r) vendas_ids)
    (drop_duplicates_first g_id_entrega (List.map limpar_logistica df)).
Proof.
  unfold clean_logistica.
  rewrite !map_filter_comm by by_fields.
  rewrite !map_drop_duplicates_first by by_fields.
  by rewrite !List.map_map.
Qed.
End IngestaoFacts.

(** ** What holds of any table cleaned that way *)

Section CleanShape.
Context {A K : Type} `{EqDecision K}.
Variable key : A -> K.
Variable L : A -> A.
Variable k : A -> bool.
Hypothesis key_L : forall x, key (L x) = key x.

Local Abbreviation shape l :=
  (List.filter k (drop_duplicates_first key (List.map L l))).

Lemma NoDup_map_filter (p : A -> bool) (l : list A) :
  NoDup (List.map key l) -> NoDup (List.map key (List.filter p l)).
Proof.
  induction l as [|x l IH]; simpl; [done|].
  intros [Hx Hnd]%NoDup_cons. destruct (p x); simpl; [|auto].
  apply NoDup_cons. split; [|auto].
  intros Hin. apply Hx.
  apply list_elem_of_In, in_map_iff in Hin as (y & Hy & Hin).
  apply filter_In in Hin as [Hin _].
  rewrite <- Hy. by apply list_elem_of_In, in_map.
Qed.

Lemma shape_NoDup (l : list A) : NoDup (List.map key (shape l)).
Proof. apply NoDup_map_filter, drop_marked_first_NoDup. Qed.

Lemma drop_duplicates_first_In (l : list A) (x : A) :
  In x (drop_duplicates_first key l) <-> first_with key (key x) l = Some x.
Proof.
  pose proof (drop_marked_first_key key [] l (key x)) as Hk.
  rewrite bool_decide_eq_false_2 in Hk by apply not_elem_of_nil.
  fold (drop_duplicates_first key l) in Hk. split.
  - intros Hin.
    assert (Hf : In x (List.filter (has_key key (key x))
                         (drop_duplicates_first key l))).
    { apply filter_In. split; [done|]. by apply has_key_true. }
    rewrite Hk in Hf. destruct (first_with key (key x) l) as [y|]; [|done].
    destruct Hf as [->|[]]. done.
  - intros Hf. rewrite Hf in Hk.
    assert (Hin : In x (List.filter (has_key key (key x))
                          (drop_duplicates_first key l))).
    { rewrite Hk. by left. }
    by apply filter_In in Hin as [? _].
Qed.

(** A row of the cleaned table is the cleaned first row of its key. *)
Lemma shape_In (l : list A) (r : A) :
  In r (shape l) ->
  k r = true /\ exists r0, first_with key (key r) l = Some r0 /\ r = L r0.
Proof.
  intros [Hin Hk]%filter_In. split; [done|].
  rewrite <- map_drop_duplicates_first in Hin by done.
  apply in_map_iff in Hin as (r0 & <- & Hin).
  exists r0. split; [|done]. rewrite key_L. by apply drop_duplicates_first_In.
Qed.



Hypothesis L_idem : forall x, L (L x) = L x.

Lemma shape_idem (l : list A) : shape (shape l) = shape l.
Proof.
  assert (HL : List.map L (shape l) = shape l).
  { apply map_fixed. intros r [Hin _]%filter_In.
    rewrite <- map_drop_duplicates_first in Hin by done.
    apply in_map_iff in Hin as (r0 & <- & _). apply L_idem. }
  rewrite HL. unfold drop_duplicates_first at 1.
  rewrite drop_marked_first_id.
  - apply filter_idem.
  - apply shape_NoDup.
  - intros. apply not_elem_of_nil.
Qed.
End CleanShape.

Section IngestaoIdem.
Context `{Pandas}.
Hypothesis nfkd_ascii :
  forall s, (forall c, In c s -> is_ascii c = true) -> nfkd s = s.

Lemma limpar_cliente_idem (r : Cliente) :
  limpar_cliente (limpar_cliente r) = limpar_cliente r.
Proof.
  destruct r as [id nome email tel nasc cad cid est].
  cbv [limpar_cliente set_c_data_cadastro set_c_data_nascimento set_c_cidade
         set_c_nome c_id_cliente c_nome c_email c_telefone c_data_nascimento
         c_data_cadastro c_cidade c_estado].
  by rewrite !to_datetime_idem, !(ascii_fold_idem nfkd_ascii).
Qed.

Lemma limpar_cliente_lab_idem (r : ClienteLab) :
  limpar_cliente_lab (limpar_cliente_lab r) = limpar_cliente_lab r.
Proof.
  destruct r as [id nome email idade st cad].
  cbv [limpar_cliente_lab set_l_data_cadastro set_l_nome l_id_cliente l_nome
         l_email l_idade l_status l_data_cadastro].
  by rewrite !to_datetime_idem, !(ascii_fold_idem nfkd_ascii).
Qed.

Lemma limpar_produto_idem (r : Produto) :
  limpar_produto (limpar_produto r) = limpar_produto r.
Proof.
  destruct r as [id nome cat preco est cri ativo].
  cbv [limpar_produto set_p_ativo set_p_data_criacao set_p_categoria
         set_p_nome_produto p_id_produto p_nome_produto p_categoria p_preco
         p_estoque p_data_criacao p_ativo].
  by rewrite !to_datetime_idem, !(ascii_fold_idem nfkd_ascii), astype_bool_idem.
Qed.
End IngestaoIdem.

Section IngestaoIdemDatas.
Context `{Pandas}.

Lemma limpar_venda_idem (r : Venda) :
  limpar_venda (limpar_venda r) = limpar_venda r.
Proof.
  destruct r as [id cli prod qtd vu vt dv].
  cbv [limpar_venda set_v_data_venda v_id_venda v_id_cliente v_id_produto
         v_quantidade v_valor_unitario v_valor_total v_data_venda].
  by rewrite !to_datetime_idem.
Qed.

Lemma limpar_logistica_idem (r : Logistica) :
  limpar_logistica (limpar_logistica r) = limpar_logistica r.
Proof.
  destruct r as [id venda envio prev real].
  cbv [limpar_logistica set_g_data_entrega_real set_g_data_entrega_prevista
         set_g_data_envio g_id_entrega g_id_venda g_data_envio
         g_data_entrega_prevista g_data_entrega_real].
  by rewrite !to_datetime_idem.
Qed.
End IngestaoIdemDatas.

(** ** Correction: [padronizar_dados] cell by cell *)

Lemma assign_assign (col : string) (f g : cell -> cell) (df : DataFrame) :
  assign col g (assign col f df) = assign col (fun c => g (f c)) df.
Proof.
  unfold assign. simpl. f_equal. rewrite List.map_map.
  apply List.map_ext. intros r. apply alter_alter_eq.
Qed.

Lemma assign_same (col : string) (df : DataFrame) :
  assign col (fun c => c) df = df.
Proof.
  destruct df as [cols rs]. unfold assign. simpl. f_equal.
  apply map_fixed. intros r _. by apply alter_id.
Qed.

Section CorrecaoFacts.
Context `{Pandas}.

Lemma padronizar_dados_fold (df : DataFrame) (tipo : string) :
  padronizar_dados df tipo =
  foldl (fun df col => assign col (padronizar_celula col) df) df (columns df).
Proof.
  unfold padronizar_dados. generalize (columns df) as cols. intros cols.
  revert df. induction cols as [|col cols IH]; intros df; simpl; [done|].
  rewrite IH. f_equal. unfold padronizar_celula.
  destruct (str_in "data" col), (str_in "telefone" col), (str_in "email" col);
    rewrite ?assign_assign; try done; by rewrite assign_same.
Qed.

(** The rows of the standardized table, by the columns of the loop. *)
Lemma foldl_assign (F : string -> cell -> cell) (cols : list string)
  (df : DataFrame) :
  foldl (fun df col => assign col (F col) df) df cols =
  {| columns := columns df;
     rows := List.map (fun r => foldl (fun r col => alter (F col) col r) r cols)
               (rows df) |}.
Proof.
  revert df. induction cols as [|col cols IH]; intros [cs rs]; simpl.
  - by rewrite List.map_id.
  - rewrite IH. simpl. by rewrite List.map_map.
Qed.

Lemma foldl_alter_lookup (F : string -> cell -> cell) (cols : list string)
  (r : gmap string cell) (c : string) :
  NoDup cols ->
  foldl (fun r col => alter (F col) col r) r cols !! c =
  if bool_decide (c ∈ cols) then F c <$> r !! c else r !! c.
Proof.
  revert r. induction cols as [|col cols IH]; intros r Hnd; simpl; [done|].
  apply NoDup_cons in Hnd as [Hcol Hnd]. rewrite IH by done.
  destruct (decide (c = col)) as [->|Hne].
  - rewrite bool_decide_eq_false_2 by done.
    rewrite bool_decide_eq_true_2 by apply list_elem_of_here.
    apply lookup_alter_eq.
  - rewrite lookup_alter_ne by done.
    case_bool_decide as Hc.
    + by rewrite bool_decide_eq_true_2 by (by apply list_elem_of_further).
    + rewrite bool_decide_eq_false_2; [done|].
      intros [?|?]%elem_of_cons; done.
Qed.

Lemma padronizar_dados_columns (df : DataFrame) (tipo : string) :
  columns (padronizar_dados df tipo) = columns df.
Proof. by rewrite padronizar_dados_fold, foldl_assign. Qed.

Lemma padronizar_dados_length (df : DataFrame) (tipo : string) :
  length (rows (padronizar_dados df tipo)) = length (rows df).
Proof. rewrite padronizar_dados_fold, foldl_assign. simpl. apply length_map. Qed.

(** Row [i] of the standardized table is row [i] of the table, each cell
    of a column of the table standardized by the name of its column. *)
Lemma padronizar_dados_lookup (df : DataFrame) (tipo : string) (i : nat)
  (r : gmap string cell) :
  NoDup (columns df) ->
  rows df !! i = Some r ->
  exists r', rows (padronizar_dados df tipo) !! i = Some r' /\
    forall col, r' !! col =
      if bool_decide (col ∈ columns df) then padronizar_celula col <$> r !! col
      else r !! col.
Proof.
  intros Hnd Hi. rewrite padronizar_dados_fold, foldl_assign. simpl.
  eexists. split.
  - change (List.map ?f ?l) with (f <$> l). rewrite list_lookup_fmap, Hi. done.
  - intros col. by apply foldl_alter_lookup.
Qed.

(** A column of unique name under the date rule alone is a datetime
    column after [padronizar_dados]: this is how the two date columns of
    the deliveries reach [corrigir_inconsistencias]. *)
Lemma padronizar_dados_datetime (df : DataFrame) (tipo col : string) (i : nat)
  (r' : gmap string cell) :
  NoDup (columns df) ->
  col ∈ columns df ->
  str_in "data" col = true ->
  (regras col <= 1)%nat ->
  (forall r, In r (rows df) -> is_Some (r !! col)) ->
  rows (padronizar_dados df tipo) !! i = Some r' ->
  is_datetime (cell_at col r') = true.
Proof.
  intros Hnd Hcol Hdata Hone Hwf Hi'.
  assert (Hlt : (i < length (rows df))%nat).
  { rewrite <- (padronizar_dados_length df tipo). by eapply lookup_lt_Some. }
  destruct (lookup_lt_is_Some_2 _ _ Hlt) as [r Hi].
  destruct (padronizar_dados_lookup df tipo i r Hnd Hi) as (r'' & Hi'' & Hr').
  rewrite Hi' in Hi''. injection Hi'' as <-.
  destruct (Hwf r) as [c Hc].
  { apply list_elem_of_In, list_elem_of_lookup. eauto. }
  unfold cell_at. rewrite Hr', bool_decide_eq_true_2, Hc by done.
  simpl. unfold padronizar_celula. unfold regras in Hone. rewrite Hdata in *.
  destruct (str_in "telefone" col), (str_in "email" col); simpl in Hone;
    try lia.
  by destruct (to_datetime_kind c) as [-> | [t ->]].
Qed.
End CorrecaoFacts.

Section CorrecaoIdem.
Context `{Pandas}.

Lemma padronizar_celula_idem (col : string) (c : cell) :
  (regras col <= 1)%nat ->
  padronizar_celula col (padronizar_celula col c) = padronizar_celula col c.
Proof.
  unfold regras, padronizar_celula.
  destruct (str_in "data" col), (str_in "telefone" col), (str_in "email" col);
    simpl; try lia; intros _.
  - apply to_datetime_idem.
  - apply padronizar_telefone_idem.
  - apply email_step_idem.
  - done.
Qed.

Lemma padronizar_dados_idem (df : DataFrame) (tipo tipo' : string) :
  NoDup (columns df) ->
  (forall col, col ∈ columns df -> (regras col <= 1)%nat) ->
  padronizar_dados (padronizar_dados df tipo) tipo' = padronizar_dados df tipo.
Proof.
  intros Hnd Hr. rewrite (padronizar_dados_fold (padronizar_dados df tipo)).
  rewrite padronizar_dados_columns, padronizar_dados_fold, !foldl_assign.
  simpl. f_equal. rewrite List.map_map. apply List.map_ext. intros r.
  apply map_eq. intros c. rewrite !foldl_alter_lookup by done.
  case_bool_decide as Hc; [|done].
  rewrite <- option_fmap_compose. apply option_fmap_ext. intros x. simpl.
  by apply padronizar_celula_idem, Hr.
Qed.
End CorrecaoIdem.

(** ** Correction: [remover_duplicatas] *)



Lemma remover_duplicatas_ok (df : DataFrame) (chave : string) :
  chave ∈ columns df ->
  comparable (List.map (cell_at chave) (rows df)) = true ->
  remover_duplicatas df chave =
  Ok {| columns := columns df;
        rows := drop_duplicates_last (cell_at chave)
                  (sort_by (cell_at chave) cell_leb (rows df)) |}.
Proof.
  intros Hc Hk. unfold remover_duplicatas, column.
  rewrite bool_decide_eq_true_2 by done. simpl. by rewrite Hk.
Qed.

Lemma remover_duplicatas_inv (df df' : DataFrame) (chave : string) :
  remover_duplicatas df chave = Ok df' ->
  chave ∈ columns df /\
  df' = {| columns := columns df;
           rows := drop_duplicates_last (cell_at chave)
                     (sort_by (cell_at chave) cell_leb (rows df)) |}.
Proof.
  unfold remover_duplicatas, column. case_bool_decide as Hc; simpl; [|done].
  destruct (comparable _); [|done]. intros [= <-]. done.
Qed.

Lemma remover_duplicatas_NoDup (df df' : DataFrame) (chave : string) :
  remover_duplicatas df chave = Ok df' ->
  NoDup (List.map (cell_at chave) (rows df')).
Proof.
  intros [_ ->]%remover_duplicatas_inv. simpl. apply drop_duplicates_last_NoDup.
Qed.


Lemma remover_duplicatas_In (df df' : DataFrame) (chave : string)
  (r : gmap string cell) :
  remover_duplicatas df chave = Ok df' -> In r (rows df') -> In r (rows df).
Proof.
  intros [_ ->]%remover_duplicatas_inv. simpl. intros Hin.
  apply list_elem_of_In.
  rewrite <- (sort_by_Permutation (cell_at chave) cell_leb (rows df)).
  eapply elem_of_sublist; [|apply (drop_duplicates_last_sublist (cell_at chave))].
  by apply list_elem_of_In.
Qed.

(** ** Correction: [corrigir_inconsistencias] *)

Lemma lt_columns_datetime (f g : gmap string cell -> cell)
  (rs : list (gmap string cell)) :
  (forall r, In r rs -> is_datetime (f r) = true /\ is_datetime (g r) = true) ->
  lt_columns (List.map f rs) (List.map g rs) =
  Ok (List.map
        (fun r => match lt_cell (f r) (g r) with Ok b => b | Raise _ => false end)
        rs).
Proof.
  induction rs as [|r rs IH]; intros Hd; simpl; [done|].
  rewrite IH by (intros; apply Hd; by right).
  destruct (Hd r) as [Hf Hg]; [by left|].
  destruct (f r), (g r); try done.
Qed.

Lemma zip_with_map_mask {A} (b : A -> bool) (f : A -> A) (l : list A) :
  zip_with (fun (m : bool) x => if m then f x else x) (List.map b l) l =
  List.map (fun x => if b x then f x else x) l.
Proof. induction l as [|x l IH]; simpl; [done|]. by rewrite IH. Qed.

(** On datetime columns the repair maps every row: a row whose delivery
    precedes its shipping gets [NaT] for the delivery, any other row is
    left as it is. *)
Lemma corrigir_inconsistencias_rows (vendas logistica : DataFrame) :
  "data_entrega_real" ∈ columns logistica ->
  "data_envio" ∈ columns logistica ->
  (forall r, In r (rows logistica) ->
     is_datetime (cell_at "data_entrega_real" r) = true /\
     is_datetime (cell_at "data_envio" r) = true) ->
  corrigir_inconsistencias vendas logistica =
  Ok (vendas,
      {| columns := columns logistica;
         rows := List.map
                   (fun r => if entrega_antes_do_envio r
                             then <["data_entrega_real" := NaT]> r else r)
                   (rows logistica) |}).
Proof.
  intros Hr He Hd. unfold corrigir_inconsistencias, column.
  rewrite !bool_decide_eq_true_2 by done. simpl.
  rewrite lt_columns_datetime by done. simpl.
  unfold loc_assign. by rewrite zip_with_map_mask.
Qed.

(** ** The runs *)

Lemma io_bind_ok {S A B} (m : io S A) (f : A -> io S B) (s s'' : S) (b : B) :
  (m ≫= f) s = (Ok b, s'') ->
  exists a s', m s = (Ok a, s') /\ f a s' = (Ok b, s'').
Proof.
  unfold mbind, io_bind. destruct (m s) as [[a|e] s']; [eauto|done].
Qed.

Section PipelineFacts.
Context `{Pandas}.

(** With its five files the ingestion run writes the five cleaned tables. *)
Lemma pipeline_ingestao_ok (d : disk) (c : list Cliente) (cl : list ClienteLab)
  (p : list Produto) (v : list Venda) (g : list Logistica) :
  datasets d =
    {| clientes_csv := Some c; clientes_lab_csv := Some cl;
       produtos_csv := Some p; vendas_csv := Some v; logistica_csv := Some g |} ->
  exists l,
    pipeline_ingestao d =
    (Ok tt,
     {| datasets := datasets d;
        data :=
          {| clientes_csv := Some (clean_clientes c);
             clientes_lab_csv := Some (clean_clientes_lab cl);
             produtos_csv := Some (clean_produtos p);
             vendas_csv :=
               Some (clean_vendas v
                       (List.map c_id_cliente (clean_clientes c))
                       (List.map p_id_produto (clean_produtos p)));
             logistica_csv :=
               Some (clean_logistica g
                       (List.map v_id_venda
                          (clean_vendas v
                             (List.map c_id_cliente (clean_clientes c))
                             (List.map p_id_produto (clean_produtos p))))) |};
        log := log d ++ l |}).
Proof.
  destruct d as [ds dt lg]. simpl. intros ->. eexists.
  cbv [pipeline_ingestao try_except pipeline_body read_csv logged logging
       to_csv mbind io_bind mret io_ret datasets data log clientes_csv
       clientes_lab_csv produtos_csv vendas_csv logistica_csv write_clientes
       write_clientes_lab write_produtos write_vendas write_logistica].
  rewrite <- !app_assoc. reflexivity.
Qed.

(** Without one of them it writes nothing, logs the error and raises it. *)
Lemma pipeline_ingestao_missing (d : disk) :
  clientes_csv (datasets d) = None \/ clientes_lab_csv (datasets d) = None \/
  produtos_csv (datasets d) = None \/ vendas_csv (datasets d) = None \/
  logistica_csv (datasets d) = None ->
  exists name,
    pipeline_ingestao d =
    (Raise (FileNotFoundError name),
     {| datasets := datasets d; data := data d;
        log := log d ++
               [ERROR "Erro no pipeline de ingestao" (FileNotFoundError name)] |}).
Proof.
  destruct d as [[c cl p v g] dt lg]. simpl. intros Hm.
  cbv [pipeline_ingestao try_except pipeline_body read_csv logging raise
       mbind io_bind mret io_ret datasets data log clientes_csv
       clientes_lab_csv produtos_csv vendas_csv logistica_csv].
  destruct c; [|by eexists]. destruct cl; [|by eexists].
  destruct p; [|by eexists]. destruct v; [|by eexists].
  destruct g; [|by eexists].
  exfalso. destruct Hm as [?|[?|[?|[?|?]]]]; discriminate.
Qed.

Lemma pipeline_ingestao_inv (d d' : disk) :
  pipeline_ingestao d = (Ok tt, d') ->
  exists c cl p v g,
    datasets d =
      {| clientes_csv := Some c; clientes_lab_csv := Some cl;
         produtos_csv := Some p; vendas_csv := Some v;
         logistica_csv := Some g |}.
Proof.
  intros Hrun. destruct (datasets d) as [c cl p v g] eqn:Hd.
  assert (Hall : ~ (c = None \/ cl = None \/ p = None \/ v = None \/ g = None)).
  { intros Hm. destruct (pipeline_ingestao_missing d) as [name Hn].
    - rewrite Hd. exact Hm.
    - congruence. }
  destruct c as [c|]; [|tauto]. destruct cl as [cl|]; [|tauto].
  destruct p as [p|]; [|tauto]. destruct v as [v|]; [|tauto].
  destruct g as [g|]; [|tauto]. by exists c, cl, p, v, g.
Qed.
End PipelineFacts.

(** ** The correction run *)

Lemma cell_at_alter_ne (col k : string) (f : cell -> cell) (r : gmap string cell) :
  col <> k -> cell_at k (alter f col r) = cell_at k r.
Proof. intros Hne. unfold cell_at. by rewrite lookup_alter_ne. Qed.

Lemma cell_at_insert_ne (col k : string) (v : cell) (r : gmap string cell) :
  col <> k -> cell_at k (<[col := v]> r) = cell_at k r.
Proof. intros Hne. unfold cell_at. by rewrite lookup_insert_ne. Qed.

Lemma assign_key (col k : string) (f : cell -> cell) (df : DataFrame) :
  col <> k ->
  List.map (cell_at k) (rows (assign col f df)) = List.map (cell_at k) (rows df).
Proof.
  intros Hne. unfold assign. simpl. rewrite List.map_map.
  apply List.map_ext. intros r. by apply cell_at_alter_ne.
Qed.

Lemma fillna_inplace_inv (col : string) (v : cell) (df df' : DataFrame) :
  fillna_inplace col v df = Ok df' -> df' = assign col (fillna v) df.
Proof.
  unfold fillna_inplace, column. case_bool_decide; simpl; [|done]. by intros [= <-].
Qed.

Lemma fillna_inplace_key (col k : string) (v : cell) (df df' : DataFrame) :
  col <> k -> fillna_inplace col v df = Ok df' ->
  List.map (cell_at k) (rows df') = List.map (cell_at k) (rows df).
Proof. intros Hne ->%fillna_inplace_inv. by apply assign_key. Qed.

Lemma result_bind_ok {A B} (m : result A) (f : A -> result B) (b : B) :
  m ≫= f = Ok b -> exists a, m = Ok a /\ f a = Ok b.
Proof. destruct m as [a|e]; simpl; [eauto|done]. Qed.

(** The columns [preencher_campos_vazios] fills. *)
Lemma preencher_campos_vazios_key (df df' : DataFrame) (tipo k : string) :
  k ∉ ["estado"; "cidade"; "nome"; "categoria"; "ativo"; "status";
       "status_entrega"] ->
  preencher_campos_vazios df tipo = Ok df' ->
  List.map (cell_at k) (rows df') = List.map (cell_at k) (rows df).
Proof.
  intros Hk. rewrite !not_elem_of_cons in Hk.
  destruct Hk as (? & ? & ? & ? & ? & ? & ? & _).
  unfold preencher_campos_vazios.
  repeat case_bool_decide.
  - intros (d1 & Hf1 & (d2 & Hf2 & Hf3)%result_bind_ok)%result_bind_ok.
    apply (fillna_inplace_key _ k) in Hf1, Hf2, Hf3; congruence.
  - intros (d1 & Hf1 & Hf2)%result_bind_ok.
    apply (fillna_inplace_key _ k) in Hf1, Hf2; congruence.
  - apply fillna_inplace_key. congruence.
  - apply fillna_inplace_key. congruence.
  - by intros [= <-].
Qed.

Lemma validar_relacionamentos_inv (vendas clientes produtos vendas' : DataFrame) :
  validar_relacionamentos vendas clientes produtos = Ok vendas' ->
  vendas' =
  select
    (fun r => isin (cell_at "id_cliente" r)
                (List.map (cell_at "id_cliente") (rows clientes))
              && isin (cell_at "id_produto" r)
                   (List.map (cell_at "id_produto") (rows produtos)))
    vendas.
Proof.
  unfold validar_relacionamentos, column, mbind, result_bind.
  repeat (case_bool_decide; [|done]). by intros [= <-].
Qed.

Lemma lt_columns_length (left right : list cell) (mask : list bool) :
  lt_columns left right = Ok mask ->
  length mask = Nat.min (length left) (length right).
Proof.
  revert right mask. induction left as [|c1 left IH]; intros [|c2 right] mask;
    simpl; try (by intros [= <-]).
  destruct (lt_cell c1 c2) as [b|]; simpl; [|done].
  destruct (lt_columns left right) as [bs|] eqn:Hbs; simpl; [|done].
  intros [= <-]. simpl. by rewrite (IH _ _ Hbs).
Qed.

Lemma corrigir_inconsistencias_inv (vendas logistica vendas' logistica' : DataFrame) :
  corrigir_inconsistencias vendas logistica = Ok (vendas', logistica') ->
  vendas' = vendas /\
  exists mask, length mask = length (rows logistica) /\
    logistica' = loc_assign mask "data_entrega_real" NaT logistica.
Proof.
  unfold corrigir_inconsistencias, column, mbind, result_bind.
  repeat (case_bool_decide; [|done]).
  destruct (lt_columns _ _) as [mask|] eqn:Hm; [|done].
  intros [= <- <-]. split; [done|]. exists mask. split; [|done].
  apply lt_columns_length in Hm. rewrite !length_map in Hm. lia.
Qed.

Lemma loc_assign_key (mask : list bool) (col k : string) (v : cell)
  (df : DataFrame) :
  col <> k -> length mask = length (rows df) ->
  List.map (cell_at k) (rows (loc_assign mask col v df)) =
  List.map (cell_at k) (rows df).
Proof.
  intros Hne. unfold loc_assign. simpl. generalize (rows df) as rs.
  induction mask as [|m mask IH]; intros [|r rs]; simpl; try done.
  intros [= Hl]. rewrite IH by done. f_equal.
  destruct m; [|done]. by apply cell_at_insert_ne.
Qed.

Section CorrecaoRunFacts.
Context `{Pandas}.

Lemma processar_dataset_inv (nome k : string) (d d' : corr_disk) (df : DataFrame) :
  k <> "" ->
  processar_dataset nome (Some k) d = (Ok df, d') ->
  exists df0 df1,
    data_dir d !! (nome +:+ ".csv") = Some df0 /\
    remover_duplicatas (padronizar_dados df0 nome) k = Ok df1 /\
    preencher_campos_vazios df1 nome = Ok df /\
    data_dir d' = data_dir d /\
    output_dir d' = <[nome +:+ "_corrigido.csv" := df]> (output_dir d).
Proof.
  intros Hk. unfold processar_dataset.
  intros (df0 & d0 & Hread & Hrest)%io_bind_ok.
  unfold corr_read_csv in Hread.
  destruct (data_dir d !! (nome +:+ ".csv")) as [df0'|] eqn:Hf; [|done].
  injection Hread as <- <-.
  rewrite bool_decide_eq_false_2 in Hrest by done.
  apply io_bind_ok in Hrest as (df1 & d1 & Hdedup & Hrest).
  apply io_bind_ok in Hdedup as (df1' & d1' & Hrd & Hlog).
  unfold lift in Hrd. injection Hrd as Hrd <-.
  apply io_bind_ok in Hlog as ([] & d1'' & Hlog & Hret).
  unfold corr_logging in Hlog. injection Hlog as <-.
  unfold mret, io_ret in Hret. injection Hret as <- <-.
  apply io_bind_ok in Hrest as (df2 & d2 & Hfill & Hrest).
  unfold lift in Hfill. injection Hfill as Hfill <-.
  apply io_bind_ok in Hrest as ([] & d3 & Hw & Hrest).
  unfold corr_to_csv in Hw. injection Hw as <-.
  apply io_bind_ok in Hrest as ([] & d4 & Hlog & Hret).
  unfold corr_logging in Hlog. injection Hlog as <-.
  unfold mret, io_ret in Hret. injection Hret as <- <-.
  exists df0', df1'. simpl. done.
Qed.
End CorrecaoRunFacts.

(** * The claims *)

(** ** Fatal load failure *)

(** C8. When one of the five raw files is absent, the ingestion run ends
    with the [FileNotFoundError] of the first absent file: the handler
    adds one [ERROR] record to the log and raises the same exception
    again, and the [data] directory is what it was before the run, for
    every entity, whatever files had been read before the absent one. *)
Theorem missing_raw_file_aborts_without_output `{Pandas} (d : disk) :
  clientes_csv (datasets d) = None \/ clientes_lab_csv (datasets d) = None \/
  produtos_csv (datasets d) = None \/ vendas_csv (datasets d) = None \/
  logistica_csv (datasets d) = None ->
  exists name d',
    pipeline_ingestao d = (Raise (FileNotFoundError name), d') /\
    data d' = data d /\
    datasets d' = datasets d /\
    log d' =
      log d ++ [ERROR "Erro no pipeline de ingestao" (FileNotFoundError name)].
Proof.
  intros Hm. destruct (pipeline_ingestao_missing d Hm) as [name Hrun].
  eexists name, _. split; [exact Hrun|]. done.
Qed.

Lemma missing_raw_file_aborts_without_output_witness :
  logistica_csv (datasets disco_sem_logistica) = None /\
  exists name d',
    pipeline_ingestao (H := pandas_iso) disco_sem_logistica =
      (Raise (FileNotFoundError name), d') /\
    data d' = data disco_sem_logistica /\
    datasets d' = datasets disco_sem_logistica /\
    log d' =
      log disco_sem_logistica ++
      [ERROR "Erro no pipeline de ingestao" (FileNotFoundError name)].
Proof.
  split; [reflexivity|].
  apply (missing_raw_file_aborts_without_output (H := pandas_iso)).
  right. right. right. right. reflexivity.
Defined.

(** ** The repair step *)

Lemma lookup_cell_at (col : string) (r : gmap string cell) (c : cell) :
  r !! col = Some c -> cell_at col r = c.
Proof. intros Hc. unfold cell_at. by rewrite Hc. Qed.

(** C2. On the datetime columns the correction run hands over, the repair
    keeps every row: the table keeps its length, and a row whose delivery
    instant is before its shipping instant is, at its place, the same row
    with [NaT] for [data_entrega_real]; its [data_envio] is the one it
    had. *)
Theorem repair_nulls_delivery_and_keeps_row (vendas logistica : DataFrame)
  (i : nat) (r : gmap string cell) (envio real : Z) :
  "data_entrega_real" ∈ columns logistica ->
  "data_envio" ∈ columns logistica ->
  (forall r, In r (rows logistica) ->
     is_datetime (cell_at "data_entrega_real" r) = true /\
     is_datetime (cell_at "data_envio" r) = true) ->
  rows logistica !! i = Some r ->
  r !! "data_envio" = Some (Timestamp envio) ->
  r !! "data_entrega_real" = Some (Timestamp real) ->
  real < envio ->
  exists logistica' r',
    corrigir_inconsistencias vendas logistica = Ok (vendas, logistica') /\
    length (rows logistica') = length (rows logistica) /\
    rows logistica' !! i = Some r' /\
    r' = <["data_entrega_real" := NaT]> r /\
    r' !! "data_entrega_real" = Some NaT /\
    r' !! "data_envio" = Some (Timestamp envio).
Proof.
  intros Hr He Hd Hi Henvio Hreal Hlt.
  eexists _, _. split; [by apply corrigir_inconsistencias_rows|]. simpl.
  split; [apply length_map|].
  assert (Hm : entrega_antes_do_envio r = true).
  { unfold entrega_antes_do_envio.
    rewrite (lookup_cell_at _ _ _ Henvio), (lookup_cell_at _ _ _ Hreal).
    simpl. f_equal. apply negb_true_iff, Z.leb_gt, Hlt. }
  split.
  { change (List.map ?f ?l) with (f <$> l). rewrite list_lookup_fmap, Hi.
    simpl. by rewrite Hm. }
  split; [done|]. split; [apply lookup_insert_eq|].
  by rewrite lookup_insert_ne.
Qed.

(** The scenario of the specification: shipped 2024-01-10 (day 19732),
    delivered 2024-01-05 (day 19727). *)
Lemma repair_nulls_delivery_and_keeps_row_witness :
  exists logistica' r',
    corrigir_inconsistencias vendas_corrigido logistica_datas =
      Ok (vendas_corrigido, logistica') /\
    length (rows logistica') = length (rows logistica_datas) /\
    rows logistica' !! 0%nat = Some r' /\
    r' = <["data_entrega_real" := NaT]>
           (linha [("id_entrega", S_ "E1"); ("id_venda", S_ "V1");
                   ("data_envio", Timestamp 19732);
                   ("data_entrega_real", Timestamp 19727)]) /\
    r' !! "data_entrega_real" = Some NaT /\
    r' !! "data_envio" = Some (Timestamp 19732).
Proof.
  apply (repair_nulls_delivery_and_keeps_row vendas_corrigido logistica_datas
           0 _ 19732 19727).
  - apply list_elem_of_In. simpl. tauto.
  - apply list_elem_of_In. simpl. tauto.
  - intros r [<-|[<-|[]]]; split; reflexivity.
  - reflexivity.
  - reflexivity.
  - reflexivity.
  - lia.
Defined.

(** C9. The repair returns the sales table it was given; the deliveries
    keep their columns and their number of rows; at every place the row is
    the row that was there in every column but [data_entrega_real], and is
    that very row when its delivery is not before its shipping. *)
Theorem repair_changes_only_violating_delivery (vendas logistica : DataFrame) :
  "data_entrega_real" ∈ columns logistica ->
  "data_envio" ∈ columns logistica ->
  (forall r, In r (rows logistica) ->
     is_datetime (cell_at "data_entrega_real" r) = true /\
     is_datetime (cell_at "data_envio" r) = true) ->
  exists logistica',
    corrigir_inconsistencias vendas logistica = Ok (vendas, logistica') /\
    columns logistica' = columns logistica /\
    length (rows logistica') = length (rows logistica) /\
    forall i r, rows logistica !! i = Some r ->
      exists r', rows logistica' !! i = Some r' /\
        (forall col, col <> "data_entrega_real" -> r' !! col = r !! col) /\
        (entrega_antes_do_envio r = false -> r' = r).
Proof.
  intros Hr He Hd.
  eexists. split; [by apply corrigir_inconsistencias_rows|]. simpl.
  split; [done|]. split; [apply length_map|].
  intros i r Hi. eexists. split.
  { change (List.map ?f ?l) with (f <$> l). by rewrite list_lookup_fmap, Hi. }
  split.
  - intros col Hcol. destruct (entrega_antes_do_envio r); [|done].
    by rewrite lookup_insert_ne.
  - by intros ->.
Qed.

Lemma repair_changes_only_violating_delivery_witness :
  exists logistica',
    corrigir_inconsistencias vendas_corrigido logistica_datas =
      Ok (vendas_corrigido, logistica') /\
    columns logistica' = columns logistica_datas /\
    length (rows logistica') = length (rows logistica_datas) /\
    forall i r, rows logistica_datas !! i = Some r ->
      exists r', rows logistica' !! i = Some r' /\
        (forall col, col <> "data_entrega_real" -> r' !! col = r !! col) /\
        (entrega_antes_do_envio r = false -> r' = r).
Proof.
  apply (repair_changes_only_violating_delivery vendas_corrigido logistica_datas).
  - apply list_elem_of_In. simpl. tauto.
  - apply list_elem_of_In. simpl. tauto.
  - intros r [<-|[<-|[]]]; split; reflexivity.
Defined.

(** ** Phones *)



(** ** Duplicates *)

Section IngestaoPrimeira.
Context `{Pandas}.

Ltac by_fields := intros []; reflexivity.





End IngestaoPrimeira.






(** ** Idempotence *)

(** C6. Where NFKD leaves ASCII text as it is, each of the five ingestion
    functions returns its own output unchanged: the same rows, in the same
    order, with the same values ([clean_vendas] and [clean_logistica] with
    the ids they were given the first time). On a table whose column
    names are unique and fall under at most one of the three rules each
    (as the names of the five entities do), [padronizar_dados] returns its
    own output unchanged. *)
Theorem normalizers_are_idempotent `{Pandas}
  (clientes : list Cliente) (clientes_lab : list ClienteLab)
  (produtos : list Produto) (vendas : list Venda) (logistica : list Logistica)
  (cids pids vids : list cell) (df : DataFrame) (tipo : string) :
  (forall s, (forall c, In c s -> is_ascii c = true) -> nfkd s = s) ->
  NoDup (columns df) ->
  (forall col, col ∈ columns df -> (regras col <= 1)%nat) ->
  clean_clientes (clean_clientes clientes) = clean_clientes clientes /\
  clean_clientes_lab (clean_clientes_lab clientes_lab) =
    clean_clientes_lab clientes_lab /\
  clean_produtos (clean_produtos produtos) = clean_produtos produtos /\
  clean_vendas (clean_vendas vendas cids pids) cids pids =
    clean_vendas vendas cids pids /\
  clean_logistica (clean_logistica logistica vids) vids =
    clean_logistica logistica vids /\
  padronizar_dados (padronizar_dados df tipo) tipo = padronizar_dados df tipo.
Proof.
  intros Hnfkd Hnd Hone.
  split. { rewrite !clean_clientes_rows.
           apply (shape_idem c_id_cliente limpar_cliente);
             [by intros []|apply (limpar_cliente_idem Hnfkd)]. }
  split. { rewrite !clean_clientes_lab_rows.
           apply (shape_idem l_id_cliente limpar_cliente_lab);
             [by intros []|apply (limpar_cliente_lab_idem Hnfkd)]. }
  split. { rewrite !clean_produtos_rows.
           apply (shape_idem p_id_produto limpar_produto);
             [by intros []|apply (limpar_produto_idem Hnfkd)]. }
  split. { rewrite !clean_vendas_rows.
           apply (shape_idem v_id_venda limpar_venda);
             [by intros []|apply limpar_venda_idem]. }
  split. { rewrite !clean_logistica_rows.
           apply (shape_idem g_id_entrega limpar_logistica);
             [by intros []|apply limpar_logistica_idem]. }
  by apply padronizar_dados_idem.
Qed.

Lemma normalizers_are_idempotent_witness :
  clean_clientes (H := pandas_iso)
    (clean_clientes (H := pandas_iso)
       [cliente_ana; cliente_ana_maria; cliente_sem_data]) =
  clean_clientes (H := pandas_iso)
    [cliente_ana; cliente_ana_maria; cliente_sem_data] /\
  padronizar_dados (H := pandas_iso)
    (padronizar_dados (H := pandas_iso) clientes_data "clientes") "clientes" =
  padronizar_dados (H := pandas_iso) clientes_data "clientes".
Proof.
  destruct (normalizers_are_idempotent (H := pandas_iso)
              [cliente_ana; cliente_ana_maria; cliente_sem_data]
              [cliente_lab_bia] [produto_livro; produto_preco_negativo]
              [venda_livro; venda_caneta] [entrega_adiantada; entrega_sem_envio]
              [S_ "C1"] [S_ "P1"] [S_ "V1"] clientes_data "clientes")
    as (Hcli & _ & _ & _ & _ & Hpad).
  - exact decompose_ascii.
  - apply (bool_decide_unpack (NoDup (columns clientes_data))).
    vm_compute. exact I.
  - intros col Hcol. apply list_elem_of_In in Hcol. simpl in Hcol.
    destruct Hcol as [<-|[<-|[<-|[<-|[<-|[<-|[]]]]]]]; vm_compute; lia.
  - split; [exact Hcli|exact Hpad].
Defined.

(** ** Key uniqueness *)

Section ChavesUnicas.
Context `{Pandas}.

Lemma clean_clientes_NoDup (df : list Cliente) :
  NoDup (List.map c_id_cliente (clean_clientes df)).
Proof. rewrite clean_clientes_rows. apply shape_NoDup. Qed.

Lemma clean_clientes_lab_NoDup (df : list ClienteLab) :
  NoDup (List.map l_id_cliente (clean_clientes_lab df)).
Proof. rewrite clean_clientes_lab_rows. apply shape_NoDup. Qed.

Lemma clean_produtos_NoDup (df : list Produto) :
  NoDup (List.map p_id_produto (clean_produtos df)).
Proof. rewrite clean_produtos_rows. apply shape_NoDup. Qed.

Lemma clean_vendas_NoDup (df : list Venda) (cids pids : list cell) :
  NoDup (List.map v_id_venda (clean_vendas df cids pids)).
Proof. rewrite clean_vendas_rows. apply shape_NoDup. Qed.

Lemma clean_logistica_NoDup (df : list Logistica) (vids : list cell) :
  NoDup (List.map g_id_entrega (clean_logistica df vids)).
Proof. rewrite clean_logistica_rows. apply shape_NoDup. Qed.

Lemma processar_dataset_NoDup (nome k : string) (d d' : corr_disk)
  (df : DataFrame) :
  k <> "" ->
  k ∉ ["estado"; "cidade"; "nome"; "categoria"; "ativo"; "status";
       "status_entrega"] ->
  processar_dataset nome (Some k) d = (Ok df, d') ->
  NoDup (List.map (cell_at k) (rows df)) /\
  output_dir d' = <[nome +:+ "_corrigido.csv" := df]> (output_dir d).
Proof.
  intros Hk Hfill Hrun.
  apply processar_dataset_inv in Hrun
      as (df0 & df1 & _ & Hdedup & Hfilled & _ & Hout); [|done].
  split; [|done].
  rewrite (preencher_campos_vazios_key _ _ _ _ Hfill Hfilled).
  by apply (remover_duplicatas_NoDup _ _ _ Hdedup).
Qed.

(** The five tables a successful correction run leaves in its output
    directory. *)
Lemma main_outputs (d d' : corr_disk) :
  main d = (Ok tt, d') ->
  exists clientes produtos vendas logistica clientes_lab,
    output_dir d' !! "clientes_corrigido.csv" = Some clientes /\
    output_dir d' !! "produtos_corrigido.csv" = Some produtos /\
    output_dir d' !! "vendas_corrigido.csv" = Some vendas /\
    output_dir d' !! "logistica_corrigido.csv" = Some logistica /\
    output_dir d' !! "clientes_lab_corrigido.csv" = Some clientes_lab /\
    NoDup (List.map (cell_at "id_cliente") (rows clientes)) /\
    NoDup (List.map (cell_at "id_produto") (rows produtos)) /\
    NoDup (List.map (cell_at "id_venda") (rows vendas)) /\
    NoDup (List.map (cell_at "id_entrega") (rows logistica)) /\
    NoDup (List.map (cell_at "id_cliente") (rows clientes_lab)).
Proof.
  unfold main. intros Hrun.
  apply io_bind_ok in Hrun as ([] & d0 & Hlog & Hrun).
  unfold corr_logging in Hlog. injection Hlog as <-.
  apply io_bind_ok in Hrun as (c & d1 & Hc & Hrun).
  apply io_bind_ok in Hrun as (p & d2 & Hp & Hrun).
  apply io_bind_ok in Hrun as (v & d3 & Hv & Hrun).
  apply io_bind_ok in Hrun as (g & d4 & Hg & Hrun).
  apply io_bind_ok in Hrun as (cl & d5 & Hcl & Hrun).
  apply io_bind_ok in Hrun as (v' & d6 & Hval & Hrun).
  unfold lift in Hval. injection Hval as Hval <-.
  apply io_bind_ok in Hrun as ([] & d7 & Hlog & Hrun).
  unfold corr_logging in Hlog. injection Hlog as <-.
  apply io_bind_ok in Hrun as ([v'' g'] & d8 & Hcor & Hrun).
  unfold lift in Hcor. injection Hcor as Hcor <-.
  apply io_bind_ok in Hrun as ([] & d9 & Hlog & Hrun).
  unfold corr_logging in Hlog. injection Hlog as <-.
  apply io_bind_ok in Hrun as ([] & d10 & Hw1 & Hrun).
  unfold corr_to_csv in Hw1. injection Hw1 as <-.
  apply io_bind_ok in Hrun as ([] & d11 & Hw2 & Hrun).
  unfold corr_to_csv in Hw2. injection Hw2 as <-.
  unfold corr_logging in Hrun. injection Hrun as <-.
  assert (Hne : forall k : string,
            k ∈ ["id_cliente"; "id_produto"; "id_venda"; "id_entrega"] ->
            k <> "" /\
            k ∉ ["estado"; "cidade"; "nome"; "categoria"; "ativo"; "status";
                 "status_entrega"]).
  { intros k Hk. apply list_elem_of_In in Hk. simpl in Hk.
    destruct Hk as [<-|[<-|[<-|[<-|[]]]]];
      (split; [done|]); rewrite !not_elem_of_cons;
      repeat split; try done; apply not_elem_of_nil. }
  apply processar_dataset_NoDup in Hc as [Hc Hoc];
    [|apply Hne, list_elem_of_In; simpl; tauto..].
  apply processar_dataset_NoDup in Hp as [Hp Hop];
    [|apply Hne, list_elem_of_In; simpl; tauto..].
  apply processar_dataset_NoDup in Hv as [Hv Hov];
    [|apply Hne, list_elem_of_In; simpl; tauto..].
  apply processar_dataset_NoDup in Hg as [Hg Hog];
    [|apply Hne, list_elem_of_In; simpl; tauto..].
  apply processar_dataset_NoDup in Hcl as [Hcl Hocl];
    [|apply Hne, list_elem_of_In; simpl; tauto..].
  apply validar_relacionamentos_inv in Hval.
  apply corrigir_inconsistencias_inv in Hcor as (-> & mask & Hmask & ->).
  exists c, p, v', (loc_assign mask "data_entrega_real" NaT g), cl.
  simpl in Hoc, Hop, Hov, Hog, Hocl. simpl output_dir.
  rewrite Hocl, Hog, Hov, Hop, Hoc.
  do 5 (split; [by simplify_map_eq|]).
  split; [done|]. split; [done|].
  split; [subst v'; by apply NoDup_map_filter|].
  split; [by rewrite loc_assign_key|done].
Qed.
End ChavesUnicas.

(** C7. In the five tables an ingestion run that succeeds writes, and in
    the five tables a correction run that succeeds leaves in its output
    directory, no two rows have the same key: [id_cliente] for the
    customers and the lab customers, [id_produto] for the products,
    [id_venda] for the sales, [id_entrega] for the deliveries. *)
Theorem output_keys_are_unique `{Pandas} (d d' : disk) (cd cd' : corr_disk) :
  (pipeline_ingestao d = (Ok tt, d') ->
   exists clientes clientes_lab produtos vendas logistica,
     data d' =
       {| clientes_csv := Some clientes; clientes_lab_csv := Some clientes_lab;
          produtos_csv := Some produtos; vendas_csv := Some vendas;
          logistica_csv := Some logistica |} /\
     NoDup (List.map c_id_cliente clientes) /\
     NoDup (List.map l_id_cliente clientes_lab) /\
     NoDup (List.map p_id_produto produtos) /\
     NoDup (List.map v_id_venda vendas) /\
     NoDup (List.map g_id_entrega logistica)) /\
  (main cd = (Ok tt, cd') ->
   exists clientes produtos vendas logistica clientes_lab,
     output_dir cd' !! "clientes_corrigido.csv" = Some clientes /\
     output_dir cd' !! "produtos_corrigido.csv" = Some produtos /\
     output_dir cd' !! "vendas_corrigido.csv" = Some vendas /\
     output_dir cd' !! "logistica_corrigido.csv" = Some logistica /\
     output_dir cd' !! "clientes_lab_corrigido.csv" = Some clientes_lab /\
     NoDup (List.map (cell_at "id_cliente") (rows clientes)) /\
     NoDup (List.map (cell_at "id_produto") (rows produtos)) /\
     NoDup (List.map (cell_at "id_venda") (rows vendas)) /\
     NoDup (List.map (cell_at "id_entrega") (rows logistica)) /\
     NoDup (List.map (cell_at "id_cliente") (rows clientes_lab))).
Proof.
  split; [|apply (main_outputs cd cd')]. intros Hing.
  destruct (pipeline_ingestao_inv d d' Hing) as (c & cl & p & v & g & Hd).
  destruct (pipeline_ingestao_ok d c cl p v g Hd) as [l Hok].
  rewrite Hok in Hing. injection Hing as <-. simpl.
  eexists _, _, _, _, _. split; [reflexivity|].
  split; [apply clean_clientes_NoDup|].
  split; [apply clean_clientes_lab_NoDup|].
  split; [apply clean_produtos_NoDup|].
  split; [apply clean_vendas_NoDup|apply clean_logistica_NoDup].
Qed.

Lemma output_keys_are_unique_witness :
  let d' := (pipeline_ingestao (H := pandas_iso) disco_bruto).2 in
  let cd' := (main (H := pandas_iso) disco_data).2 in
  (exists clientes clientes_lab produtos vendas logistica,
     data d' =
       {| clientes_csv := Some clientes; clientes_lab_csv := Some clientes_lab;
          produtos_csv := Some produtos; vendas_csv := Some vendas;
          logistica_csv := Some logistica |} /\
     NoDup (List.map c_id_cliente clientes) /\
     NoDup (List.map l_id_cliente clientes_lab) /\
     NoDup (List.map p_id_produto produtos) /\
     NoDup (List.map v_id_venda vendas) /\
     NoDup (List.map g_id_entrega logistica)) /\
  (exists clientes produtos vendas logistica clientes_lab,
     output_dir cd' !! "clientes_corrigido.csv" = Some clientes /\
     output_dir cd' !! "produtos_corrigido.csv" = Some produtos /\
     output_dir cd' !! "vendas_corrigido.csv" = Some vendas /\
     output_dir cd' !! "logistica_corrigido.csv" = Some logistica /\
     output_dir cd' !! "clientes_lab_corrigido.csv" = Some clientes_lab /\
     NoDup (List.map (cell_at "id_cliente") (rows clientes)) /\
     NoDup (List.map (cell_at "id_produto") (rows produtos)) /\
     NoDup (List.map (cell_at "id_venda") (rows vendas)) /\
     NoDup (List.map (cell_at "id_entrega") (rows logistica)) /\
     NoDup (List.map (cell_at "id_cliente") (rows clientes_lab))).
Proof.
  intros d' cd'.
  destruct (output_keys_are_unique (H := pandas_iso) disco_bruto d'
              disco_data cd') as [Hing Hcor].
  split.
  - apply Hing. vm_compute. reflexivity.
  - apply Hcor. vm_compute. reflexivity.
Defined.

(** ** Dates that do not parse *)

Section DatasFacts.
Context `{Pandas}.






End DatasFacts.




(** ** Domain invariants *)

Lemma lt_columns_Forall2 (f g : gmap string cell -> cell)
  (rs : list (gmap string cell)) (mask : list bool) :
  lt_columns (List.map f rs) (List.map g rs) = Ok mask ->
  Forall2 (fun r m => lt_cell (f r) (g r) = Ok m) rs mask.
Proof.
  revert mask. induction rs as [|r rs IH]; intros mask; simpl.
  - intros [= <-]. constructor.
  - destruct (lt_cell (f r) (g r)) as [b|] eqn:Hb; simpl; [|done].
    destruct (lt_columns _ _) as [bs|] eqn:Hbs; simpl; [|done].
    intros [= <-]. constructor; [done|]. by apply IH.
Qed.


(** After the repair no delivery is before its shipping. *)
Lemma corrigir_inconsistencias_after (vendas logistica vendas' logistica' : DataFrame)
  (r : gmap string cell) :
  corrigir_inconsistencias vendas logistica = Ok (vendas', logistica') ->
  In r (rows logistica') ->
  lt_cell (cell_at "data_entrega_real" r) (cell_at "data_envio" r) = Ok false.
Proof.
  unfold corrigir_inconsistencias, column, mbind, result_bind.
  repeat (case_bool_decide; [|done]).
  destruct (lt_columns _ _) as [mask|] eqn:Hm; [|done].
  intros [= <- <-]. apply lt_columns_Forall2 in Hm.
  unfold loc_assign. simpl. revert r.
  induction Hm as [|r0 m rs mask Hr0 Hm IH]; intros r; simpl; [done|].
  intros [<-|Hin]; [|by apply IH].
  destruct m; [|done].
  unfold cell_at at 1. by rewrite lookup_insert_eq.
Qed.

Section DominioFacts.
Context `{Pandas}.



End DominioFacts.




(** ** Referential closure *)

Section Fechamento.
Context `{Pandas}.

Lemma clean_vendas_closure (df : list Venda) (cids pids : list cell) (r : Venda) :
  In r (clean_vendas df cids pids) ->
  v_id_cliente r ∈ cids /\ v_id_produto r ∈ pids.
Proof.
  rewrite clean_vendas_rows. intros [_ Hk]%filter_In.
  do 4 (apply andb_prop in Hk as [Hk _]).
  apply andb_prop in Hk as [Hc Hp]. unfold isin in Hc, Hp.
  by apply bool_decide_eq_true in Hc, Hp.
Qed.

Lemma clean_logistica_closure (df : list Logistica) (vids : list cell)
  (r : Logistica) :
  In r (clean_logistica df vids) -> g_id_venda r ∈ vids.
Proof.
  rewrite clean_logistica_rows. intros [_ Hk]%filter_In. unfold isin in Hk.
  by apply bool_decide_eq_true in Hk.
Qed.

(** What the ingestion run writes is closed under its references. *)
Lemma pipeline_ingestao_closure (d d' : disk) :
  pipeline_ingestao d = (Ok tt, d') ->
  exists clientes clientes_lab produtos vendas logistica,
    data d' =
      {| clientes_csv := Some clientes; clientes_lab_csv := Some clientes_lab;
         produtos_csv := Some produtos; vendas_csv := Some vendas;
         logistica_csv := Some logistica |} /\
    (forall r, In r vendas ->
       v_id_cliente r ∈ List.map c_id_cliente clientes /\
       v_id_produto r ∈ List.map p_id_produto produtos) /\
    (forall r, In r logistica -> g_id_venda r ∈ List.map v_id_venda vendas).
Proof.
  intros Hing.
  destruct (pipeline_ingestao_inv d d' Hing) as (c & cl & p & v & g & Hd).
  destruct (pipeline_ingestao_ok d c cl p v g Hd) as [l Hok].
  rewrite Hok in Hing. injection Hing as <-. simpl.
  eexists _, _, _, _, _. split; [reflexivity|].
  split; [apply clean_vendas_closure|apply clean_logistica_closure].
Qed.
End Fechamento.

(** The sales [validar_relacionamentos] returns name customers and
    products of the tables it was given. *)
Lemma validar_relacionamentos_closure (vendas clientes produtos vendas' : DataFrame)
  (r : gmap string cell) :
  validar_relacionamentos vendas clientes produtos = Ok vendas' ->
  In r (rows vendas') ->
  cell_at "id_cliente" r ∈ List.map (cell_at "id_cliente") (rows clientes) /\
  cell_at "id_produto" r ∈ List.map (cell_at "id_produto") (rows produtos).
Proof.
  intros ->%validar_relacionamentos_inv. simpl.
  intros [_ [Hc Hp]%andb_prop]%filter_In. unfold isin in Hc, Hp.
  by apply bool_decide_eq_true in Hc, Hp.
Qed.

(** C1. The closure holds of what the ingestion run writes, and of the
    sales of the correction run; it fails of the deliveries of the
    correction run. With ISO dates, on the directory [disco_data] the run
    succeeds and writes the sales without [V2], whose customer [C9] is in
    no customer row, and writes the deliveries with [E2], the delivery of
    [V2]: its sale id is the id of no row of the sales written. *)
Theorem correction_run_leaves_delivery_without_sale :
  exists d',
    main (H := pandas_iso) disco_data = (Ok tt, d') /\
    output_dir d' !! "vendas_corrigido.csv" = Some vendas_corrigido /\
    output_dir d' !! "logistica_corrigido.csv" = Some logistica_corrigido /\
    exists r,
      In r (rows logistica_corrigido) /\
      cell_at "id_venda" r = S_ "V2" /\
      cell_at "id_venda" r ∉
        List.map (cell_at "id_venda") (rows vendas_corrigido).
Proof.
  exists (main (H := pandas_iso) disco_data).2.
  split; [vm_compute; reflexivity|].
  split; [vm_compute; reflexivity|].
  split; [vm_compute; reflexivity|].
  eexists. split; [right; left; reflexivity|].
  split; [reflexivity|].
  apply (bool_decide_eq_false_1 _). vm_compute. reflexivity.
Qed.

(** * Further properties of the correction functions *)

(** ** [validar_relacionamentos] *)

Lemma filter_sublist {A} (p : A -> bool) (l : list A) :
  sublist (List.filter p l) l.
Proof.
  induction l as [|x l IH]; simpl; [constructor|].
  destruct (p x); [by apply sublist_skip | by apply sublist_cons].
Qed.

(** X1. On tables that have the key columns, [validar_relacionamentos]
    returns the sales table with the same columns and, in the order they
    had, exactly the rows whose customer id is an id of the customers
    table and whose product id is an id of the products table: no other
    row is kept, none of them is removed. *)
Theorem validar_relacionamentos_keeps_exactly_valid_sales
  (vendas clientes produtos : DataFrame) :
  "id_cliente" ∈ columns vendas -> "id_produto" ∈ columns vendas ->
  "id_cliente" ∈ columns clientes -> "id_produto" ∈ columns produtos ->
  exists validas,
    validar_relacionamentos vendas clientes produtos = Ok validas /\
    columns validas = columns vendas /\
    sublist (rows validas) (rows vendas) /\
    forall r, In r (rows validas) <->
      In r (rows vendas) /\
      cell_at "id_cliente" r ∈ List.map (cell_at "id_cliente") (rows clientes) /\
      cell_at "id_produto" r ∈ List.map (cell_at "id_produto") (rows produtos).
Proof.
  intros Hvc Hvp Hc Hp. eexists. split.
  { unfold validar_relacionamentos, column.
    by rewrite !bool_decide_eq_true_2 by done. }
  simpl. split; [done|]. split; [apply filter_sublist|].
  intros r. rewrite filter_In, andb_true_iff. unfold isin.
  by rewrite !bool_decide_eq_true.
Qed.

Lemma validar_relacionamentos_keeps_exactly_valid_sales_witness :
  exists validas,
    validar_relacionamentos vendas_data clientes_data produtos_data
      = Ok validas /\
    columns validas = columns vendas_data /\
    sublist (rows validas) (rows vendas_data) /\
    forall r, In r (rows validas) <->
      In r (rows vendas_data) /\
      cell_at "id_cliente" r
        ∈ List.map (cell_at "id_cliente") (rows clientes_data) /\
      cell_at "id_produto" r
        ∈ List.map (cell_at "id_produto") (rows produtos_data).
Proof.
  apply (validar_relacionamentos_keeps_exactly_valid_sales
           vendas_data clientes_data produtos_data);
    apply list_elem_of_In; simpl; tauto.
Defined.

(** X2. [validar_relacionamentos] raises nothing but a [KeyError], and
    raises it exactly when a key column is absent: [id_cliente] when the
    sales or the customers lack it, otherwise [id_produto] when the sales
    or the products lack it. It never raises on account of the rows. *)
Theorem validar_relacionamentos_raises_on_missing_column
  (vendas clientes produtos : DataFrame) (e : exn) :
  validar_relacionamentos vendas clientes produtos = Raise e <->
  (e = KeyError "id_cliente" /\
   ("id_cliente" ∉ columns vendas \/ "id_cliente" ∉ columns clientes)) \/
  (e = KeyError "id_produto" /\
   "id_cliente" ∈ columns vendas /\ "id_cliente" ∈ columns clientes /\
   ("id_produto" ∉ columns vendas \/ "id_produto" ∉ columns produtos)).
Proof.
  unfold validar_relacionamentos, column, mbind, result_bind.
  repeat case_bool_decide; split; try done;
    try (intros [= <-]; tauto); intros [[-> ?]|[-> ?]]; tauto.
Qed.

Lemma validar_relacionamentos_raises_on_missing_column_witness :
  validar_relacionamentos vendas_data clientes_data clientes_data
    = Raise (KeyError "id_produto").
Proof.
  apply (validar_relacionamentos_raises_on_missing_column
           vendas_data clientes_data clientes_data (KeyError "id_produto")).
  right. split; [reflexivity|].
  split; [apply list_elem_of_In; simpl; tauto|].
  split; [apply list_elem_of_In; simpl; tauto|].
  right. apply (bool_decide_unpack _). vm_compute. exact I.
Defined.

(** X3. Validating the validated sales against the same customers and
    products returns them as they are: a second pass removes nothing. *)
Theorem validar_relacionamentos_twice
  (vendas clientes produtos validas : DataFrame) :
  validar_relacionamentos vendas clientes produtos = Ok validas ->
  validar_relacionamentos validas clientes produtos = Ok validas.
Proof.
  unfold validar_relacionamentos, column, mbind, result_bind.
  repeat (case_bool_decide; [|done]). intros [= <-]. simpl.
  rewrite !bool_decide_eq_true_2 by done.
  unfold select. simpl. by rewrite filter_idem.
Qed.

Lemma validar_relacionamentos_twice_witness :
  validar_relacionamentos vendas_corrigido clientes_data produtos_data
    = Ok vendas_corrigido.
Proof.
  apply (validar_relacionamentos_twice vendas_data clientes_data produtos_data).
  vm_compute. reflexivity.
Defined.

(** ** [preencher_campos_vazios] *)

Lemma fillna_inplace_ok (col : string) (v : cell) (df : DataFrame) :
  col ∈ columns df -> fillna_inplace col v df = Ok (assign col (fillna v) df).
Proof.
  intros Hc. unfold fillna_inplace, column. by rewrite bool_decide_eq_true_2.
Qed.

Lemma fillna_inplace_raise (col : string) (v : cell) (df : DataFrame) :
  col ∉ columns df -> fillna_inplace col v df = Raise (KeyError col).
Proof.
  intros Hc. unfold fillna_inplace, column. by rewrite bool_decide_eq_false_2.
Qed.

Lemma assign_lookup (col : string) (f : cell -> cell) (df : DataFrame) (i : nat) :
  rows (assign col f df) !! i = alter f col <$> rows df !! i.
Proof.
  unfold assign. simpl. change (List.map ?g ?l) with (g <$> l).
  apply list_lookup_fmap.
Qed.

Lemma fillna_notna (v c : cell) : isna v = false -> isna (fillna v c) = false.
Proof. intros Hv. unfold fillna. by destruct (isna c) eqn:Hc. Qed.

(** The whole of [preencher_campos_vazios]: the assignments of the
    defaults of [tipo], one after the other. *)
Lemma preencher_campos_vazios_fold (df : DataFrame) (tipo : string) :
  preencher_campos_vazios df tipo =
  foldl (fun acc cv => df ← acc; fillna_inplace cv.1 cv.2 df) (Ok df)
    (preenchimentos tipo).
Proof.
  unfold preencher_campos_vazios, preenchimentos.
  repeat case_bool_decide; simpl; try done.
  by destruct (fillna_inplace "estado" _ df).
Qed.

Lemma foldl_fillna_raise (l : list (string * cell)) (e : exn) :
  foldl (fun acc cv => df ← acc; fillna_inplace cv.1 cv.2 df) (Raise e) l
  = Raise e.
Proof. induction l as [|cv l IH]; simpl; [done|]. apply IH. Qed.

Lemma foldl_fillna_ok (l : list (string * cell)) (df : DataFrame) :
  (forall col v, In (col, v) l -> col ∈ columns df) ->
  foldl (fun acc cv => df ← acc; fillna_inplace cv.1 cv.2 df) (Ok df) l =
  Ok (foldl (fun df cv => assign cv.1 (fillna cv.2) df) df l).
Proof.
  revert df. induction l as [|[col v] l IH]; intros df Hc; simpl; [done|].
  rewrite fillna_inplace_ok by (apply (Hc col v); by left).
  apply IH. intros col' v' Hin. simpl. apply (Hc col' v'). by right.
Qed.

Lemma foldl_fillna_columns (l : list (string * cell)) (df : DataFrame) :
  columns (foldl (fun df cv => assign cv.1 (fillna cv.2) df) df l) = columns df.
Proof. revert df. induction l as [|cv l IH]; intros df; simpl; [done|]. by rewrite IH. Qed.

Lemma foldl_fillna_rows (l : list (string * cell)) (df : DataFrame) :
  rows (foldl (fun df cv => assign cv.1 (fillna cv.2) df) df l) =
  List.map (fun r => foldl (fun r cv => alter (fillna cv.2) cv.1 r) r l)
    (rows df).
Proof.
  revert df. induction l as [|cv l IH]; intros df; simpl.
  - by rewrite List.map_id.
  - rewrite IH. simpl. by rewrite List.map_map.
Qed.

Lemma foldl_fillna_lookup (l : list (string * cell)) (r : gmap string cell)
  (col : string) :
  NoDup (List.map fst l) ->
  foldl (fun r cv => alter (fillna cv.2) cv.1 r) r l !! col =
  match List.find (fun cv => bool_decide (cv.1 = col)) l with
  | Some cv => fillna cv.2 <$> r !! col
  | None => r !! col
  end.
Proof.
  revert r. induction l as [|[c v] l IH]; intros r Hnd; simpl; [done|].
  apply NoDup_cons in Hnd as [Hc Hnd]. rewrite IH by done.
  case_bool_decide as Hcol.
  - subst c. destruct (List.find _ l) as [[c' v']|] eqn:Hf.
    + apply find_some in Hf as [Hin Heq]. apply bool_decide_eq_true in Heq.
      simpl in Heq. subst c'. exfalso. apply Hc.
      apply list_elem_of_In, in_map_iff. by exists (col, v').
    + apply lookup_alter_eq.
  - destruct (List.find _ l) as [[c' v']|]; by rewrite lookup_alter_ne.
Qed.

Lemma preenchimentos_NoDup (tipo : string) :
  NoDup (List.map fst (preenchimentos tipo)).
Proof.
  unfold preenchimentos.
  repeat case_bool_decide; simpl;
    apply (bool_decide_unpack _); vm_compute; exact I.
Qed.

Lemma preenchimentos_notna (tipo col : string) (v : cell) :
  In (col, v) (preenchimentos tipo) -> isna v = false.
Proof.
  unfold preenchimentos.
  repeat case_bool_decide; simpl; intros Hin;
    repeat (destruct Hin as [[= <- <-]|Hin]; [done|]); done.
Qed.

Lemma find_fst_In (l : list (string * cell)) (col : string) (v : cell) :
  NoDup (List.map fst l) -> In (col, v) l ->
  List.find (fun cv => bool_decide (cv.1 = col)) l = Some (col, v).
Proof.
  induction l as [|[c w] l IH]; simpl; [done|].
  intros [Hc Hnd]%NoDup_cons [[= -> ->]|Hin].
  - by rewrite bool_decide_eq_true_2.
  - rewrite bool_decide_eq_false_2; [by apply IH|].
    intros ->. apply Hc. apply list_elem_of_In, in_map_iff. by exists (col, v).
Qed.

Lemma find_fst_notin (l : list (string * cell)) (col : string) :
  col ∉ List.map fst l ->
  List.find (fun cv => bool_decide (cv.1 = col)) l = None.
Proof.
  induction l as [|[c w] l IH]; simpl; [done|].
  intros [Hne Hl]%not_elem_of_cons.
  rewrite bool_decide_eq_false_2 by done. by apply IH.
Qed.

(** X4. When the table has every column [preencher_campos_vazios] fills
    for its kind, the call returns a table with the same columns and as
    many rows, where at each place a filled column holds its default if
    the value was missing and the value it held otherwise, so that no
    missing value is left in a filled column; every other column holds
    what it held. *)
Theorem preencher_campos_vazios_fills_only_missing (df : DataFrame)
  (tipo : string) :
  (forall col v, In (col, v) (preenchimentos tipo) -> col ∈ columns df) ->
  exists df',
    preencher_campos_vazios df tipo = Ok df' /\
    columns df' = columns df /\
    length (rows df') = length (rows df) /\
    forall i r, rows df !! i = Some r ->
      exists r', rows df' !! i = Some r' /\
        (forall col v, In (col, v) (preenchimentos tipo) ->
           r' !! col = fillna v <$> r !! col /\
           forall c, r' !! col = Some c -> isna c = false) /\
        (forall col, col ∉ List.map fst (preenchimentos tipo) ->
           r' !! col = r !! col).
Proof.
  intros Hcols. eexists. split.
  { rewrite preencher_campos_vazios_fold. by apply foldl_fillna_ok. }
  split; [apply foldl_fillna_columns|].
  rewrite foldl_fillna_rows. split; [apply length_map|].
  intros i r Hi. eexists. split.
  { change (List.map ?g ?l) with (g <$> l). by rewrite list_lookup_fmap, Hi. }
  pose proof (preenchimentos_NoDup tipo) as Hnd. split.
  - intros col v Hin. rewrite foldl_fillna_lookup by done.
    rewrite (find_fst_In _ _ _ Hnd Hin). simpl. split; [done|].
    intros c. destruct (r !! col) as [c0|]; simpl; [|done].
    intros [= <-]. apply fillna_notna. by apply (preenchimentos_notna tipo col).
  - intros col Hcol. rewrite foldl_fillna_lookup by done.
    by rewrite find_fst_notin.
Qed.

Lemma preencher_campos_vazios_fills_only_missing_witness :
  exists df',
    preencher_campos_vazios clientes_data "clientes" = Ok df' /\
    columns df' = columns clientes_data /\
    length (rows df') = length (rows clientes_data) /\
    forall i r, rows clientes_data !! i = Some r ->
      exists r', rows df' !! i = Some r' /\
        (forall col v, In (col, v) (preenchimentos "clientes") ->
           r' !! col = fillna v <$> r !! col /\
           forall c, r' !! col = Some c -> isna c = false) /\
        (forall col, col ∉ List.map fst (preenchimentos "clientes") ->
           r' !! col = r !! col).
Proof.
  apply (preencher_campos_vazios_fills_only_missing clientes_data "clientes").
  intros col v Hin. apply list_elem_of_In. simpl in Hin.
  destruct Hin as [[= <- <-]|[[= <- <-]|[[= <- <-]|[]]]]; simpl; tauto.
Defined.

Lemma foldl_fillna_raise_inv (l : list (string * cell)) (df : DataFrame)
  (e : exn) :
  foldl (fun acc cv => df ← acc; fillna_inplace cv.1 cv.2 df) (Ok df) l
  = Raise e ->
  exists col v, e = KeyError col /\ In (col, v) l /\ col ∉ columns df.
Proof.
  revert df. induction l as [|[c w] l IH]; intros df; simpl; [done|].
  destruct (decide (c ∈ columns df)) as [Hc|Hc].
  - rewrite fillna_inplace_ok by done. intros Hr.
    apply IH in Hr as (col & v & -> & Hin & Hcol).
    exists col, v. split; [done|]. split; [by right|done].
  - rewrite fillna_inplace_raise, foldl_fillna_raise by done.
    intros [= <-]. exists c, w. split; [done|]. split; [by left|done].
Qed.

Lemma foldl_fillna_missing (l : list (string * cell)) (df : DataFrame)
  (col : string) (v : cell) :
  In (col, v) l -> col ∉ columns df ->
  exists e,
    foldl (fun acc cv => df ← acc; fillna_inplace cv.1 cv.2 df) (Ok df) l
    = Raise e.
Proof.
  revert df. induction l as [|[c w] l IH]; intros df; simpl; [done|].
  destruct (decide (c ∈ columns df)) as [Hc|Hc].
  - rewrite fillna_inplace_ok by done.
    intros [[= -> ->]|Hin] Hcol; [done|]. by apply IH.
  - rewrite fillna_inplace_raise, foldl_fillna_raise by done. eauto.
Qed.

(** X5. [preencher_campos_vazios] raises exactly when the table lacks one
    of the columns it fills for its kind, and then a [KeyError] of such a
    column; for a kind other than [clientes], [produtos], [vendas] and
    [logistica] it fills nothing and returns the table as it is. *)
Theorem preencher_campos_vazios_raises_on_missing_column (df : DataFrame)
  (tipo : string) :
  (forall e, preencher_campos_vazios df tipo = Raise e ->
     exists col v, e = KeyError col /\ In (col, v) (preenchimentos tipo) /\
                   col ∉ columns df) /\
  (forall col v, In (col, v) (preenchimentos tipo) -> col ∉ columns df ->
     exists e, preencher_campos_vazios df tipo = Raise e) /\
  (tipo ∉ ["clientes"; "produtos"; "vendas"; "logistica"] ->
   preencher_campos_vazios df tipo = Ok df).
Proof.
  rewrite preencher_campos_vazios_fold. split; [|split].
  - intros e. apply foldl_fillna_raise_inv.
  - intros col v. apply foldl_fillna_missing.
  - intros Ht. rewrite !not_elem_of_cons in Ht.
    destruct Ht as (? & ? & ? & ? & _). unfold preenchimentos.
    by rewrite !bool_decide_eq_false_2 by done.
Qed.

Lemma preencher_campos_vazios_raises_on_missing_column_witness :
  (exists e, preencher_campos_vazios clientes_lab_data "vendas" = Raise e) /\
  preencher_campos_vazios clientes_lab_data "clientes_lab"
    = Ok clientes_lab_data.
Proof.
  destruct (preencher_campos_vazios_raises_on_missing_column
              clientes_lab_data "vendas") as (_ & Hraise & _).
  destruct (preencher_campos_vazios_raises_on_missing_column
              clientes_lab_data "clientes_lab") as (_ & _ & Hid).
  split.
  - apply (Hraise "status" (Str (text_of "Pendente"))).
    + by left.
    + apply (bool_decide_unpack _). vm_compute. exact I.
  - apply Hid. apply (bool_decide_unpack _). vm_compute. exact I.
Defined.

(** ** The runs and their files *)

Lemma io_bind_keeps {S A B} (R : S -> S -> Prop) (m : io S A) (f : A -> io S B) :
  (forall s1 s2 s3, R s1 s2 -> R s2 s3 -> R s1 s3) ->
  (forall s, R s (m s).2) ->
  (forall a s, R s (f a s).2) ->
  forall s, R s ((m ≫= f) s).2.
Proof.
  intros Htrans Hm Hf s. unfold mbind, io_bind.
  specialize (Hm s). destruct (m s) as [[a|e] s']; simpl in *; [|done].
  by eapply Htrans.
Qed.

Lemma corr_disk_extends_refl (s : corr_disk) : corr_disk_extends s s.
Proof. split; [done|]. exists []. by rewrite app_nil_r. Qed.

Lemma corr_disk_extends_trans (s1 s2 s3 : corr_disk) :
  corr_disk_extends s1 s2 -> corr_disk_extends s2 s3 -> corr_disk_extends s1 s3.
Proof.
  intros [Hd1 [l1 Hl1]] [Hd2 [l2 Hl2]]. split; [congruence|].
  exists (l1 ++ l2). by rewrite Hl2, Hl1, app_assoc.
Qed.

Lemma disk_extends_refl (s : disk) : disk_extends s s.
Proof. split; [done|]. exists []. by rewrite app_nil_r. Qed.

Lemma disk_extends_trans (s1 s2 s3 : disk) :
  disk_extends s1 s2 -> disk_extends s2 s3 -> disk_extends s1 s3.
Proof.
  intros [Hd1 [l1 Hl1]] [Hd2 [l2 Hl2]]. split; [congruence|].
  exists (l1 ++ l2). by rewrite Hl2, Hl1, app_assoc.
Qed.

Lemma corr_logging_extends (r : log_record) (s : corr_disk) :
  corr_disk_extends s (corr_logging r s).2.
Proof. split; [done|]. by exists [r]. Qed.

Lemma corr_to_csv_extends (name : string) (df : DataFrame) (s : corr_disk) :
  corr_disk_extends s (corr_to_csv name df s).2.
Proof. split; [done|]. exists []. simpl. by rewrite app_nil_r. Qed.

Lemma corr_read_csv_extends (name : string) (s : corr_disk) :
  corr_disk_extends s (corr_read_csv name s).2.
Proof.
  unfold corr_read_csv. destruct (data_dir s !! name);
    apply corr_disk_extends_refl.
Qed.

Lemma lift_extends {A} (r : result A) (s : corr_disk) :
  corr_disk_extends s (lift r s).2.
Proof. apply corr_disk_extends_refl. Qed.

Lemma mret_extends {A} (a : A) (s : corr_disk) :
  corr_disk_extends s (mret (M := io corr_disk) a s).2.
Proof. apply corr_disk_extends_refl. Qed.

Section RunsKeepInput.
Context `{Pandas}.

Ltac step :=
  first [ apply corr_logging_extends | apply corr_to_csv_extends
        | apply corr_read_csv_extends | apply lift_extends
        | apply mret_extends
        | apply (io_bind_keeps corr_disk_extends);
          [apply corr_disk_extends_trans| |intros ?] ].

Lemma processar_dataset_extends (nome : string) (chave : option string)
  (s : corr_disk) :
  corr_disk_extends s (processar_dataset nome chave s).2.
Proof.
  revert s. unfold processar_dataset. repeat step.
  destruct chave as [k|]; [|repeat step].
  case_bool_decide; repeat step.
Qed.

Lemma main_extends (s : corr_disk) : corr_disk_extends s (main s).2.
Proof.
  revert s. unfold main.
  repeat first [ apply processar_dataset_extends | step ].
Qed.

Lemma pipeline_ingestao_extends (s : disk) :
  disk_extends s (pipeline_ingestao s).2.
Proof.
  destruct (datasets s) as [c cl p v g] eqn:Hd.
  destruct c as [c|], cl as [cl|], p as [p|], v as [v|], g as [g|];
    try (destruct (pipeline_ingestao_missing s) as [name Hm];
         [rewrite Hd; simpl; tauto|];
         rewrite Hm; split; [done|]; by eexists).
  destruct (pipeline_ingestao_ok s c cl p v g Hd) as [l Hok].
  rewrite Hok. split; [done|]. by exists l.
Qed.
End RunsKeepInput.

(** X6. Whatever they are run on and however they end, the two runs leave
    their input directory as it was, and add to the end of the log: the
    ingestion run never writes a raw file, the correction run never
    writes a file of [data], and neither rewrites a record of the log. *)
Theorem runs_never_write_their_input `{Pandas} (d : disk) (cd : corr_disk) :
  (datasets (pipeline_ingestao d).2 = datasets d /\
   exists l, log (pipeline_ingestao d).2 = log d ++ l) /\
  (data_dir (main cd).2 = data_dir cd /\
   exists l, corr_log (main cd).2 = corr_log cd ++ l).
Proof. split; [apply pipeline_ingestao_extends|apply main_extends]. Qed.

(** ** [processar_dataset] *)

Section ProcessarFacts.
Context `{Pandas}.

Lemma io_bind_unfold {S A B} (m : io S A) (f : A -> io S B) (s : S) :
  (m ≫= f) s =
  match m s with
  | (Ok a, s') => f a s'
  | (Raise e, s') => (Raise e, s')
  end.
Proof. reflexivity. Qed.

Lemma processar_dataset_cases (nome : string) (chave : option string)
  (d : corr_disk) :
  match data_dir d !! (nome +:+ ".csv") with
  | None =>
      processar_dataset nome chave d
      = (Raise (FileNotFoundError (nome +:+ ".csv")), d)
  | Some df0 =>
      let dedup :=
        match chave with
        | Some k =>
            if bool_decide (k = "") then Ok (padronizar_dados df0 nome)
            else remover_duplicatas (padronizar_dados df0 nome) k
        | None => Ok (padronizar_dados df0 nome)
        end in
      match dedup ≫= (fun df1 => preencher_campos_vazios df1 nome) with
      | Ok df =>
          exists l,
            processar_dataset nome chave d =
            (Ok df,
             {| data_dir := data_dir d;
                output_dir := <[nome +:+ "_corrigido.csv" := df]> (output_dir d);
                corr_log := corr_log d ++ l |})
      | Raise e =>
          exists l,
            processar_dataset nome chave d =
            (Raise e,
             {| data_dir := data_dir d; output_dir := output_dir d;
                corr_log := corr_log d ++ l |})
      end
  end.
Proof.
  unfold processar_dataset. rewrite io_bind_unfold. unfold corr_read_csv.
  destruct (data_dir d !! (nome +:+ ".csv")) as [df0|]; [|done].
  destruct d as [dd od lg]. simpl.
  destruct chave as [k|]; [case_bool_decide|].
  - cbv [mbind io_bind mret io_ret lift corr_logging corr_to_csv result_bind
           data_dir output_dir corr_log].
    destruct (preencher_campos_vazios _ nome) as [df|e].
    + exists [INFO "Dataset processado e salvo." None]. done.
    + exists []. by rewrite app_nil_r.
  - cbv [mbind io_bind mret io_ret lift corr_logging corr_to_csv result_bind
           data_dir output_dir corr_log].
    destruct (remover_duplicatas _ k) as [df1|e].
    + destruct (preencher_campos_vazios df1 nome) as [df|e].
      * eexists. by rewrite <- app_assoc.
      * by eexists.
    + exists []. by rewrite app_nil_r.
  - cbv [mbind io_bind mret io_ret lift corr_logging corr_to_csv result_bind
           data_dir output_dir corr_log].
    destruct (preencher_campos_vazios _ nome) as [df|e].
    + exists [INFO "Dataset processado e salvo." None]. done.
    + exists []. by rewrite app_nil_r.
Qed.
End ProcessarFacts.

(** X7. [processar_dataset] writes its file last: when it returns a
    table, the output directory is the one it found with that table
    stored under [<nome>_corrigido.csv] and nothing else changed; when it
    raises (no such file, no key column, keys that do not compare, no
    column to fill), the output directory is the one it found. When the
    file [<nome>.csv] does not exist it raises [FileNotFoundError] and
    leaves the disk, log included, as it was. *)
Theorem processar_dataset_writes_only_on_success `{Pandas} (nome : string)
  (chave : option string) (d : corr_disk) :
  (forall df d', processar_dataset nome chave d = (Ok df, d') ->
     output_dir d' = <[nome +:+ "_corrigido.csv" := df]> (output_dir d)) /\
  (forall e d', processar_dataset nome chave d = (Raise e, d') ->
     output_dir d' = output_dir d) /\
  (data_dir d !! (nome +:+ ".csv") = None ->
   processar_dataset nome chave d
   = (Raise (FileNotFoundError (nome +:+ ".csv")), d)).
Proof.
  pose proof (processar_dataset_cases nome chave d) as Hc.
  destruct (data_dir d !! (nome +:+ ".csv")) as [df0|].
  - simpl in Hc.
    destruct (_ ≫= _) as [df|e]; destruct Hc as [l ->];
      (split; [|split]); try done; by intros ? ? [= <- <-].
  - rewrite Hc. split; [done|]. split; [|done]. by intros ? ? [= <- <-].
Qed.

Lemma processar_dataset_writes_only_on_success_witness :
  processar_dataset (H := pandas_iso) "pedidos" (Some "id_pedido") disco_data
  = (Raise (FileNotFoundError "pedidos.csv"), disco_data).
Proof.
  destruct (processar_dataset_writes_only_on_success (H := pandas_iso)
              "pedidos" (Some "id_pedido") disco_data) as (_ & _ & Hmiss).
  apply Hmiss. vm_compute. reflexivity.
Defined.

(** X8. Without a key ([chave] absent or empty) [processar_dataset]
    removes no row and no column: the table it returns has the columns
    and the number of rows of the file it read. *)
Theorem processar_dataset_without_key_keeps_rows `{Pandas} (nome : string)
  (chave : option string) (d d' : corr_disk) (df0 df : DataFrame) :
  chave = None \/ chave = Some "" ->
  data_dir d !! (nome +:+ ".csv") = Some df0 ->
  processar_dataset nome chave d = (Ok df, d') ->
  columns df = columns df0 /\ length (rows df) = length (rows df0).
Proof.
  intros Hk Hf Hrun.
  pose proof (processar_dataset_cases nome chave d) as Hc.
  rewrite Hf in Hc. simpl in Hc.
  assert (Hd : match chave with
               | Some k =>
                   if bool_decide (k = "") then Ok (padronizar_dados df0 nome)
                   else remover_duplicatas (padronizar_dados df0 nome) k
               | None => Ok (padronizar_dados df0 nome)
               end = Ok (padronizar_dados df0 nome)).
  { by destruct Hk as [-> | ->]. }
  rewrite Hd in Hc. simpl in Hc.
  destruct (preencher_campos_vazios _ nome) as [df'|e] eqn:Hp;
    destruct Hc as [l Hc]; rewrite Hc in Hrun; [|done].
  injection Hrun as <- _.
  rewrite preencher_campos_vazios_fold in Hp.
  assert (Hall : forall col v, In (col, v) (preenchimentos nome) ->
                   col ∈ columns (padronizar_dados df0 nome)).
  { intros col v Hin. destruct (decide (col ∈ columns (padronizar_dados df0 nome)))
      as [|Hn]; [done|].
    destruct (foldl_fillna_missing (preenchimentos nome)
                (padronizar_dados df0 nome) col v Hin Hn) as [e He].
    congruence. }
  rewrite foldl_fillna_ok in Hp by done. injection Hp as <-.
  rewrite foldl_fillna_columns, foldl_fillna_rows, length_map.
  by rewrite padronizar_dados_columns, padronizar_dados_length.
Qed.

Lemma processar_dataset_without_key_keeps_rows_witness :
  let run := processar_dataset (H := pandas_iso) "clientes" None disco_data in
  let df := match run.1 with Ok df => df | Raise _ => clientes_data end in
  columns df = columns clientes_data /\
  length (rows df) = length (rows clientes_data).
Proof.
  intros run df.
  apply (processar_dataset_without_key_keeps_rows (H := pandas_iso)
           "clientes" None disco_data run.2 clientes_data df).
  - by left.
  - vm_compute. reflexivity.
  - vm_compute. reflexivity.
Defined.

(** ** [main] *)



Section MainFacts.
Context `{Pandas}.

(** What a correction run that succeeds has computed and written. *)
Lemma main_inv (d d' : corr_disk) :
  main d = (Ok tt, d') ->
  exists c p v g cl v' g',
    validar_relacionamentos v c p = Ok v' /\
    corrigir_inconsistencias v' g = Ok (v', g') /\
    output_dir d' =
      <["logistica_corrigido.csv" := g']>
        (<["vendas_corrigido.csv" := v']>
           (<["clientes_lab_corrigido.csv" := cl]>
              (<["logistica_corrigido.csv" := g]>
                 (<["vendas_corrigido.csv" := v]>
                    (<["produtos_corrigido.csv" := p]>
                       (<["clientes_corrigido.csv" := c]> (output_dir d))))))).
Proof.
  unfold main. intros Hrun.
  apply io_bind_ok in Hrun as ([] & d0 & Hlog & Hrun).
  unfold corr_logging in Hlog. injection Hlog as <-.
  apply io_bind_ok in Hrun as (c & d1 & Hc & Hrun).
  apply io_bind_ok in Hrun as (p & d2 & Hp & Hrun).
  apply io_bind_ok in Hrun as (v & d3 & Hv & Hrun).
  apply io_bind_ok in Hrun as (g & d4 & Hg & Hrun).
  apply io_bind_ok in Hrun as (cl & d5 & Hcl & Hrun).
  apply io_bind_ok in Hrun as (v' & d6 & Hval & Hrun).
  unfold lift in Hval. injection Hval as Hval <-.
  apply io_bind_ok in Hrun as ([] & d7 & Hlog & Hrun).
  unfold corr_logging in Hlog. injection Hlog as <-.
  apply io_bind_ok in Hrun as ([v'' g'] & d8 & Hcor & Hrun).
  unfold lift in Hcor. injection Hcor as Hcor <-.
  apply io_bind_ok in Hrun as ([] & d9 & Hlog & Hrun).
  unfold corr_logging in Hlog. injection Hlog as <-.
  apply io_bind_ok in Hrun as ([] & d10 & Hw1 & Hrun).
  unfold corr_to_csv in Hw1. injection Hw1 as <-.
  apply io_bind_ok in Hrun as ([] & d11 & Hw2 & Hrun).
  unfold corr_to_csv in Hw2. injection Hw2 as <-.
  unfold corr_logging in Hrun. injection Hrun as <-.
  apply processar_dataset_inv in Hc as (_ & _ & _ & _ & _ & _ & Hoc); [|done].
  apply processar_dataset_inv in Hp as (_ & _ & _ & _ & _ & _ & Hop); [|done].
  apply processar_dataset_inv in Hv as (_ & _ & _ & _ & _ & _ & Hov); [|done].
  apply processar_dataset_inv in Hg as (_ & _ & _ & _ & _ & _ & Hog); [|done].
  apply processar_dataset_inv in Hcl as (_ & _ & _ & _ & _ & _ & Hocl); [|done].
  destruct (corrigir_inconsistencias_inv _ _ _ _ Hcor) as [-> _].
  exists c, p, v, g, cl, v', g'. split; [done|]. split; [done|].
  simpl in *. by rewrite Hocl, Hog, Hov, Hop, Hoc.
Qed.
End MainFacts.

(** X10. After a correction run that succeeds, every sale of
    [vendas_corrigido.csv] names a customer of [clientes_corrigido.csv]
    and a product of [produtos_corrigido.csv] (the sales written by
    [processar_dataset] have been replaced by the validated ones), and no
    delivery of [logistica_corrigido.csv] has a delivery date that
    compares before its shipping date. *)
Theorem main_writes_validated_sales_and_repaired_deliveries `{Pandas}
  (d d' : corr_disk) :
  main d = (Ok tt, d') ->
  exists clientes produtos vendas logistica,
    output_dir d' !! "clientes_corrigido.csv" = Some clientes /\
    output_dir d' !! "produtos_corrigido.csv" = Some produtos /\
    output_dir d' !! "vendas_corrigido.csv" = Some vendas /\
    output_dir d' !! "logistica_corrigido.csv" = Some logistica /\
    (forall r, In r (rows vendas) ->
       cell_at "id_cliente" r
         ∈ List.map (cell_at "id_cliente") (rows clientes) /\
       cell_at "id_produto" r
         ∈ List.map (cell_at "id_produto") (rows produtos)) /\
    (forall r, In r (rows logistica) ->
       lt_cell (cell_at "data_entrega_real" r) (cell_at "data_envio" r)
       = Ok false).
Proof.
  intros (c & p & v & g & cl & v' & g' & Hval & Hcor & Hout)%main_inv.
  exists c, p, v', g'. rewrite Hout.
  do 4 (split; [by simplify_map_eq|]). split.
  - intros r. by apply (validar_relacionamentos_closure v c p v').
  - intros r. by apply (corrigir_inconsistencias_after v' g v' g').
Qed.

Lemma main_writes_validated_sales_and_repaired_deliveries_witness :
  let d' := (main (H := pandas_iso) disco_data).2 in
  exists clientes produtos vendas logistica,
    output_dir d' !! "clientes_corrigido.csv" = Some clientes /\
    output_dir d' !! "produtos_corrigido.csv" = Some produtos /\
    output_dir d' !! "vendas_corrigido.csv" = Some vendas /\
    output_dir d' !! "logistica_corrigido.csv" = Some logistica /\
    (forall r, In r (rows vendas) ->
       cell_at "id_cliente" r
         ∈ List.map (cell_at "id_cliente") (rows clientes) /\
       cell_at "id_produto" r
         ∈ List.map (cell_at "id_produto") (rows produtos)) /\
    (forall r, In r (rows logistica) ->
       lt_cell (cell_at "data_entrega_real" r) (cell_at "data_envio" r)
       = Ok false).
Proof.
  intros d'.
  apply (main_writes_validated_sales_and_repaired_deliveries (H := pandas_iso)
           disco_data d').
  vm_compute. reflexivity.
Defined.

(** X11. A correction run that succeeds writes five files and no other:
    every file of the output directory under another name is the file
    that was there, or is still absent. *)
Theorem main_writes_five_files `{Pandas} (d d' : corr_disk) (name : string) :
  main d = (Ok tt, d') ->
  name ∉ ["clientes_corrigido.csv"; "produtos_corrigido.csv";
          "vendas_corrigido.csv"; "logistica_corrigido.csv";
          "clientes_lab_corrigido.csv"] ->
  output_dir d' !! name = output_dir d !! name /\
  forall written,
    written ∈ ["clientes_corrigido.csv"; "produtos_corrigido.csv";
               "vendas_corrigido.csv"; "logistica_corrigido.csv";
               "clientes_lab_corrigido.csv"] ->
    is_Some (output_dir d' !! written).
Proof.
  intros (c & p & v & g & cl & v' & g' & _ & _ & Hout)%main_inv Hname.
  rewrite !not_elem_of_cons in Hname.
  destruct Hname as (? & ? & ? & ? & ? & _). rewrite Hout. split.
  - by rewrite !lookup_insert_ne by done.
  - intros w Hw. apply list_elem_of_In in Hw. simpl in Hw.
    destruct Hw as [<-|[<-|[<-|[<-|[<-|[]]]]]]; by simplify_map_eq.
Qed.

Lemma main_writes_five_files_witness :
  let d' := (main (H := pandas_iso) disco_data).2 in
  output_dir d' !! "vendas.csv" = output_dir disco_data !! "vendas.csv" /\
  forall written,
    written ∈ ["clientes_corrigido.csv"; "produtos_corrigido.csv";
               "vendas_corrigido.csv"; "logistica_corrigido.csv";
               "clientes_lab_corrigido.csv"] ->
    is_Some (output_dir d' !! written).
Proof.
  intros d'.
  apply (main_writes_five_files (H := pandas_iso) disco_data d' "vendas.csv").
  - vm_compute. reflexivity.
  - apply (bool_decide_unpack _). vm_compute. exact I.
Defined.

(** ** More of the ingestion tables *)

Section IngestaoMais.
Context `{Pandas}.

Lemma ascii_fold_is_ascii (c : cell) :
  exists s, ascii_fold c = Str s /\ forall a, In a s -> is_ascii a = true.
Proof.
  eexists. split; [done|]. intros a Ha. by apply filter_In in Ha as [_ ?].
Qed.

Lemma to_datetime_notna (c : cell) :
  notna (to_datetime c) = true -> exists t, to_datetime c = Timestamp t.
Proof. destruct (to_datetime_kind c) as [->|?]; [done|auto]. Qed.

Lemma email_valido_str (c : cell) :
  email_valido c = true -> exists s, c = Str s /\ re_search email_pattern s = true.
Proof.
  unfold email_valido, mask_and. intros [_ Hs]%andb_prop.
  destruct c; try done. eauto.
Qed.
End IngestaoMais.



(** X13. [clean_clientes] drops the duplicates before it filters: when
    the first row of an id fails a test (its e-mail is not valid, its
    phone is missing, or one of its dates does not parse), no row of
    that id is in the cleaned table, whatever the later rows of the id
    hold. *)
Theorem clean_clientes_loses_id_of_rejected_first_row `{Pandas}
  (df : list Cliente) (r0 : Cliente) :
  first_with c_id_cliente (c_id_cliente r0) df = Some r0 ->
  email_valido (c_email r0) = false \/
  isna (c_telefone r0) = true \/
  to_datetime (c_data_nascimento r0) = NaT \/
  to_datetime (c_data_cadastro r0) = NaT ->
  c_id_cliente r0 ∉ List.map c_id_cliente (clean_clientes df).
Proof.
  intros Hfirst Hbad Hin.
  apply list_elem_of_In, in_map_iff in Hin as (r & Hkey & Hin).
  rewrite clean_clientes_rows in Hin.
  apply (shape_In c_id_cliente limpar_cliente) in Hin
    as (Hk & r1 & Hfirst1 & ->); [|by intros []].
  rewrite Hkey, Hfirst in Hfirst1. injection Hfirst1 as <-.
  destruct r0 as [id nome email tel nasc cad cid est].
  cbv [limpar_cliente set_c_data_cadastro set_c_data_nascimento set_c_cidade
         set_c_nome c_id_cliente c_nome c_email c_telefone c_data_nascimento
         c_data_cadastro c_cidade c_estado] in *.
  unfold notna in Hk.
  destruct Hbad as [Hb|[Hb|[Hb|Hb]]]; rewrite Hb in Hk; simpl in Hk;
    by rewrite ?andb_false_r in Hk.
Qed.

Lemma clean_clientes_loses_id_of_rejected_first_row_witness :
  S_ "C2" ∉ List.map c_id_cliente
              (clean_clientes (H := pandas_iso)
                 [cliente_ana; cliente_sem_data; cliente_rui]).
Proof.
  apply (clean_clientes_loses_id_of_rejected_first_row (H := pandas_iso)
           [cliente_ana; cliente_sem_data; cliente_rui] cliente_sem_data).
  - reflexivity.
  - right. right. left. reflexivity.
Defined.

(** X14. Every text column the ingestion rewrites holds ASCII strings
    only in the cleaned tables: the name and the city of a customer, the
    name of a lab customer, the name and the category of a product. *)
Theorem cleaned_text_is_ascii `{Pandas} (clientes : list Cliente)
  (clientes_lab : list ClienteLab) (produtos : list Produto) :
  (forall r, In r (clean_clientes clientes) ->
     exists nome cidade,
       c_nome r = Str nome /\ c_cidade r = Str cidade /\
       forallb is_ascii nome = true /\ forallb is_ascii cidade = true) /\
  (forall r, In r (clean_clientes_lab clientes_lab) ->
     exists nome, l_nome r = Str nome /\ forallb is_ascii nome = true) /\
  (forall r, In r (clean_produtos produtos) ->
     exists nome categoria,
       p_nome_produto r = Str nome /\ p_categoria r = Str categoria /\
       forallb is_ascii nome = true /\ forallb is_ascii categoria = true).
Proof.
  split; [|split].
  - intros r Hin. rewrite clean_clientes_rows in Hin.
    apply (shape_In c_id_cliente limpar_cliente) in Hin
      as (_ & [id nome email tel nasc cad cid est] & _ & ->); [|by intros []].
    destruct (ascii_fold_is_ascii nome) as (s1 & Hs1 & Ha1).
    destruct (ascii_fold_is_ascii cid) as (s2 & Hs2 & Ha2).
    exists s1, s2.
    cbv [limpar_cliente set_c_data_cadastro set_c_data_nascimento set_c_cidade
           set_c_nome c_id_cliente c_nome c_email c_telefone c_data_nascimento
           c_data_cadastro c_cidade c_estado].
    rewrite !forallb_forall. done.
  - intros r Hin. rewrite clean_clientes_lab_rows in Hin.
    apply (shape_In l_id_cliente limpar_cliente_lab) in Hin
      as (_ & [id nome email idade st cad] & _ & ->); [|by intros []].
    destruct (ascii_fold_is_ascii nome) as (s1 & Hs1 & Ha1).
    exists s1.
    cbv [limpar_cliente_lab set_l_data_cadastro set_l_nome l_id_cliente l_nome
           l_email l_idade l_status l_data_cadastro].
    rewrite !forallb_forall. done.
  - intros r Hin. rewrite clean_produtos_rows in Hin.
    apply (shape_In p_id_produto limpar_produto) in Hin
      as (_ & [id nome cat preco est cri ativo] & _ & ->); [|by intros []].
    destruct (ascii_fold_is_ascii nome) as (s1 & Hs1 & Ha1).
    destruct (ascii_fold_is_ascii cat) as (s2 & Hs2 & Ha2).
    exists s1, s2.
    cbv [limpar_produto set_p_ativo set_p_data_criacao set_p_categoria
           set_p_nome_produto p_id_produto p_nome_produto p_categoria p_preco
           p_estoque p_data_criacao p_ativo].
    rewrite !forallb_forall. done.
Qed.

(** X15. In the cleaned customers, lab customers, products and sales
    every date is a timestamp; in the cleaned deliveries each of the
    three dates is a timestamp or [NaT]; and the active flag of a cleaned
    product is a boolean. *)
Theorem cleaned_dates_are_timestamps `{Pandas} (clientes : list Cliente)
  (clientes_lab : list ClienteLab) (produtos : list Produto)
  (vendas : list Venda) (logistica : list Logistica)
  (cids pids vids : list cell) :
  (forall r, In r (clean_clientes clientes) ->
     exists t1 t2, c_data_nascimento r = Timestamp t1 /\
                   c_data_cadastro r = Timestamp t2) /\
  (forall r, In r (clean_clientes_lab clientes_lab) ->
     exists t, l_data_cadastro r = Timestamp t) /\
  (forall r, In r (clean_produtos produtos) ->
     (exists t, p_data_criacao r = Timestamp t) /\
     exists b, p_ativo r = Bool b) /\
  (forall r, In r (clean_vendas vendas cids pids) ->
     exists t, v_data_venda r = Timestamp t) /\
  (forall r, In r (clean_logistica logistica vids) ->
     is_datetime (g_data_envio r) = true /\
     is_datetime (g_data_entrega_prevista r) = true /\
     is_datetime (g_data_entrega_real r) = true).
Proof.
  split; [|split; [|split; [|split]]].
  - intros r Hin. rewrite clean_clientes_rows in Hin.
    apply (shape_In c_id_cliente limpar_cliente) in Hin
      as (Hk & [id nome email tel nasc cad cid est] & _ & ->); [|by intros []].
    cbv [limpar_cliente set_c_data_cadastro set_c_data_nascimento set_c_cidade
           set_c_nome c_id_cliente c_nome c_email c_telefone c_data_nascimento
           c_data_cadastro c_cidade c_estado] in *.
    apply andb_prop in Hk as [_ [Hn Hc]%andb_prop].
    apply to_datetime_notna in Hn as [t1 ->], Hc as [t2 ->]. eauto.
  - intros r Hin. rewrite clean_clientes_lab_rows in Hin.
    apply (shape_In l_id_cliente limpar_cliente_lab) in Hin
      as (Hk & [id nome email idade st cad] & _ & ->); [|by intros []].
    cbv [limpar_cliente_lab set_l_data_cadastro set_l_nome l_id_cliente l_nome
           l_email l_idade l_status l_data_cadastro] in *.
    apply andb_prop in Hk as [_ Hc].
    apply to_datetime_notna in Hc as [t ->]. eauto.
  - intros r Hin. rewrite clean_produtos_rows in Hin.
    apply (shape_In p_id_produto limpar_produto) in Hin
      as (Hk & [id nome cat preco est cri ativo] & _ & ->); [|by intros []].
    cbv [limpar_produto set_p_ativo set_p_data_criacao set_p_categoria
           set_p_nome_produto p_id_produto p_nome_produto p_categoria p_preco
           p_estoque p_data_criacao p_ativo] in *.
    apply andb_prop in Hk as [_ Hc].
    apply to_datetime_notna in Hc as [t ->]. split; [eauto|].
    destruct ativo as [| |[|]| | |]; simpl; eauto.
  - intros r Hin. rewrite clean_vendas_rows in Hin.
    apply (shape_In v_id_venda limpar_venda) in Hin
      as (Hk & [id cli prod qtd vu vt dv] & _ & ->); [|by intros []].
    cbv [limpar_venda set_v_data_venda v_id_venda v_id_cliente v_id_produto
           v_quantidade v_valor_unitario v_valor_total v_data_venda] in *.
    apply andb_prop in Hk as [_ Hc].
    apply to_datetime_notna in Hc as [t ->]. eauto.
  - intros r Hin. rewrite clean_logistica_rows in Hin.
    apply (shape_In g_id_entrega limpar_logistica) in Hin
      as (_ & [id venda envio prev real] & _ & ->); [|by intros []].
    cbv [limpar_logistica set_g_data_entrega_real set_g_data_entrega_prevista
           set_g_data_envio g_id_entrega g_id_venda g_data_envio
           g_data_entrega_prevista g_data_entrega_real].
    destruct (to_datetime_kind envio) as [->|[? ->]],
             (to_datetime_kind prev) as [->|[? ->]],
             (to_datetime_kind real) as [->|[? ->]]; done.
Qed.

(** X16. A cleaned lab customer has an age from 0 up to, not including,
    120, a status that is not missing and an e-mail that is a string in
    which the pattern of the e-mail test is found; a cleaned sale has a
    unit value and a total value that are not negative. *)
Theorem cleaned_lab_customers_and_sales_pass_their_tests `{Pandas}
  (clientes_lab : list ClienteLab) (vendas : list Venda)
  (cids pids : list cell) :
  (forall r, In r (clean_clientes_lab clientes_lab) ->
     (exists idade, l_idade r = Some idade /\ (0 <= idade)%Q /\ (idade < 120)%Q) /\
     isna (l_status r) = false /\
     exists s, l_email r = Str s /\ re_search email_pattern s = true) /\
  (forall r, In r (clean_vendas vendas cids pids) ->
     exists vu vt, v_valor_unitario r = Some vu /\ (0 <= vu)%Q /\
                   v_valor_total r = Some vt /\ (0 <= vt)%Q).
Proof.
  split.
  - intros r Hin. rewrite clean_clientes_lab_rows in Hin.
    apply filter_In in Hin as [_ Hk].
    apply andb_prop in Hk as [[[He Hi]%andb_prop Hs]%andb_prop _].
    apply andb_prop in Hi as [[_ Hge]%andb_prop Hlt].
    split; [|split].
    + destruct (l_idade r) as [idade|]; [|done]. exists idade.
      simpl in Hge, Hlt. apply Qle_bool_iff in Hge.
      apply negb_true_iff in Hlt. split; [done|]. split; [done|].
      apply Qnot_le_lt. intros Hle. apply Qle_bool_iff in Hle. congruence.
    + unfold notna in Hs. by apply negb_true_iff in Hs.
    + by apply email_valido_str.
  - intros r Hin. rewrite clean_vendas_rows in Hin.
    apply filter_In in Hin as [_ Hk].
    apply andb_prop in Hk as [[[_ Hu]%andb_prop Ht]%andb_prop _].
    destruct (v_valor_unitario r) as [vu|]; [|done].
    destruct (v_valor_total r) as [vt|]; [|done].
    exists vu, vt. simpl in Hu, Ht. apply Qle_bool_iff in Hu, Ht. done.
Qed.

(** X17. Running the ingestion again gives the same outcome and leaves
    the processed files as the first run left them: a run reads the raw
    files only, and after a run that fails the processed files are the
    ones from before it. *)
Theorem pipeline_ingestao_twice `{Pandas} (d : disk) :
  let once := pipeline_ingestao d in
  let twice := pipeline_ingestao once.2 in
  twice.1 = once.1 /\ data twice.2 = data once.2 /\
  datasets twice.2 = datasets d.
Proof.
  destruct d as [[c cl p v g] dt lg].
  destruct c as [c|], cl as [cl|], p as [p|], v as [v|], g as [g|];
    cbv [pipeline_ingestao try_except pipeline_body read_csv logged logging
         to_csv raise mbind io_bind mret io_ret datasets data log clientes_csv
         clientes_lab_csv produtos_csv vendas_csv logistica_csv write_clientes
         write_clientes_lab write_produtos write_vendas write_logistica
         fst snd];
    done.
Qed.

(** ** The order [remover_duplicatas] leaves the rows in *)

Section SortFacts.
Context {A K : Type} `{EqDecision K}.
Variable key : A -> K.
Variable leb : K -> K -> bool.
Variable P : K -> Prop.
Hypothesis leb_total :
  forall a b, P a -> P b -> leb a b = false -> leb b a = true.
Hypothesis leb_trans :
  forall a b c, P a -> P b -> P c ->
    leb a b = true -> leb b c = true -> leb a c = true.

Local Abbreviation ascending :=
  (StronglySorted (fun x y => leb (key x) (key y) = true)).

Lemma insert_by_ascending (x : A) (l : list A) :
  P (key x) -> Forall (fun y => P (key y)) l ->
  ascending l -> ascending (insert_by key leb x l).
Proof.
  intros Hx Hl Hs. induction Hs as [|y l Hs IH Hy]; simpl.
  - constructor; [constructor|constructor].
  - apply Forall_cons in Hl as [HPy Hl].
    destruct (leb (key x) (key y)) eqn:Hxy.
    + constructor; [by constructor|].
      constructor; [done|].
      rewrite Forall_forall in Hy, Hl |- *. intros z Hz.
      apply (leb_trans _ (key y)); auto.
    + constructor; [auto|].
      apply Forall_forall. intros z Hz.
      rewrite (insert_by_Permutation key leb x l) in Hz.
      apply elem_of_cons in Hz as [->|Hz].
      * by apply leb_total.
      * rewrite Forall_forall in Hy. by apply Hy.
Qed.

Lemma sort_by_ascending (l : list A) :
  Forall (fun y => P (key y)) l -> ascending (sort_by key leb l).
Proof.
  induction l as [|x l IH]; intros Hl; [constructor|].
  apply Forall_cons in Hl as [Hx Hl].
  unfold sort_by in *. simpl. apply insert_by_ascending; [done| |auto].
  apply Forall_forall. intros y Hy. rewrite Forall_forall in Hl.
  apply Hl. by rewrite <- (sort_by_Permutation key leb l).
Qed.

Lemma ascending_sublist (l1 l2 : list A) :
  sublist l1 l2 -> ascending l2 -> ascending l1.
Proof.
  intros Hsub Hs. revert l1 Hsub.
  induction Hs as [|y l Hs IH Hy]; intros l1 Hsub.
  - apply sublist_nil_r in Hsub as ->. constructor.
  - apply sublist_cons_r in Hsub as [Hsub|(l1' & -> & Hsub)]; [auto|].
    constructor; [auto|].
    apply Forall_forall. intros z Hz. rewrite Forall_forall in Hy.
    apply Hy. by eapply elem_of_sublist.
Qed.

(** Sorting a table that is in order leaves it as it is. *)
Lemma sort_by_ascending_id (l : list A) :
  ascending l -> sort_by key leb l = l.
Proof.
  induction 1 as [|x l Hs IH Hx]; [done|].
  unfold sort_by in *. simpl. rewrite IH.
  destruct l as [|y l]; [done|]. simpl.
  apply Forall_cons in Hx as [-> _]. done.
Qed.

Lemma ascending_lookup (l : list A) (i j : nat) (x y : A) :
  ascending l -> (i < j)%nat -> l !! i = Some x -> l !! j = Some y ->
  leb (key x) (key y) = true.
Proof.
  intros Hs. revert i j. induction Hs as [|z l Hs IH Hz]; intros i j Hij Hi Hj.
  - done.
  - destruct j as [|j]; [lia|]. simpl in Hj. destruct i as [|i].
    + injection Hi as ->. rewrite Forall_forall in Hz. apply Hz.
      apply list_elem_of_lookup. eauto.
    + simpl in Hi. apply (IH i j); [lia|done|done].
Qed.
End SortFacts.


Lemma text_leb_total (s1 s2 : text) :
  text_leb s1 s2 = false -> text_leb s2 s1 = true.
Proof.
  revert s2. induction s1 as [|a s1 IH]; intros [|b s2]; simpl; try done.
  destruct (N.ltb_spec a b), (N.ltb_spec b a); try done; try lia. auto.
Qed.

Lemma text_leb_trans (s1 s2 s3 : text) :
  text_leb s1 s2 = true -> text_leb s2 s3 = true -> text_leb s1 s3 = true.
Proof.
  revert s2 s3. induction s1 as [|a s1 IH]; intros [|b s2] [|c s3]; simpl;
    try done.
  destruct (N.ltb_spec a b), (N.ltb_spec b a), (N.ltb_spec b c),
    (N.ltb_spec c b), (N.ltb_spec a c), (N.ltb_spec c a);
    try done; try lia.
  apply IH.
Qed.

Lemma Qle_bool_total (p q : Q) : Qle_bool p q = false -> Qle_bool q p = true.
Proof.
  intros Hpq. apply Qle_bool_iff. apply Qlt_le_weak, Qnot_le_lt.
  intros Hle. apply Qle_bool_iff in Hle. congruence.
Qed.

Lemma Qle_bool_trans (p q r : Q) :
  Qle_bool p q = true -> Qle_bool q r = true -> Qle_bool p r = true.
Proof. rewrite !Qle_bool_iff. apply Qle_trans. Qed.

Lemma implb_Qle_bool (b1 b2 : bool) :
  implb b1 b2 = Qle_bool (Q_of_bool b1) (Q_of_bool b2).
Proof. by destruct b1, b2. Qed.

Lemma cell_leb_total (k : kind) (a b : cell) :
  of_kind k a -> of_kind k b -> cell_leb a b = false -> cell_leb b a = true.
Proof.
  intros [Ha|Ha] [Hb|Hb]; destruct a, b; simpl in *; try done;
    rewrite ?implb_Qle_bool;
    try apply text_leb_total; try apply Qle_bool_total; try congruence.
  intros Hle. apply Z.leb_le. apply Z.leb_gt in Hle. lia.
Qed.

Lemma cell_leb_trans (k : kind) (a b c : cell) :
  of_kind k a -> of_kind k b -> of_kind k c ->
  cell_leb a b = true -> cell_leb b c = true -> cell_leb a c = true.
Proof.
  intros [Ha|Ha] [Hb|Hb] [Hc|Hc]; destruct a, b, c; simpl in *; try done;
    rewrite ?implb_Qle_bool;
    try apply text_leb_trans; try apply Qle_bool_trans; try congruence.
  rewrite !Z.leb_le. lia.
Qed.

Lemma comparable_of_kind (cs : list cell) :
  comparable cs = true -> exists k, Forall (of_kind k) cs.
Proof.
  unfold comparable. destruct (omap kind_of cs) as [|k ks] eqn:Hks.
  - intros _. exists KText. apply Forall_forall. intros c Hc. left.
    destruct (kind_of c) as [k|] eqn:Hk; [|done].
    assert (Hin : k ∈ omap kind_of cs).
    { apply list_elem_of_omap. eauto. }
    rewrite Hks in Hin. by apply not_elem_of_nil in Hin.
  - intros Hall. exists k. apply Forall_forall. intros c Hc.
    destruct (kind_of c) as [k'|] eqn:Hk; [|by left]. right.
    assert (Hin : k' ∈ omap kind_of cs).
    { apply list_elem_of_omap. eauto. }
    rewrite Hks in Hin. apply elem_of_cons in Hin as [->|Hin]; [done|].
    rewrite forallb_forall in Hall. apply list_elem_of_In, Hall in Hin.
    apply bool_decide_eq_true in Hin. congruence.
Qed.

Lemma of_kind_comparable (k : kind) (cs : list cell) :
  Forall (of_kind k) cs -> comparable cs = true.
Proof.
  intros Hall. unfold comparable.
  assert (Hks : Forall (fun k' => k' = k) (omap kind_of cs)).
  { apply Forall_forall. intros k' (c & Hc & Hk)%list_elem_of_omap.
    rewrite Forall_forall in Hall. destruct (Hall c Hc); congruence. }
  destruct (omap kind_of cs) as [|k0 ks]; [done|].
  apply Forall_cons in Hks as [-> Hks].
  apply forallb_forall. intros k' Hk'. apply bool_decide_eq_true.
  rewrite Forall_forall in Hks. by apply Hks, list_elem_of_In.
Qed.

Lemma remover_duplicatas_of_kind (df df' : DataFrame) (chave : string) :
  remover_duplicatas df chave = Ok df' ->
  exists k, Forall (fun r => of_kind k (cell_at chave r)) (rows df).
Proof.
  unfold remover_duplicatas, column. case_bool_decide; simpl; [|done].
  destruct (comparable _) eqn:Hc; [|done]. intros _.
  apply comparable_of_kind in Hc as [k Hk]. exists k.
  apply Forall_forall. intros r Hr. rewrite Forall_forall in Hk.
  apply Hk, list_elem_of_In, in_map. by apply list_elem_of_In.
Qed.

Lemma remover_duplicatas_ascending (df df' : DataFrame) (chave : string) :
  remover_duplicatas df chave = Ok df' ->
  StronglySorted (fun x y => cell_leb (cell_at chave x) (cell_at chave y) = true)
    (rows df').
Proof.
  intros Hrun. destruct (remover_duplicatas_of_kind _ _ _ Hrun) as [k Hk].
  apply remover_duplicatas_inv in Hrun as [_ ->]. simpl.
  eapply ascending_sublist; [apply (drop_duplicates_last_sublist (cell_at chave))|].
  apply (sort_by_ascending (cell_at chave) cell_leb (of_kind k));
    [apply cell_leb_total|apply cell_leb_trans|done].
Qed.
(** X18. [remover_duplicatas] leaves the rows in ascending order of the
    key, a missing key after all the others: of two rows of its result
    the earlier one has a key that is not above and not equal to the key
    of the later one. *)
Theorem remover_duplicatas_sorts_by_key (df df' : DataFrame)
  (chave : string) (i j : nat) (ri rj : gmap string cell) :
  remover_duplicatas df chave = Ok df' ->
  (i < j)%nat ->
  rows df' !! i = Some ri ->
  rows df' !! j = Some rj ->
  cell_leb (cell_at chave ri) (cell_at chave rj) = true /\
  cell_at chave ri <> cell_at chave rj /\
  (isna (cell_at chave ri) = true -> isna (cell_at chave rj) = true).
Proof.
  intros Hrun Hij Hi Hj.
  assert (Hle : cell_leb (cell_at chave ri) (cell_at chave rj) = true).
  { eapply (ascending_lookup (cell_at chave) cell_leb); [|done..].
    by eapply remover_duplicatas_ascending. }
  split; [done|]. split.
  - apply remover_duplicatas_NoDup in Hrun. intros Heq.
    assert (i = j); [|lia].
    eapply NoDup_lookup; [done| |].
    + change (List.map ?f ?l) with (f <$> l). rewrite list_lookup_fmap, Hi. done.
    + change (List.map ?f ?l) with (f <$> l).
      rewrite list_lookup_fmap, Hj. simpl. by rewrite Heq.
  - destruct (cell_at chave ri), (cell_at chave rj); done.
Qed.

Lemma remover_duplicatas_sorts_by_key_witness :
  cell_leb (S_ "C1") (S_ "C2") = true /\
  S_ "C1" <> S_ "C2" /\
  (isna (S_ "C1") = true -> isna (S_ "C2") = true).
Proof.
  apply (remover_duplicatas_sorts_by_key
           {| columns := ["id_cliente"];
              rows := [linha [("id_cliente", S_ "C2")];
                       linha [("id_cliente", S_ "C1")];
                       linha [("id_cliente", S_ "C2")]] |}
           {| columns := ["id_cliente"];
              rows := [linha [("id_cliente", S_ "C1")];
                       linha [("id_cliente", S_ "C2")]] |}
           "id_cliente" 0 1
           (linha [("id_cliente", S_ "C1")]) (linha [("id_cliente", S_ "C2")])).
  - vm_compute. reflexivity.
  - lia.
  - reflexivity.
  - reflexivity.
Defined.

(** X19. [remover_duplicatas] run again on its own result returns that
    result: nothing is left to reorder or to remove. *)
Theorem remover_duplicatas_twice (df df' : DataFrame)
  (chave : string) :
  remover_duplicatas df chave = Ok df' ->
  remover_duplicatas df' chave = Ok df'.
Proof.
  intros Hrun.
  pose proof (remover_duplicatas_ascending _ _ _ Hrun) as Hs.
  pose proof (remover_duplicatas_NoDup _ _ _ Hrun) as Hnd.
  destruct (remover_duplicatas_of_kind _ _ _ Hrun) as [k Hk].
  pose proof Hrun as [Hc Hdf']%remover_duplicatas_inv.
  assert (Hcols : columns df' = columns df) by (by rewrite Hdf').
  rewrite remover_duplicatas_ok.
  - rewrite (sort_by_ascending_id (cell_at chave) cell_leb) by done.
    rewrite drop_duplicates_last_id by done.
    rewrite Hcols. rewrite Hdf' at 2. simpl. f_equal.
    by rewrite Hdf'.
  - by rewrite Hcols.
  - apply (of_kind_comparable k).
    apply Forall_forall. intros c Hc'.
    apply list_elem_of_In, in_map_iff in Hc' as (r & <- & Hr).
    rewrite Forall_forall in Hk. apply Hk, list_elem_of_In.
    by eapply remover_duplicatas_In.
Qed.

Lemma remover_duplicatas_twice_witness :
  remover_duplicatas
    {| columns := columns clientes_c1;
       rows := [linha [("id_cliente", S_ "C1"); ("nome", S_ "Ana Maria")]] |}
    "id_cliente" =
  Ok {| columns := columns clientes_c1;
        rows := [linha [("id_cliente", S_ "C1"); ("nome", S_ "Ana Maria")]] |}.
Proof.
  apply (remover_duplicatas_twice clientes_c1).
  vm_compute. reflexivity.
Defined.

(** ** More of the repair and of the standardization *)

Lemma lt_columns_all_false (f g : gmap string cell -> cell)
  (rs : list (gmap string cell)) :
  (forall r, In r rs -> lt_cell (f r) (g r) = Ok false) ->
  lt_columns (List.map f rs) (List.map g rs) = Ok (List.map (fun _ => false) rs).
Proof.
  induction rs as [|r rs IH]; intros Hall; simpl; [done|].
  rewrite (Hall r) by (by left). simpl.
  rewrite IH by (intros; apply Hall; by right). done.
Qed.


(** X20. [corrigir_inconsistencias] run again on its own result changes
    nothing: no delivery is before its shipping any more. *)
Theorem corrigir_inconsistencias_twice (vendas logistica vendas' logistica' : DataFrame) :
  corrigir_inconsistencias vendas logistica = Ok (vendas', logistica') ->
  corrigir_inconsistencias vendas' logistica' = Ok (vendas', logistica').
Proof.
  intros Hrun.
  assert (Hafter : forall r, In r (rows logistica') ->
            lt_cell (cell_at "data_entrega_real" r) (cell_at "data_envio" r)
            = Ok false).
  { intros r. by apply (corrigir_inconsistencias_after vendas logistica vendas'). }
  assert (Hcols : columns logistica' = columns logistica).
  { apply corrigir_inconsistencias_inv in Hrun as (_ & mask & _ & ->). done. }
  revert Hrun. unfold corrigir_inconsistencias, column, mbind, result_bind.
  rewrite Hcols.
  case_bool_decide; [|done]. case_bool_decide; [|done].
  intros _. rewrite lt_columns_all_false by done.
  do 2 f_equal. destruct logistica' as [cs rs]. unfold loc_assign. simpl.
  f_equal. clear. induction rs as [|r rs IH]; simpl; [done|]. by rewrite IH.
Qed.

Lemma corrigir_inconsistencias_twice_witness :
  corrigir_inconsistencias vendas_corrigido
    {| columns := columns logistica_datas;
       rows :=
         [linha [("id_entrega", S_ "E1"); ("id_venda", S_ "V1");
                 ("data_envio", Timestamp 19732);
                 ("data_entrega_real", NaT)];
          linha [("id_entrega", S_ "E2"); ("id_venda", S_ "V1");
                 ("data_envio", NaT);
                 ("data_entrega_real", Timestamp 19734)]] |} =
  Ok (vendas_corrigido,
      {| columns := columns logistica_datas;
         rows :=
           [linha [("id_entrega", S_ "E1"); ("id_venda", S_ "V1");
                   ("data_envio", Timestamp 19732);
                   ("data_entrega_real", NaT)];
            linha [("id_entrega", S_ "E2"); ("id_venda", S_ "V1");
                   ("data_envio", NaT);
                   ("data_entrega_real", Timestamp 19734)]] |}).
Proof.
  apply (corrigir_inconsistencias_twice vendas_corrigido logistica_datas).
  vm_compute. reflexivity.
Defined.









(** ** What the e-mail test accepts *)

Lemma fullmatch_Nothing (s : text) : fullmatch Nothing s = false.
Proof. induction s as [|c s IH]; simpl; done. Qed.

Lemma fullmatch_Epsilon (s : text) : fullmatch Epsilon s = true <-> s = [].
Proof.
  destruct s as [|c s]; simpl; [done|]. by rewrite fullmatch_Nothing.
Qed.

Lemma fullmatch_Alt (r1 r2 : regex) (s : text) :
  fullmatch (Alt r1 r2) s = fullmatch r1 s || fullmatch r2 s.
Proof. revert r1 r2. induction s as [|c s IH]; intros r1 r2; simpl; auto. Qed.

Lemma fullmatch_Class (p : N -> bool) (s : text) :
  fullmatch (Class p) s = true <-> exists c, s = [c] /\ p c = true.
Proof.
  destruct s as [|c s]; simpl.
  - split; [done|]. by intros (c & ? & _).
  - destruct (p c) eqn:Hc.
    + rewrite fullmatch_Epsilon. split.
      * intros ->. eauto.
      * by intros (c' & [= -> ->] & _).
    + rewrite fullmatch_Nothing. split; [done|].
      intros (c' & [= -> ->] & ?). congruence.
Qed.

(** A concatenation matches the strings that split in a match of each
    part. *)
Lemma fullmatch_Cat (r1 r2 : regex) (s : text) :
  fullmatch (Cat r1 r2) s = true <->
  exists s1 s2, s = s1 ++ s2 /\ fullmatch r1 s1 = true /\ fullmatch r2 s2 = true.
Proof.
  revert r1 r2. induction s as [|c s IH]; intros r1 r2.
  - simpl. rewrite andb_true_iff. split.
    + intros [H1 H2]. by exists [], [].
    + intros (s1 & s2 & Hs & H1 & H2).
      symmetry in Hs. apply app_eq_nil in Hs as [-> ->]. done.
  - simpl. split.
    + intros Hm. destruct (nullable r1) eqn:Hn.
      * rewrite fullmatch_Alt in Hm. apply orb_prop in Hm as [Hm|Hm].
        -- apply IH in Hm as (s1 & s2 & -> & H1 & H2).
           by exists (c :: s1), s2.
        -- by exists [], (c :: s).
      * apply IH in Hm as (s1 & s2 & -> & H1 & H2).
        by exists (c :: s1), s2.
    + intros (s1 & s2 & Hs & H1 & H2). destruct s1 as [|c' s1].
      * simpl in Hs, H1. subst s2. rewrite H1, fullmatch_Alt.
        simpl in H2. rewrite H2. apply orb_true_r.
      * simpl in Hs. injection Hs as <- ->. simpl in H1.
        assert (Hc : fullmatch (Cat (deriv c r1) r2) (s1 ++ s2) = true).
        { apply IH. by exists s1, s2. }
        destruct (nullable r1); [|done].
        rewrite fullmatch_Alt, Hc. done.
Qed.

(** The repetition of a class matches the strings of the class. *)
Lemma fullmatch_Star_Class (p : N -> bool) (s : text) :
  fullmatch (Star (Class p)) s = forallb p s.
Proof.
  induction s as [|c s IH]; [done|]. simpl.
  destruct (p c) eqn:Hc; simpl.
  - rewrite <- IH. apply eq_true_iff_eq. rewrite fullmatch_Cat. split.
    + intros (s1 & s2 & -> & ->%fullmatch_Epsilon & H2). done.
    + intros Hm. by exists [], s.
  - apply not_true_is_false. intros (s1 & s2 & _ & H1 & _)%fullmatch_Cat.
    by rewrite fullmatch_Nothing in H1.
Qed.

Lemma fullmatch_Plus_Class (p : N -> bool) (s : text) :
  fullmatch (Plus (Class p)) s = true <-> s <> [] /\ forallb p s = true.
Proof.
  unfold Plus. rewrite fullmatch_Cat. split.
  - intros (s1 & s2 & -> & (c & -> & Hc)%fullmatch_Class & H2).
    rewrite fullmatch_Star_Class in H2. simpl. by rewrite Hc, H2.
  - intros [Hne Hall]. destruct s as [|c s]; [done|].
    simpl in Hall. apply andb_prop in Hall as [Hc Hall].
    exists [c], s. split; [done|]. split.
    + apply fullmatch_Class. eauto.
    + by rewrite fullmatch_Star_Class.
Qed.

Lemma fullmatch_lit (a : N) (s : text) : fullmatch (lit a) s = true <-> s = [a].
Proof.
  unfold lit. rewrite fullmatch_Class. split.
  - intros (c & -> & ->%N.eqb_eq). done.
  - intros ->. exists a. by rewrite N.eqb_refl.
Qed.

Lemma forallb_not_at (s : text) :
  forallb (fun c => negb (c =? 64)%N) s = true <-> 64%N ∉ s.
Proof.
  rewrite forallb_forall. split.
  - intros Hall Hin. apply list_elem_of_In, Hall in Hin. done.
  - intros Hnin c Hc. apply negb_true_iff, N.eqb_neq. intros ->.
    by apply Hnin, list_elem_of_In.
Qed.

Lemma fullmatch_email_pattern (s : text) :
  fullmatch email_pattern s = true <->
  exists x y z, s = x ++ [64%N] ++ y ++ [46%N] ++ z /\
    x <> [] /\ y <> [] /\ z <> [] /\ (64%N ∉ x) /\ (64%N ∉ y) /\ (64%N ∉ z).
Proof.
  unfold email_pattern, not_at. rewrite fullmatch_Cat. split.
  - intros (x & s1 & -> & [Hx Hxa]%fullmatch_Plus_Class & H1).
    apply fullmatch_Cat in H1 as (a & s2 & -> & ->%fullmatch_lit & H2).
    apply fullmatch_Cat in H2 as (y & s3 & -> & [Hy Hya]%fullmatch_Plus_Class & H3).
    apply fullmatch_Cat in H3 as (b & z & -> & ->%fullmatch_lit & [Hz Hza]%fullmatch_Plus_Class).
    apply forallb_not_at in Hxa, Hya, Hza.
    by exists x, y, z.
  - intros (x & y & z & -> & Hx & Hy & Hz & Hxa & Hya & Hza).
    apply forallb_not_at in Hxa, Hya, Hza.
    exists x, ([64%N] ++ y ++ [46%N] ++ z). split; [done|].
    split; [by apply fullmatch_Plus_Class|].
    apply fullmatch_Cat. exists [64%N], (y ++ [46%N] ++ z). split; [done|].
    split; [by apply fullmatch_lit|].
    apply fullmatch_Cat. exists y, ([46%N] ++ z). split; [done|].
    split; [by apply fullmatch_Plus_Class|].
    apply fullmatch_Cat. exists [46%N], z. split; [done|].
    split; [by apply fullmatch_lit|by apply fullmatch_Plus_Class].
Qed.

Lemma re_search_iff (r : regex) (s : text) :
  re_search r s = true <->
  exists pre m post, s = pre ++ m ++ post /\ fullmatch r m = true.
Proof.
  unfold re_search, any_char. rewrite fullmatch_Cat. split.
  - intros (pre & s1 & -> & _ & (m & post & -> & Hm & _)%fullmatch_Cat).
    by exists pre, m, post.
  - intros (pre & m & post & -> & Hm). exists pre, (m ++ post).
    split; [done|]. split.
    + rewrite fullmatch_Star_Class. by apply forallb_forall.
    + apply fullmatch_Cat. exists m, post. split; [done|]. split; [done|].
      rewrite fullmatch_Star_Class. by apply forallb_forall.
Qed.

(** X23. The e-mail test of the ingestion accepts a cell exactly when it
    is a string in which, somewhere, an [@] stands between two runs of
    characters, the second of which holds a dot that is neither its
    first nor its last character, none of the three pieces around the
    [@] and the dot being empty or holding an [@]. The test is not
    anchored: text before and after such a piece is accepted, and a
    missing value or a value that is not a string is rejected. *)
Theorem email_valido_iff (c : cell) :
  email_valido c = true <->
  exists pre x y z post,
    c = Str (pre ++ x ++ [64%N] ++ y ++ [46%N] ++ z ++ post) /\
    x <> [] /\ y <> [] /\ z <> [] /\
    (64%N ∉ x) /\ (64%N ∉ y) /\ (64%N ∉ z).
Proof.
  unfold email_valido, mask_and. split.
  - intros [_ Hs]%andb_prop. destruct c as [| |s| | |]; try done.
    simpl in Hs. apply re_search_iff in Hs as (pre & m & post & -> & Hm).
    apply fullmatch_email_pattern in Hm
      as (x & y & z & -> & Hx & Hy & Hz & Hxa & Hya & Hza).
    exists pre, x, y, z, post. split; [|done].
    by rewrite <- !app_assoc.
  - intros (pre & x & y & z & post & -> & Hx & Hy & Hz & Hxa & Hya & Hza).
    simpl. apply re_search_iff.
    exists pre, (x ++ [64%N] ++ y ++ [46%N] ++ z), post. split.
    + by rewrite <- !app_assoc.
    + apply fullmatch_email_pattern. by exists x, y, z.
Qed.
